(** * mcp_server.py: a shallow embedding of the PostgreSQL tool handlers

    The development follows [src/mcp_server.py]: the module-level
    [DB_CONFIG], the connection helper [get_db_connection] and the four
    tool handlers [list_tables], [get_table_schema], [execute_query] and
    [execute_safe_query].

    Modelling conventions.
    - A Python [str] is the list of its code points.  Whitespace is what
      [str.isspace] accepts, and [str.upper] is the full uppercase
      mapping of each character, taken from the Unicode 14.0 database of
      CPython 3.11; [int] reads any Unicode decimal digit.
    - The database driver (asyncpg) is an explicit parameter: a record of
      state transformers over an abstract world [W].  Each of [connect],
      [fetch], [execute] and [close] either returns or raises.
    - A handler is a computation in a state-and-exception monad.  The
      state is the driver's world together with the trace of driver calls
      made so far; an exception keeps the state reached when it was raised
      (what [try]/[except]/[finally] need).
    - A value of a row is [None], an [int], a [str], or an object of
      another type known by the name of its type, its [str()] text and
      its truth value.  [json.dumps] writes the first three natively;
      for the last it calls [default] when given one and raises
      [TypeError] otherwise.  A handler's payload is the value
      [json.dumps] writes.
    - Calls to [logger] have no effect on the result; only the evaluation
      of their arguments is kept where it can raise. *)

From Stdlib Require Import String Ascii List ZArith NArith Bool Lia.
From stdpp Require Import gmap.
Import ListNotations.
Local Open Scope string_scope.
Local Open Scope list_scope.

(** ** Python strings *)

(** A [str]: its code points. *)
Definition pystr : Type := list N.

(** A literal of the source, character by character. *)
Fixpoint str (s : string) : pystr :=
  match s with
  | EmptyString => []
  | String c s' => N_of_ascii c :: str s'
  end.

Coercion str : string >-> pystr.

Module PyStr.

(** [str.isspace] on one character: TAB, LF, VT, FF, CR, the separators
    FS, GS, RS, US, the space, NEL, the no-break space, and the space
    separators and line and paragraph separators beyond Latin-1. *)
Definition isspace (c : N) : bool :=
  (((9 <=? c) && (c <=? 13)) || ((28 <=? c) && (c <=? 32))
   || (c =? 133) || (c =? 160) || (c =? 5760)
   || ((8192 <=? c) && (c <=? 8202))
   || (c =? 8232) || (c =? 8233) || (c =? 8239) || (c =? 8287) || (c =? 12288))%N.

(** The characters beyond ASCII that [str.upper] changes, each with its
    full uppercase mapping (one to three characters). *)
Definition upper_table : list (N * list N) :=
  [ (181, [924]); (223, [83; 83]); (224, [192]); (225, [193]); (226, [194]); (227, [195]);
    (228, [196]); (229, [197]); (230, [198]); (231, [199]); (232, [200]); (233, [201]);
    (234, [202]); (235, [203]); (236, [204]); (237, [205]); (238, [206]); (239, [207]);
    (240, [208]); (241, [209]); (242, [210]); (243, [211]); (244, [212]); (245, [213]);
    (246, [214]); (248, [216]); (249, [217]); (250, [218]); (251, [219]); (252, [220]);
    (253, [221]); (254, [222]); (255, [376]); (257, [256]); (259, [258]); (261, [260]);
    (263, [262]); (265, [264]); (267, [266]); (269, [268]); (271, [270]); (273, [272]);
    (275, [274]); (277, [276]); (279, [278]); (281, [280]); (283, [282]); (285, [284]);
    (287, [286]); (289, [288]); (291, [290]); (293, [292]); (295, [294]); (297, [296]);
    (299, [298]); (301, [300]); (303, [302]); (305, [73]); (307, [306]); (309, [308]);
    (311, [310]); (314, [313]); (316, [315]); (318, [317]); (320, [319]); (322, [321]);
    (324, [323]); (326, [325]); (328, [327]); (329, [700; 78]); (331, [330]); (333, [332]);
    (335, [334]); (337, [336]); (339, [338]); (341, [340]); (343, [342]); (345, [344]);
    (347, [346]); (349, [348]); (351, [350]); (353, [352]); (355, [354]); (357, [356]);
    (359, [358]); (361, [360]); (363, [362]); (365, [364]); (367, [366]); (369, [368]);
    (371, [370]); (373, [372]); (375, [374]); (378, [377]); (380, [379]); (382, [381]);
    (383, [83]); (384, [579]); (387, [386]); (389, [388]); (392, [391]); (396, [395]);
    (402, [401]); (405, [502]); (409, [408]); (410, [573]); (414, [544]); (417, [416]);
    (419, [418]); (421, [420]); (424, [423]); (429, [428]); (432, [431]); (436, [435]);
    (438, [437]); (441, [440]); (445, [444]); (447, [503]); (453, [452]); (454, [452]);
    (456, [455]); (457, [455]); (459, [458]); (460, [458]); (462, [461]); (464, [463]);
    (466, [465]); (468, [467]); (470, [469]); (472, [471]); (474, [473]); (476, [475]);
    (477, [398]); (479, [478]); (481, [480]); (483, [482]); (485, [484]); (487, [486]);
    (489, [488]); (491, [490]); (493, [492]); (495, [494]); (496, [74; 780]); (498, [497]);
    (499, [497]); (501, [500]); (505, [504]); (507, [506]); (509, [508]); (511, [510]);
    (513, [512]); (515, [514]); (517, [516]); (519, [518]); (521, [520]); (523, [522]);
    (525, [524]); (527, [526]); (529, [528]); (531, [530]); (533, [532]); (535, [534]);
    (537, [536]); (539, [538]); (541, [540]); (543, [542]); (547, [546]); (549, [548]);
    (551, [550]); (553, [552]); (555, [554]); (557, [556]); (559, [558]); (561, [560]);
    (563, [562]); (572, [571]); (575, [11390]); (576, [11391]); (578, [577]); (583, [582]);
    (585, [584]); (587, [586]); (589, [588]); (591, [590]); (592, [11375]); (593, [11373]);
    (594, [11376]); (595, [385]); (596, [390]); (598, [393]); (599, [394]); (601, [399]);
    (603, [400]); (604, [42923]); (608, [403]); (609, [42924]); (611, [404]); (613, [42893]);
    (614, [42922]); (616, [407]); (617, [406]); (618, [42926]); (619, [11362]); (620, [42925]);
    (623, [412]); (625, [11374]); (626, [413]); (629, [415]); (637, [11364]); (640, [422]);
    (642, [42949]); (643, [425]); (647, [42929]); (648, [430]); (649, [580]); (650, [433]);
    (651, [434]); (652, [581]); (658, [439]); (669, [42930]); (670, [42928]); (837, [921]);
    (881, [880]); (883, [882]); (887, [886]); (891, [1021]); (892, [1022]); (893, [1023]);
    (912, [921; 776; 769]); (940, [902]); (941, [904]); (942, [905]); (943, [906]);
    (944, [933; 776; 769]); (945, [913]); (946, [914]); (947, [915]); (948, [916]); (949, [917]);
    (950, [918]); (951, [919]); (952, [920]); (953, [921]); (954, [922]); (955, [923]);
    (956, [924]); (957, [925]); (958, [926]); (959, [927]); (960, [928]); (961, [929]);
    (962, [931]); (963, [931]); (964, [932]); (965, [933]); (966, [934]); (967, [935]);
    (968, [936]); (969, [937]); (970, [938]); (971, [939]); (972, [908]); (973, [910]);
    (974, [911]); (976, [914]); (977, [920]); (981, [934]); (982, [928]); (983, [975]);
    (985, [984]); (987, [986]); (989, [988]); (991, [990]); (993, [992]); (995, [994]);
    (997, [996]); (999, [998]); (1001, [1000]); (1003, [1002]); (1005, [1004]); (1007, [1006]);
    (1008, [922]); (1009, [929]); (1010, [1017]); (1011, [895]); (1013, [917]); (1016, [1015]);
    (1019, [1018]); (1072, [1040]); (1073, [1041]); (1074, [1042]); (1075, [1043]);
    (1076, [1044]); (1077, [1045]); (1078, [1046]); (1079, [1047]); (1080, [1048]);
    (1081, [1049]); (1082, [1050]); (1083, [1051]); (1084, [1052]); (1085, [1053]);
    (1086, [1054]); (1087, [1055]); (1088, [1056]); (1089, [1057]); (1090, [1058]);
    (1091, [1059]); (1092, [1060]); (1093, [1061]); (1094, [1062]); (1095, [1063]);
    (1096, [1064]); (1097, [1065]); (1098, [1066]); (1099, [1067]); (1100, [1068]);
    (1101, [1069]); (1102, [1070]); (1103, [1071]); (1104, [1024]); (1105, [1025]);
    (1106, [1026]); (1107, [1027]); (1108, [1028]); (1109, [1029]); (1110, [1030]);
    (1111, [1031]); (1112, [1032]); (1113, [1033]); (1114, [1034]); (1115, [1035]);
    (1116, [1036]); (1117, [1037]); (1118, [1038]); (1119, [1039]); (1121, [1120]);
    (1123, [1122]); (1125, [1124]); (1127, [1126]); (1129, [1128]); (1131, [1130]);
    (1133, [1132]); (1135, [1134]); (1137, [1136]); (1139, [1138]); (1141, [1140]);
    (1143, [1142]); (1145, [1144]); (1147, [1146]); (1149, [1148]); (1151, [1150]);
    (1153, [1152]); (1163, [1162]); (1165, [1164]); (1167, [1166]); (1169, [1168]);
    (1171, [1170]); (1173, [1172]); (1175, [1174]); (1177, [1176]); (1179, [1178]);
    (1181, [1180]); (1183, [1182]); (1185, [1184]); (1187, [1186]); (1189, [1188]);
    (1191, [1190]); (1193, [1192]); (1195, [1194]); (1197, [1196]); (1199, [1198]);
    (1201, [1200]); (1203, [1202]); (1205, [1204]); (1207, [1206]); (1209, [1208]);
    (1211, [1210]); (1213, [1212]); (1215, [1214]); (1218, [1217]); (1220, [1219]);
    (1222, [1221]); (1224, [1223]); (1226, [1225]); (1228, [1227]); (1230, [1229]);
    (1231, [1216]); (1233, [1232]); (1235, [1234]); (1237, [1236]); (1239, [1238]);
    (1241, [1240]); (1243, [1242]); (1245, [1244]); (1247, [1246]); (1249, [1248]);
    (1251, [1250]); (1253, [1252]); (1255, [1254]); (1257, [1256]); (1259, [1258]);
    (1261, [1260]); (1263, [1262]); (1265, [1264]); (1267, [1266]); (1269, [1268]);
    (1271, [1270]); (1273, [1272]); (1275, [1274]); (1277, [1276]); (1279, [1278]);
    (1281, [1280]); (1283, [1282]); (1285, [1284]); (1287, [1286]); (1289, [1288]);
    (1291, [1290]); (1293, [1292]); (1295, [1294]); (1297, [1296]); (1299, [1298]);
    (1301, [1300]); (1303, [1302]); (1305, [1304]); (1307, [1306]); (1309, [1308]);
    (1311, [1310]); (1313, [1312]); (1315, [1314]); (1317, [1316]); (1319, [1318]);
    (1321, [1320]); (1323, [1322]); (1325, [1324]); (1327, [1326]); (1377, [1329]);
    (1378, [1330]); (1379, [1331]); (1380, [1332]); (1381, [1333]); (1382, [1334]);
    (1383, [1335]); (1384, [1336]); (1385, [1337]); (1386, [1338]); (1387, [1339]);
    (1388, [1340]); (1389, [1341]); (1390, [1342]); (1391, [1343]); (1392, [1344]);
    (1393, [1345]); (1394, [1346]); (1395, [1347]); (1396, [1348]); (1397, [1349]);
    (1398, [1350]); (1399, [1351]); (1400, [1352]); (1401, [1353]); (1402, [1354]);
    (1403, [1355]); (1404, [1356]); (1405, [1357]); (1406, [1358]); (1407, [1359]);
    (1408, [1360]); (1409, [1361]); (1410, [1362]); (1411, [1363]); (1412, [1364]);
    (1413, [1365]); (1414, [1366]); (1415, [1333; 1362]); (4304, [7312]); (4305, [7313]);
    (4306, [7314]); (4307, [7315]); (4308, [7316]); (4309, [7317]); (4310, [7318]);
    (4311, [7319]); (4312, [7320]); (4313, [7321]); (4314, [7322]); (4315, [7323]);
    (4316, [7324]); (4317, [7325]); (4318, [7326]); (4319, [7327]); (4320, [7328]);
    (4321, [7329]); (4322, [7330]); (4323, [7331]); (4324, [7332]); (4325, [7333]);
    (4326, [7334]); (4327, [7335]); (4328, [7336]); (4329, [7337]); (4330, [7338]);
    (4331, [7339]); (4332, [7340]); (4333, [7341]); (4334, [7342]); (4335, [7343]);
    (4336, [7344]); (4337, [7345]); (4338, [7346]); (4339, [7347]); (4340, [7348]);
    (4341, [7349]); (4342, [7350]); (4343, [7351]); (4344, [7352]); (4345, [7353]);
    (4346, [7354]); (4349, [7357]); (4350, [7358]); (4351, [7359]); (5112, [5104]);
    (5113, [5105]); (5114, [5106]); (5115, [5107]); (5116, [5108]); (5117, [5109]);
    (7296, [1042]); (7297, [1044]); (7298, [1054]); (7299, [1057]); (7300, [1058]);
    (7301, [1058]); (7302, [1066]); (7303, [1122]); (7304, [42570]); (7545, [42877]);
    (7549, [11363]); (7566, [42950]); (7681, [7680]); (7683, [7682]); (7685, [7684]);
    (7687, [7686]); (7689, [7688]); (7691, [7690]); (7693, [7692]); (7695, [7694]);
    (7697, [7696]); (7699, [7698]); (7701, [7700]); (7703, [7702]); (7705, [7704]);
    (7707, [7706]); (7709, [7708]); (7711, [7710]); (7713, [7712]); (7715, [7714]);
    (7717, [7716]); (7719, [7718]); (7721, [7720]); (7723, [7722]); (7725, [7724]);
    (7727, [7726]); (7729, [7728]); (7731, [7730]); (7733, [7732]); (7735, [7734]);
    (7737, [7736]); (7739, [7738]); (7741, [7740]); (7743, [7742]); (7745, [7744]);
    (7747, [7746]); (7749, [7748]); (7751, [7750]); (7753, [7752]); (7755, [7754]);
    (7757, [7756]); (7759, [7758]); (7761, [7760]); (7763, [7762]); (7765, [7764]);
    (7767, [7766]); (7769, [7768]); (7771, [7770]); (7773, [7772]); (7775, [7774]);
    (7777, [7776]); (7779, [7778]); (7781, [7780]); (7783, [7782]); (7785, [7784]);
    (7787, [7786]); (7789, [7788]); (7791, [7790]); (7793, [7792]); (7795, [7794]);
    (7797, [7796]); (7799, [7798]); (7801, [7800]); (7803, [7802]); (7805, [7804]);
    (7807, [7806]); (7809, [7808]); (7811, [7810]); (7813, [7812]); (7815, [7814]);
    (7817, [7816]); (7819, [7818]); (7821, [7820]); (7823, [7822]); (7825, [7824]);
    (7827, [7826]); (7829, [7828]); (7830, [72; 817]); (7831, [84; 776]); (7832, [87; 778]);
    (7833, [89; 778]); (7834, [65; 702]); (7835, [7776]); (7841, [7840]); (7843, [7842]);
    (7845, [7844]); (7847, [7846]); (7849, [7848]); (7851, [7850]); (7853, [7852]);
    (7855, [7854]); (7857, [7856]); (7859, [7858]); (7861, [7860]); (7863, [7862]);
    (7865, [7864]); (7867, [7866]); (7869, [7868]); (7871, [7870]); (7873, [7872]);
    (7875, [7874]); (7877, [7876]); (7879, [7878]); (7881, [7880]); (7883, [7882]);
    (7885, [7884]); (7887, [7886]); (7889, [7888]); (7891, [7890]); (7893, [7892]);
    (7895, [7894]); (7897, [7896]); (7899, [7898]); (7901, [7900]); (7903, [7902]);
    (7905, [7904]); (7907, [7906]); (7909, [7908]); (7911, [7910]); (7913, [7912]);
    (7915, [7914]); (7917, [7916]); (7919, [7918]); (7921, [7920]); (7923, [7922]);
    (7925, [7924]); (7927, [7926]); (7929, [7928]); (7931, [7930]); (7933, [7932]);
    (7935, [7934]); (7936, [7944]); (7937, [7945]); (7938, [7946]); (7939, [7947]);
    (7940, [7948]); (7941, [7949]); (7942, [7950]); (7943, [7951]); (7952, [7960]);
    (7953, [7961]); (7954, [7962]); (7955, [7963]); (7956, [7964]); (7957, [7965]);
    (7968, [7976]); (7969, [7977]); (7970, [7978]); (7971, [7979]); (7972, [7980]);
    (7973, [7981]); (7974, [7982]); (7975, [7983]); (7984, [7992]); (7985, [7993]);
    (7986, [7994]); (7987, [7995]); (7988, [7996]); (7989, [7997]); (7990, [7998]);
    (7991, [7999]); (8000, [8008]); (8001, [8009]); (8002, [8010]); (8003, [8011]);
    (8004, [8012]); (8005, [8013]); (8016, [933; 787]); (8017, [8025]); (8018, [933; 787; 768]);
    (8019, [8027]); (8020, [933; 787; 769]); (8021, [8029]); (8022, [933; 787; 834]);
    (8023, [8031]); (8032, [8040]); (8033, [8041]); (8034, [8042]); (8035, [8043]);
    (8036, [8044]); (8037, [8045]); (8038, [8046]); (8039, [8047]); (8048, [8122]);
    (8049, [8123]); (8050, [8136]); (8051, [8137]); (8052, [8138]); (8053, [8139]);
    (8054, [8154]); (8055, [8155]); (8056, [8184]); (8057, [8185]); (8058, [8170]);
    (8059, [8171]); (8060, [8186]); (8061, [8187]); (8064, [7944; 921]); (8065, [7945; 921]);
    (8066, [7946; 921]); (8067, [7947; 921]); (8068, [7948; 921]); (8069, [7949; 921]);
    (8070, [7950; 921]); (8071, [7951; 921]); (8072, [7944; 921]); (8073, [7945; 921]);
    (8074, [7946; 921]); (8075, [7947; 921]); (8076, [7948; 921]); (8077, [7949; 921]);
    (8078, [7950; 921]); (8079, [7951; 921]); (8080, [7976; 921]); (8081, [7977; 921]);
    (8082, [7978; 921]); (8083, [7979; 921]); (8084, [7980; 921]); (8085, [7981; 921]);
    (8086, [7982; 921]); (8087, [7983; 921]); (8088, [7976; 921]); (8089, [7977; 921]);
    (8090, [7978; 921]); (8091, [7979; 921]); (8092, [7980; 921]); (8093, [7981; 921]);
    (8094, [7982; 921]); (8095, [7983; 921]); (8096, [8040; 921]); (8097, [8041; 921]);
    (8098, [8042; 921]); (8099, [8043; 921]); (8100, [8044; 921]); (8101, [8045; 921]);
    (8102, [8046; 921]); (8103, [8047; 921]); (8104, [8040; 921]); (8105, [8041; 921]);
    (8106, [8042; 921]); (8107, [8043; 921]); (8108, [8044; 921]); (8109, [8045; 921]);
    (8110, [8046; 921]); (8111, [8047; 921]); (8112, [8120]); (8113, [8121]);
    (8114, [8122; 921]); (8115, [913; 921]); (8116, [902; 921]); (8118, [913; 834]);
    (8119, [913; 834; 921]); (8124, [913; 921]); (8126, [921]); (8130, [8138; 921]);
    (8131, [919; 921]); (8132, [905; 921]); (8134, [919; 834]); (8135, [919; 834; 921]);
    (8140, [919; 921]); (8144, [8152]); (8145, [8153]); (8146, [921; 776; 768]);
    (8147, [921; 776; 769]); (8150, [921; 834]); (8151, [921; 776; 834]); (8160, [8168]);
    (8161, [8169]); (8162, [933; 776; 768]); (8163, [933; 776; 769]); (8164, [929; 787]);
    (8165, [8172]); (8166, [933; 834]); (8167, [933; 776; 834]); (8178, [8186; 921]);
    (8179, [937; 921]); (8180, [911; 921]); (8182, [937; 834]); (8183, [937; 834; 921]);
    (8188, [937; 921]); (8526, [8498]); (8560, [8544]); (8561, [8545]); (8562, [8546]);
    (8563, [8547]); (8564, [8548]); (8565, [8549]); (8566, [8550]); (8567, [8551]);
    (8568, [8552]); (8569, [8553]); (8570, [8554]); (8571, [8555]); (8572, [8556]);
    (8573, [8557]); (8574, [8558]); (8575, [8559]); (8580, [8579]); (9424, [9398]);
    (9425, [9399]); (9426, [9400]); (9427, [9401]); (9428, [9402]); (9429, [9403]);
    (9430, [9404]); (9431, [9405]); (9432, [9406]); (9433, [9407]); (9434, [9408]);
    (9435, [9409]); (9436, [9410]); (9437, [9411]); (9438, [9412]); (9439, [9413]);
    (9440, [9414]); (9441, [9415]); (9442, [9416]); (9443, [9417]); (9444, [9418]);
    (9445, [9419]); (9446, [9420]); (9447, [9421]); (9448, [9422]); (9449, [9423]);
    (11312, [11264]); (11313, [11265]); (11314, [11266]); (11315, [11267]); (11316, [11268]);
    (11317, [11269]); (11318, [11270]); (11319, [11271]); (11320, [11272]); (11321, [11273]);
    (11322, [11274]); (11323, [11275]); (11324, [11276]); (11325, [11277]); (11326, [11278]);
    (11327, [11279]); (11328, [11280]); (11329, [11281]); (11330, [11282]); (11331, [11283]);
    (11332, [11284]); (11333, [11285]); (11334, [11286]); (11335, [11287]); (11336, [11288]);
    (11337, [11289]); (11338, [11290]); (11339, [11291]); (11340, [11292]); (11341, [11293]);
    (11342, [11294]); (11343, [11295]); (11344, [11296]); (11345, [11297]); (11346, [11298]);
    (11347, [11299]); (11348, [11300]); (11349, [11301]); (11350, [11302]); (11351, [11303]);
    (11352, [11304]); (11353, [11305]); (11354, [11306]); (11355, [11307]); (11356, [11308]);
    (11357, [11309]); (11358, [11310]); (11359, [11311]); (11361, [11360]); (11365, [570]);
    (11366, [574]); (11368, [11367]); (11370, [11369]); (11372, [11371]); (11379, [11378]);
    (11382, [11381]); (11393, [11392]); (11395, [11394]); (11397, [11396]); (11399, [11398]);
    (11401, [11400]); (11403, [11402]); (11405, [11404]); (11407, [11406]); (11409, [11408]);
    (11411, [11410]); (11413, [11412]); (11415, [11414]); (11417, [11416]); (11419, [11418]);
    (11421, [11420]); (11423, [11422]); (11425, [11424]); (11427, [11426]); (11429, [11428]);
    (11431, [11430]); (11433, [11432]); (11435, [11434]); (11437, [11436]); (11439, [11438]);
    (11441, [11440]); (11443, [11442]); (11445, [11444]); (11447, [11446]); (11449, [11448]);
    (11451, [11450]); (11453, [11452]); (11455, [11454]); (11457, [11456]); (11459, [11458]);
    (11461, [11460]); (11463, [11462]); (11465, [11464]); (11467, [11466]); (11469, [11468]);
    (11471, [11470]); (11473, [11472]); (11475, [11474]); (11477, [11476]); (11479, [11478]);
    (11481, [11480]); (11483, [11482]); (11485, [11484]); (11487, [11486]); (11489, [11488]);
    (11491, [11490]); (11500, [11499]); (11502, [11501]); (11507, [11506]); (11520, [4256]);
    (11521, [4257]); (11522, [4258]); (11523, [4259]); (11524, [4260]); (11525, [4261]);
    (11526, [4262]); (11527, [4263]); (11528, [4264]); (11529, [4265]); (11530, [4266]);
    (11531, [4267]); (11532, [4268]); (11533, [4269]); (11534, [4270]); (11535, [4271]);
    (11536, [4272]); (11537, [4273]); (11538, [4274]); (11539, [4275]); (11540, [4276]);
    (11541, [4277]); (11542, [4278]); (11543, [4279]); (11544, [4280]); (11545, [4281]);
    (11546, [4282]); (11547, [4283]); (11548, [4284]); (11549, [4285]); (11550, [4286]);
    (11551, [4287]); (11552, [4288]); (11553, [4289]); (11554, [4290]); (11555, [4291]);
    (11556, [4292]); (11557, [4293]); (11559, [4295]); (11565, [4301]); (42561, [42560]);
    (42563, [42562]); (42565, [42564]); (42567, [42566]); (42569, [42568]); (42571, [42570]);
    (42573, [42572]); (42575, [42574]); (42577, [42576]); (42579, [42578]); (42581, [42580]);
    (42583, [42582]); (42585, [42584]); (42587, [42586]); (42589, [42588]); (42591, [42590]);
    (42593, [42592]); (42595, [42594]); (42597, [42596]); (42599, [42598]); (42601, [42600]);
    (42603, [42602]); (42605, [42604]); (42625, [42624]); (42627, [42626]); (42629, [42628]);
    (42631, [42630]); (42633, [42632]); (42635, [42634]); (42637, [42636]); (42639, [42638]);
    (42641, [42640]); (42643, [42642]); (42645, [42644]); (42647, [42646]); (42649, [42648]);
    (42651, [42650]); (42787, [42786]); (42789, [42788]); (42791, [42790]); (42793, [42792]);
    (42795, [42794]); (42797, [42796]); (42799, [42798]); (42803, [42802]); (42805, [42804]);
    (42807, [42806]); (42809, [42808]); (42811, [42810]); (42813, [42812]); (42815, [42814]);
    (42817, [42816]); (42819, [42818]); (42821, [42820]); (42823, [42822]); (42825, [42824]);
    (42827, [42826]); (42829, [42828]); (42831, [42830]); (42833, [42832]); (42835, [42834]);
    (42837, [42836]); (42839, [42838]); (42841, [42840]); (42843, [42842]); (42845, [42844]);
    (42847, [42846]); (42849, [42848]); (42851, [42850]); (42853, [42852]); (42855, [42854]);
    (42857, [42856]); (42859, [42858]); (42861, [42860]); (42863, [42862]); (42874, [42873]);
    (42876, [42875]); (42879, [42878]); (42881, [42880]); (42883, [42882]); (42885, [42884]);
    (42887, [42886]); (42892, [42891]); (42897, [42896]); (42899, [42898]); (42900, [42948]);
    (42903, [42902]); (42905, [42904]); (42907, [42906]); (42909, [42908]); (42911, [42910]);
    (42913, [42912]); (42915, [42914]); (42917, [42916]); (42919, [42918]); (42921, [42920]);
    (42933, [42932]); (42935, [42934]); (42937, [42936]); (42939, [42938]); (42941, [42940]);
    (42943, [42942]); (42945, [42944]); (42947, [42946]); (42952, [42951]); (42954, [42953]);
    (42961, [42960]); (42967, [42966]); (42969, [42968]); (42998, [42997]); (43859, [42931]);
    (43888, [5024]); (43889, [5025]); (43890, [5026]); (43891, [5027]); (43892, [5028]);
    (43893, [5029]); (43894, [5030]); (43895, [5031]); (43896, [5032]); (43897, [5033]);
    (43898, [5034]); (43899, [5035]); (43900, [5036]); (43901, [5037]); (43902, [5038]);
    (43903, [5039]); (43904, [5040]); (43905, [5041]); (43906, [5042]); (43907, [5043]);
    (43908, [5044]); (43909, [5045]); (43910, [5046]); (43911, [5047]); (43912, [5048]);
    (43913, [5049]); (43914, [5050]); (43915, [5051]); (43916, [5052]); (43917, [5053]);
    (43918, [5054]); (43919, [5055]); (43920, [5056]); (43921, [5057]); (43922, [5058]);
    (43923, [5059]); (43924, [5060]); (43925, [5061]); (43926, [5062]); (43927, [5063]);
    (43928, [5064]); (43929, [5065]); (43930, [5066]); (43931, [5067]); (43932, [5068]);
    (43933, [5069]); (43934, [5070]); (43935, [5071]); (43936, [5072]); (43937, [5073]);
    (43938, [5074]); (43939, [5075]); (43940, [5076]); (43941, [5077]); (43942, [5078]);
    (43943, [5079]); (43944, [5080]); (43945, [5081]); (43946, [5082]); (43947, [5083]);
    (43948, [5084]); (43949, [5085]); (43950, [5086]); (43951, [5087]); (43952, [5088]);
    (43953, [5089]); (43954, [5090]); (43955, [5091]); (43956, [5092]); (43957, [5093]);
    (43958, [5094]); (43959, [5095]); (43960, [5096]); (43961, [5097]); (43962, [5098]);
    (43963, [5099]); (43964, [5100]); (43965, [5101]); (43966, [5102]); (43967, [5103]);
    (64256, [70; 70]); (64257, [70; 73]); (64258, [70; 76]); (64259, [70; 70; 73]);
    (64260, [70; 70; 76]); (64261, [83; 84]); (64262, [83; 84]); (64275, [1348; 1350]);
    (64276, [1348; 1333]); (64277, [1348; 1339]); (64278, [1358; 1350]); (64279, [1348; 1341]);
    (65345, [65313]); (65346, [65314]); (65347, [65315]); (65348, [65316]); (65349, [65317]);
    (65350, [65318]); (65351, [65319]); (65352, [65320]); (65353, [65321]); (65354, [65322]);
    (65355, [65323]); (65356, [65324]); (65357, [65325]); (65358, [65326]); (65359, [65327]);
    (65360, [65328]); (65361, [65329]); (65362, [65330]); (65363, [65331]); (65364, [65332]);
    (65365, [65333]); (65366, [65334]); (65367, [65335]); (65368, [65336]); (65369, [65337]);
    (65370, [65338]); (66600, [66560]); (66601, [66561]); (66602, [66562]); (66603, [66563]);
    (66604, [66564]); (66605, [66565]); (66606, [66566]); (66607, [66567]); (66608, [66568]);
    (66609, [66569]); (66610, [66570]); (66611, [66571]); (66612, [66572]); (66613, [66573]);
    (66614, [66574]); (66615, [66575]); (66616, [66576]); (66617, [66577]); (66618, [66578]);
    (66619, [66579]); (66620, [66580]); (66621, [66581]); (66622, [66582]); (66623, [66583]);
    (66624, [66584]); (66625, [66585]); (66626, [66586]); (66627, [66587]); (66628, [66588]);
    (66629, [66589]); (66630, [66590]); (66631, [66591]); (66632, [66592]); (66633, [66593]);
    (66634, [66594]); (66635, [66595]); (66636, [66596]); (66637, [66597]); (66638, [66598]);
    (66639, [66599]); (66776, [66736]); (66777, [66737]); (66778, [66738]); (66779, [66739]);
    (66780, [66740]); (66781, [66741]); (66782, [66742]); (66783, [66743]); (66784, [66744]);
    (66785, [66745]); (66786, [66746]); (66787, [66747]); (66788, [66748]); (66789, [66749]);
    (66790, [66750]); (66791, [66751]); (66792, [66752]); (66793, [66753]); (66794, [66754]);
    (66795, [66755]); (66796, [66756]); (66797, [66757]); (66798, [66758]); (66799, [66759]);
    (66800, [66760]); (66801, [66761]); (66802, [66762]); (66803, [66763]); (66804, [66764]);
    (66805, [66765]); (66806, [66766]); (66807, [66767]); (66808, [66768]); (66809, [66769]);
    (66810, [66770]); (66811, [66771]); (66967, [66928]); (66968, [66929]); (66969, [66930]);
    (66970, [66931]); (66971, [66932]); (66972, [66933]); (66973, [66934]); (66974, [66935]);
    (66975, [66936]); (66976, [66937]); (66977, [66938]); (66979, [66940]); (66980, [66941]);
    (66981, [66942]); (66982, [66943]); (66983, [66944]); (66984, [66945]); (66985, [66946]);
    (66986, [66947]); (66987, [66948]); (66988, [66949]); (66989, [66950]); (66990, [66951]);
    (66991, [66952]); (66992, [66953]); (66993, [66954]); (66995, [66956]); (66996, [66957]);
    (66997, [66958]); (66998, [66959]); (66999, [66960]); (67000, [66961]); (67001, [66962]);
    (67003, [66964]); (67004, [66965]); (68800, [68736]); (68801, [68737]); (68802, [68738]);
    (68803, [68739]); (68804, [68740]); (68805, [68741]); (68806, [68742]); (68807, [68743]);
    (68808, [68744]); (68809, [68745]); (68810, [68746]); (68811, [68747]); (68812, [68748]);
    (68813, [68749]); (68814, [68750]); (68815, [68751]); (68816, [68752]); (68817, [68753]);
    (68818, [68754]); (68819, [68755]); (68820, [68756]); (68821, [68757]); (68822, [68758]);
    (68823, [68759]); (68824, [68760]); (68825, [68761]); (68826, [68762]); (68827, [68763]);
    (68828, [68764]); (68829, [68765]); (68830, [68766]); (68831, [68767]); (68832, [68768]);
    (68833, [68769]); (68834, [68770]); (68835, [68771]); (68836, [68772]); (68837, [68773]);
    (68838, [68774]); (68839, [68775]); (68840, [68776]); (68841, [68777]); (68842, [68778]);
    (68843, [68779]); (68844, [68780]); (68845, [68781]); (68846, [68782]); (68847, [68783]);
    (68848, [68784]); (68849, [68785]); (68850, [68786]); (71872, [71840]); (71873, [71841]);
    (71874, [71842]); (71875, [71843]); (71876, [71844]); (71877, [71845]); (71878, [71846]);
    (71879, [71847]); (71880, [71848]); (71881, [71849]); (71882, [71850]); (71883, [71851]);
    (71884, [71852]); (71885, [71853]); (71886, [71854]); (71887, [71855]); (71888, [71856]);
    (71889, [71857]); (71890, [71858]); (71891, [71859]); (71892, [71860]); (71893, [71861]);
    (71894, [71862]); (71895, [71863]); (71896, [71864]); (71897, [71865]); (71898, [71866]);
    (71899, [71867]); (71900, [71868]); (71901, [71869]); (71902, [71870]); (71903, [71871]);
    (93792, [93760]); (93793, [93761]); (93794, [93762]); (93795, [93763]); (93796, [93764]);
    (93797, [93765]); (93798, [93766]); (93799, [93767]); (93800, [93768]); (93801, [93769]);
    (93802, [93770]); (93803, [93771]); (93804, [93772]); (93805, [93773]); (93806, [93774]);
    (93807, [93775]); (93808, [93776]); (93809, [93777]); (93810, [93778]); (93811, [93779]);
    (93812, [93780]); (93813, [93781]); (93814, [93782]); (93815, [93783]); (93816, [93784]);
    (93817, [93785]); (93818, [93786]); (93819, [93787]); (93820, [93788]); (93821, [93789]);
    (93822, [93790]); (93823, [93791]); (125218, [125184]); (125219, [125185]);
    (125220, [125186]); (125221, [125187]); (125222, [125188]); (125223, [125189]);
    (125224, [125190]); (125225, [125191]); (125226, [125192]); (125227, [125193]);
    (125228, [125194]); (125229, [125195]); (125230, [125196]); (125231, [125197]);
    (125232, [125198]); (125233, [125199]); (125234, [125200]); (125235, [125201]);
    (125236, [125202]); (125237, [125203]); (125238, [125204]); (125239, [125205]);
    (125240, [125206]); (125241, [125207]); (125242, [125208]); (125243, [125209]);
    (125244, [125210]); (125245, [125211]); (125246, [125212]); (125247, [125213]);
    (125248, [125214]); (125249, [125215]); (125250, [125216]); (125251, [125217]) ]%N.

Fixpoint lookup (c : N) (table : list (N * list N)) : option (list N) :=
  match table with
  | [] => None
  | (k, u) :: table' => if N.eqb k c then Some u else lookup c table'
  end.

(** The uppercase mapping of one character. *)
Definition toupper (c : N) : list N :=
  if (c <? 128)%N
  then (if ((97 <=? c) && (c <=? 122))%N then [(c - 32)%N] else [c])
  else match lookup c upper_table with
       | Some u => u
       | None => [c]
       end.

(** [s.upper()] *)
Fixpoint upper (s : pystr) : pystr :=
  match s with
  | [] => []
  | c :: s' => toupper c ++ upper s'
  end.

Fixpoint lstrip (s : pystr) : pystr :=
  match s with
  | [] => []
  | c :: s' => if isspace c then lstrip s' else s
  end.

Fixpoint rstrip (s : pystr) : pystr :=
  match s with
  | [] => []
  | c :: s' =>
      match rstrip s' with
      | [] => if isspace c then [] else [c]
      | r => c :: r
      end
  end.

(** [s.strip()] *)
Definition strip (s : pystr) : pystr := rstrip (lstrip s).

(** [s.startswith(p)] *)
Fixpoint startswith (s p : pystr) {struct p} : bool :=
  match p with
  | [] => true
  | b :: p' =>
      match s with
      | [] => false
      | a :: s' => N.eqb a b && startswith s' p'
      end
  end.

(** [s.split()]: the maximal runs of non-whitespace characters, in
    order; [cur] is the run being read. *)
Fixpoint split_go (cur : pystr) (s : pystr) : list pystr :=
  match s with
  | [] => match cur with [] => [] | _ => [cur] end
  | c :: s' =>
      if isspace c
      then match cur with
           | [] => split_go [] s'
           | _ => cur :: split_go [] s'
           end
      else split_go (cur ++ [c]) s'
  end.

Definition split (s : pystr) : list pystr := split_go [] s.

(** Truth value of a [str]: the empty string is false. *)
Definition truthy (s : pystr) : bool :=
  match s with [] => false | _ => true end.

(** All characters are whitespace. *)
Fixpoint blank (s : pystr) : bool :=
  match s with
  | [] => true
  | c :: s' => isspace c && blank s'
  end.

(** [a == b] *)
Fixpoint eqb (a b : pystr) : bool :=
  match a, b with
  | [], [] => true
  | x :: a', y :: b' => N.eqb x y && eqb a' b'
  | _, _ => false
  end.

(** The ranges of the characters beyond ASCII that [str.isprintable]
    refuses (unassigned, control, format, surrogate and private-use
    characters, and the separators other than the space). *)
Definition unprintable : list (N * N) :=
  [ (128, 160); (173, 173); (888, 889); (896, 899); (907, 907); (909, 909); (930, 930);
    (1328, 1328); (1367, 1368); (1419, 1420); (1424, 1424); (1480, 1487); (1515, 1518);
    (1525, 1541); (1564, 1564); (1757, 1757); (1806, 1807); (1867, 1868); (1970, 1983);
    (2043, 2044); (2094, 2095); (2111, 2111); (2140, 2141); (2143, 2143); (2155, 2159);
    (2191, 2199); (2274, 2274); (2436, 2436); (2445, 2446); (2449, 2450); (2473, 2473);
    (2481, 2481); (2483, 2485); (2490, 2491); (2501, 2502); (2505, 2506); (2511, 2518);
    (2520, 2523); (2526, 2526); (2532, 2533); (2559, 2560); (2564, 2564); (2571, 2574);
    (2577, 2578); (2601, 2601); (2609, 2609); (2612, 2612); (2615, 2615); (2618, 2619);
    (2621, 2621); (2627, 2630); (2633, 2634); (2638, 2640); (2642, 2648); (2653, 2653);
    (2655, 2661); (2679, 2688); (2692, 2692); (2702, 2702); (2706, 2706); (2729, 2729);
    (2737, 2737); (2740, 2740); (2746, 2747); (2758, 2758); (2762, 2762); (2766, 2767);
    (2769, 2783); (2788, 2789); (2802, 2808); (2816, 2816); (2820, 2820); (2829, 2830);
    (2833, 2834); (2857, 2857); (2865, 2865); (2868, 2868); (2874, 2875); (2885, 2886);
    (2889, 2890); (2894, 2900); (2904, 2907); (2910, 2910); (2916, 2917); (2936, 2945);
    (2948, 2948); (2955, 2957); (2961, 2961); (2966, 2968); (2971, 2971); (2973, 2973);
    (2976, 2978); (2981, 2983); (2987, 2989); (3002, 3005); (3011, 3013); (3017, 3017);
    (3022, 3023); (3025, 3030); (3032, 3045); (3067, 3071); (3085, 3085); (3089, 3089);
    (3113, 3113); (3130, 3131); (3141, 3141); (3145, 3145); (3150, 3156); (3159, 3159);
    (3163, 3164); (3166, 3167); (3172, 3173); (3184, 3190); (3213, 3213); (3217, 3217);
    (3241, 3241); (3252, 3252); (3258, 3259); (3269, 3269); (3273, 3273); (3278, 3284);
    (3287, 3292); (3295, 3295); (3300, 3301); (3312, 3312); (3315, 3327); (3341, 3341);
    (3345, 3345); (3397, 3397); (3401, 3401); (3408, 3411); (3428, 3429); (3456, 3456);
    (3460, 3460); (3479, 3481); (3506, 3506); (3516, 3516); (3518, 3519); (3527, 3529);
    (3531, 3534); (3541, 3541); (3543, 3543); (3552, 3557); (3568, 3569); (3573, 3584);
    (3643, 3646); (3676, 3712); (3715, 3715); (3717, 3717); (3723, 3723); (3748, 3748);
    (3750, 3750); (3774, 3775); (3781, 3781); (3783, 3783); (3790, 3791); (3802, 3803);
    (3808, 3839); (3912, 3912); (3949, 3952); (3992, 3992); (4029, 4029); (4045, 4045);
    (4059, 4095); (4294, 4294); (4296, 4300); (4302, 4303); (4681, 4681); (4686, 4687);
    (4695, 4695); (4697, 4697); (4702, 4703); (4745, 4745); (4750, 4751); (4785, 4785);
    (4790, 4791); (4799, 4799); (4801, 4801); (4806, 4807); (4823, 4823); (4881, 4881);
    (4886, 4887); (4955, 4956); (4989, 4991); (5018, 5023); (5110, 5111); (5118, 5119);
    (5760, 5760); (5789, 5791); (5881, 5887); (5910, 5918); (5943, 5951); (5972, 5983);
    (5997, 5997); (6001, 6001); (6004, 6015); (6110, 6111); (6122, 6127); (6138, 6143);
    (6158, 6158); (6170, 6175); (6265, 6271); (6315, 6319); (6390, 6399); (6431, 6431);
    (6444, 6447); (6460, 6463); (6465, 6467); (6510, 6511); (6517, 6527); (6572, 6575);
    (6602, 6607); (6619, 6621); (6684, 6685); (6751, 6751); (6781, 6782); (6794, 6799);
    (6810, 6815); (6830, 6831); (6863, 6911); (6989, 6991); (7039, 7039); (7156, 7163);
    (7224, 7226); (7242, 7244); (7305, 7311); (7355, 7356); (7368, 7375); (7419, 7423);
    (7958, 7959); (7966, 7967); (8006, 8007); (8014, 8015); (8024, 8024); (8026, 8026);
    (8028, 8028); (8030, 8030); (8062, 8063); (8117, 8117); (8133, 8133); (8148, 8149);
    (8156, 8156); (8176, 8177); (8181, 8181); (8191, 8207); (8232, 8239); (8287, 8303);
    (8306, 8307); (8335, 8335); (8349, 8351); (8385, 8399); (8433, 8447); (8588, 8591);
    (9255, 9279); (9291, 9311); (11124, 11125); (11158, 11158); (11508, 11512); (11558, 11558);
    (11560, 11564); (11566, 11567); (11624, 11630); (11633, 11646); (11671, 11679);
    (11687, 11687); (11695, 11695); (11703, 11703); (11711, 11711); (11719, 11719);
    (11727, 11727); (11735, 11735); (11743, 11743); (11870, 11903); (11930, 11930);
    (12020, 12031); (12246, 12271); (12284, 12288); (12352, 12352); (12439, 12440);
    (12544, 12548); (12592, 12592); (12687, 12687); (12772, 12783); (12831, 12831);
    (42125, 42127); (42183, 42191); (42540, 42559); (42744, 42751); (42955, 42959);
    (42962, 42962); (42964, 42964); (42970, 42993); (43053, 43055); (43066, 43071);
    (43128, 43135); (43206, 43213); (43226, 43231); (43348, 43358); (43389, 43391);
    (43470, 43470); (43482, 43485); (43519, 43519); (43575, 43583); (43598, 43599);
    (43610, 43611); (43715, 43738); (43767, 43776); (43783, 43784); (43791, 43792);
    (43799, 43807); (43815, 43815); (43823, 43823); (43884, 43887); (44014, 44015);
    (44026, 44031); (55204, 55215); (55239, 55242); (55292, 63743); (64110, 64111);
    (64218, 64255); (64263, 64274); (64280, 64284); (64311, 64311); (64317, 64317);
    (64319, 64319); (64322, 64322); (64325, 64325); (64451, 64466); (64912, 64913);
    (64968, 64974); (64976, 65007); (65050, 65055); (65107, 65107); (65127, 65127);
    (65132, 65135); (65141, 65141); (65277, 65280); (65471, 65473); (65480, 65481);
    (65488, 65489); (65496, 65497); (65501, 65503); (65511, 65511); (65519, 65531);
    (65534, 65535); (65548, 65548); (65575, 65575); (65595, 65595); (65598, 65598);
    (65614, 65615); (65630, 65663); (65787, 65791); (65795, 65798); (65844, 65846);
    (65935, 65935); (65949, 65951); (65953, 65999); (66046, 66175); (66205, 66207);
    (66257, 66271); (66300, 66303); (66340, 66348); (66379, 66383); (66427, 66431);
    (66462, 66462); (66500, 66503); (66518, 66559); (66718, 66719); (66730, 66735);
    (66772, 66775); (66812, 66815); (66856, 66863); (66916, 66926); (66939, 66939);
    (66955, 66955); (66963, 66963); (66966, 66966); (66978, 66978); (66994, 66994);
    (67002, 67002); (67005, 67071); (67383, 67391); (67414, 67423); (67432, 67455);
    (67462, 67462); (67505, 67505); (67515, 67583); (67590, 67591); (67593, 67593);
    (67638, 67638); (67641, 67643); (67645, 67646); (67670, 67670); (67743, 67750);
    (67760, 67807); (67827, 67827); (67830, 67834); (67868, 67870); (67898, 67902);
    (67904, 67967); (68024, 68027); (68048, 68049); (68100, 68100); (68103, 68107);
    (68116, 68116); (68120, 68120); (68150, 68151); (68155, 68158); (68169, 68175);
    (68185, 68191); (68256, 68287); (68327, 68330); (68343, 68351); (68406, 68408);
    (68438, 68439); (68467, 68471); (68498, 68504); (68509, 68520); (68528, 68607);
    (68681, 68735); (68787, 68799); (68851, 68857); (68904, 68911); (68922, 69215);
    (69247, 69247); (69290, 69290); (69294, 69295); (69298, 69375); (69416, 69423);
    (69466, 69487); (69514, 69551); (69580, 69599); (69623, 69631); (69710, 69713);
    (69750, 69758); (69821, 69821); (69827, 69839); (69865, 69871); (69882, 69887);
    (69941, 69941); (69960, 69967); (70007, 70015); (70112, 70112); (70133, 70143);
    (70162, 70162); (70207, 70271); (70279, 70279); (70281, 70281); (70286, 70286);
    (70302, 70302); (70314, 70319); (70379, 70383); (70394, 70399); (70404, 70404);
    (70413, 70414); (70417, 70418); (70441, 70441); (70449, 70449); (70452, 70452);
    (70458, 70458); (70469, 70470); (70473, 70474); (70478, 70479); (70481, 70486);
    (70488, 70492); (70500, 70501); (70509, 70511); (70517, 70655); (70748, 70748);
    (70754, 70783); (70856, 70863); (70874, 71039); (71094, 71095); (71134, 71167);
    (71237, 71247); (71258, 71263); (71277, 71295); (71354, 71359); (71370, 71423);
    (71451, 71452); (71468, 71471); (71495, 71679); (71740, 71839); (71923, 71934);
    (71943, 71944); (71946, 71947); (71956, 71956); (71959, 71959); (71990, 71990);
    (71993, 71994); (72007, 72015); (72026, 72095); (72104, 72105); (72152, 72153);
    (72165, 72191); (72264, 72271); (72355, 72367); (72441, 72703); (72713, 72713);
    (72759, 72759); (72774, 72783); (72813, 72815); (72848, 72849); (72872, 72872);
    (72887, 72959); (72967, 72967); (72970, 72970); (73015, 73017); (73019, 73019);
    (73022, 73022); (73032, 73039); (73050, 73055); (73062, 73062); (73065, 73065);
    (73103, 73103); (73106, 73106); (73113, 73119); (73130, 73439); (73465, 73647);
    (73649, 73663); (73714, 73726); (74650, 74751); (74863, 74863); (74869, 74879);
    (75076, 77711); (77811, 77823); (78895, 82943); (83527, 92159); (92729, 92735);
    (92767, 92767); (92778, 92781); (92863, 92863); (92874, 92879); (92910, 92911);
    (92918, 92927); (92998, 93007); (93018, 93018); (93026, 93026); (93048, 93052);
    (93072, 93759); (93851, 93951); (94027, 94030); (94088, 94094); (94112, 94175);
    (94181, 94191); (94194, 94207); (100344, 100351); (101590, 101631); (101641, 110575);
    (110580, 110580); (110588, 110588); (110591, 110591); (110883, 110927); (110931, 110947);
    (110952, 110959); (111356, 113663); (113771, 113775); (113789, 113791); (113801, 113807);
    (113818, 113819); (113824, 118527); (118574, 118575); (118599, 118607); (118724, 118783);
    (119030, 119039); (119079, 119080); (119155, 119162); (119275, 119295); (119366, 119519);
    (119540, 119551); (119639, 119647); (119673, 119807); (119893, 119893); (119965, 119965);
    (119968, 119969); (119971, 119972); (119975, 119976); (119981, 119981); (119994, 119994);
    (119996, 119996); (120004, 120004); (120070, 120070); (120075, 120076); (120085, 120085);
    (120093, 120093); (120122, 120122); (120127, 120127); (120133, 120133); (120135, 120137);
    (120145, 120145); (120486, 120487); (120780, 120781); (121484, 121498); (121504, 121504);
    (121520, 122623); (122655, 122879); (122887, 122887); (122905, 122906); (122914, 122914);
    (122917, 122917); (122923, 123135); (123181, 123183); (123198, 123199); (123210, 123213);
    (123216, 123535); (123567, 123583); (123642, 123646); (123648, 124895); (124903, 124903);
    (124908, 124908); (124911, 124911); (124927, 124927); (125125, 125126); (125143, 125183);
    (125260, 125263); (125274, 125277); (125280, 126064); (126133, 126208); (126270, 126463);
    (126468, 126468); (126496, 126496); (126499, 126499); (126501, 126502); (126504, 126504);
    (126515, 126515); (126520, 126520); (126522, 126522); (126524, 126529); (126531, 126534);
    (126536, 126536); (126538, 126538); (126540, 126540); (126544, 126544); (126547, 126547);
    (126549, 126550); (126552, 126552); (126554, 126554); (126556, 126556); (126558, 126558);
    (126560, 126560); (126563, 126563); (126565, 126566); (126571, 126571); (126579, 126579);
    (126584, 126584); (126589, 126589); (126591, 126591); (126602, 126602); (126620, 126624);
    (126628, 126628); (126634, 126634); (126652, 126703); (126706, 126975); (127020, 127023);
    (127124, 127135); (127151, 127152); (127168, 127168); (127184, 127184); (127222, 127231);
    (127406, 127461); (127491, 127503); (127548, 127551); (127561, 127567); (127570, 127583);
    (127590, 127743); (128728, 128732); (128749, 128751); (128765, 128767); (128884, 128895);
    (128985, 128991); (129004, 129007); (129009, 129023); (129036, 129039); (129096, 129103);
    (129114, 129119); (129160, 129167); (129198, 129199); (129202, 129279); (129620, 129631);
    (129646, 129647); (129653, 129655); (129661, 129663); (129671, 129679); (129709, 129711);
    (129723, 129727); (129734, 129743); (129754, 129759); (129768, 129775); (129783, 129791);
    (129939, 129939); (129995, 130031); (130042, 131071); (173792, 173823); (177977, 177983);
    (178206, 178207); (183970, 183983); (191457, 194559); (195102, 196607); (201547, 917759);
    (918000, 1114111) ]%N.

(** [str.isprintable] on one character. *)
Definition isprintable (c : N) : bool :=
  if (c <? 128)%N
  then ((32 <=? c) && (c <? 127))%N
  else negb (existsb (fun r : N * N => ((fst r <=? c) && (c <=? snd r))%N) unprintable).

Definition hex_digit (d : N) : N := (if d <? 10 then 48 + d else 87 + d)%N.

(** [c] in hexadecimal on [width] digits. *)
Fixpoint hex (width : nat) (c : N) : pystr :=
  match width with
  | O => []
  | S k => hex k (c / 16)%N ++ [hex_digit (c mod 16)%N]
  end.

(** One character inside [repr(s)], [quote] being the quote chosen. *)
Definition repr_char (quote c : N) : pystr :=
  (if (c =? quote) || (c =? 92) then [92; c]
   else if c =? 9 then [92; 116]
   else if c =? 10 then [92; 110]
   else if c =? 13 then [92; 114]
   else if isprintable c then [c]
   else if c <=? 255 then [92; 120] ++ hex 2 c
   else if c <=? 65535 then [92; 117] ++ hex 4 c
   else [92; 85] ++ hex 8 c)%N.

(** [repr(s)]: between single quotes, or between double quotes when [s]
    has a single quote and no double quote. *)
Definition repr (s : pystr) : pystr :=
  let quote := (if existsb (N.eqb 39) s && negb (existsb (N.eqb 34) s) then 34 else 39)%N in
  quote :: flat_map (repr_char quote) s ++ [quote].

End PyStr.


(** ** Values, payloads and exceptions *)

(** A value handed over by the driver (a field of an [asyncpg.Record])
    or passed to it as a positional parameter: [None], an [int], a
    [str], or an object of another type (a timestamp, a UUID, a
    [Decimal]), of which the name of the type, the [str()] text and the
    truth value are known. *)
Inductive pyval : Type :=
| PNone
| PInt (z : Z)
| PStr (s : pystr)
| POther (type_name text : pystr) (truth : bool).

(** The object given to [json.dumps], and what it writes; a dict keeps
    its insertion order.  [JOther] is an object [json.dumps] cannot write
    by itself. *)
#[warnings="-register-all"]
Inductive json : Type :=
| JNull
| JBool (b : bool)
| JInt (z : Z)
| JStr (s : pystr)
| JList (l : list json)
| JDict (l : list (pystr * json))
| JOther (type_name text : pystr).

Notation "k =: v" := (@pair pystr _ k v) (at level 60, no associativity).

(** Exceptions a handler can meet: one raised by the driver, a
    [KeyError] from [row[key]], an [IndexError] from [list[i]], the
    [TypeError] of [json.dumps]. *)
Inductive exn : Type :=
| DriverError (msg : pystr)
| KeyError (key : pystr)
| IndexError
| TypeError (type_name : pystr).

(** [str(e)]; for a [KeyError] it is the [repr] of the key: a plain
    identifier between single quotes. *)
Definition str_exn (e : exn) : pystr :=
  match e with
  | DriverError msg => msg
  | KeyError key => PyStr.repr key
  | IndexError => "list index out of range"
  | TypeError type_name =>
      str "Object of type " ++ type_name ++ str " is not JSON serializable"
  end.

Inductive outcome (A : Type) : Type :=
| Return (a : A)
| Raise (e : exn).
Arguments Return {A} a.
Arguments Raise {A} e.

Definition obind {A B} (o : outcome A) (k : A -> outcome B) : outcome B :=
  match o with
  | Return a => k a
  | Raise e => Raise e
  end.

Notation "'let?' x ':=' c1 'in' c2" := (obind c1 (fun x => c2))
  (at level 10, x name, c1 at level 100, c2 at level 200).

Fixpoint omap {A B} (f : A -> outcome B) (l : list A) : outcome (list B) :=
  match l with
  | [] => Return []
  | a :: l' => let? b := f a in let? bs := omap f l' in Return (b :: bs)
  end.

(** [a == b]; an object of another type is taken to equal only an object
    with the same type, text and truth value. *)
Definition pyval_eqb (a b : pyval) : bool :=
  match a, b with
  | PNone, PNone => true
  | PInt x, PInt y => Z.eqb x y
  | PStr x, PStr y => PyStr.eqb x y
  | POther t x b, POther t' x' b' => PyStr.eqb t t' && PyStr.eqb x x' && Bool.eqb b b'
  | _, _ => false
  end.

(** [x in l] on a list *)
Definition py_in (x : pyval) (l : list pyval) : bool := existsb (pyval_eqb x) l.

(** Truth value: [None], [0] and [''] are false. *)
Definition truthy (v : pyval) : bool :=
  match v with
  | PNone => false
  | PInt z => negb (Z.eqb z 0)
  | PStr s => PyStr.truthy s
  | POther _ _ truth => truth
  end.

(** A value as a part of the object given to [json.dumps]. *)
Definition to_json (v : pyval) : json :=
  match v with
  | PNone => JNull
  | PInt z => JInt z
  | PStr s => JStr s
  | POther type_name text _ => JOther type_name text
  end.

(** The type of the first object [json.dumps] cannot write, in the order
    of writing. *)
Fixpoint find_other (v : json) : option pystr :=
  match v with
  | JOther type_name _ => Some type_name
  | JList l =>
      (fix go (l : list json) : option pystr :=
         match l with
         | [] => None
         | a :: l' => match find_other a with Some t => Some t | None => go l' end
         end) l
  | JDict d =>
      (fix go (d : list (pystr * json)) : option pystr :=
         match d with
         | [] => None
         | (_, a) :: d' => match find_other a with Some t => Some t | None => go d' end
         end) d
  | _ => None
  end.

(** Each such object replaced by its [str()] text. *)
Fixpoint stringify (v : json) : json :=
  match v with
  | JOther _ text => JStr text
  | JList l => JList (map stringify l)
  | JDict d => JDict (map (fun kv => match kv with (k, a) => (k, stringify a) end) d)
  | _ => v
  end.

(** [json.dumps(v, indent=2)] *)
Definition json_dumps (v : json) : outcome json :=
  match find_other v with
  | Some type_name => Raise (TypeError type_name)
  | None => Return v
  end.

(** [json.dumps(v, indent=2, default=str)] *)
Definition json_dumps_default_str (v : json) : outcome json := Return (stringify v).

(** A row: column name and value, in column order. *)
Definition row : Type := list (pystr * pyval).

(** [row[key]]; as in [asyncpg.Record] a name shared by several columns
    resolves to the last of them. *)
Fixpoint row_get (r : row) (key : pystr) : outcome pyval :=
  match r with
  | [] => Raise (KeyError key)
  | (k, v) :: r' =>
      match row_get r' key with
      | Return v' => Return v'
      | Raise _ => if PyStr.eqb k key then Return v else Raise (KeyError key)
      end
  end.

(** [d[k] = v] on a dict: an existing key keeps its place. *)
Fixpoint dict_set (d : list (pystr * json)) (k : pystr) (v : json) : list (pystr * json) :=
  match d with
  | [] => [(k, v)]
  | (k', v') :: d' => if PyStr.eqb k' k then (k', v) :: d' else (k', v') :: dict_set d' k v
  end.

(** [dict(row)] *)
Definition dict_of_row (r : row) : json :=
  JDict (fold_left (fun d kv => dict_set d (fst kv) (to_json (snd kv))) r []).

(** Field of a dict payload, [None] when absent or not a dict. *)
Fixpoint assoc_get (d : list (pystr * json)) (k : pystr) : option json :=
  match d with
  | [] => None
  | (k', v) :: d' => if PyStr.eqb k' k then Some v else assoc_get d' k
  end.

Definition field (p : json) (k : pystr) : option json :=
  match p with
  | JDict d => assoc_get d k
  | _ => None
  end.

(** [l[0]] and [l[-1]] *)
Definition first_item (l : list pystr) : outcome pystr :=
  match l with
  | [] => Raise IndexError
  | x :: _ => Return x
  end.

Definition last_item (l : list pystr) : outcome pystr :=
  match rev l with
  | [] => Raise IndexError
  | x :: _ => Return x
  end.

(** The payload of every handled failure. *)
Definition ErrorResponse (msg : pystr) : json :=
  JDict [ "error" =: JStr msg; "status" =: JStr "failed" ].

(** ** The configuration and the driver *)

(** [DB_CONFIG]: [os.getenv] yields [None] for a variable that is not
    set, so the three identity settings are optional values. *)
Record db_config : Type := {
  host : option pystr;
  port : Z;
  database : option pystr;
  user : option pystr;
  password : option pystr
}.

(** A handle returned by [asyncpg.connect]. *)
Definition connection : Type := nat.

(** One call made to the driver. *)
Inductive event : Type :=
| EvConnect (c : connection)
| EvConnectFailed
| EvFetch (c : connection) (q : pystr) (args : list pyval)
| EvExecute (c : connection) (q : pystr) (args : list pyval)
| EvClose (c : connection).

(** The driver, over its own state [W] (the server, the network).  Each
    call returns or raises and leaves a new world.  [db_execute] yields
    the status of the command, which a test double may leave as [None]. *)
Record driver (W : Type) : Type := {
  db_connect : db_config -> W -> (exn + connection) * W;
  db_fetch : connection -> pystr -> list pyval -> W -> (exn + list row) * W;
  db_execute : connection -> pystr -> list pyval -> W -> (exn + option pystr) * W;
  db_close : connection -> W -> (exn + unit) * W
}.
Arguments db_connect {W} _ _ _.
Arguments db_fetch {W} _ _ _ _ _.
Arguments db_execute {W} _ _ _ _ _.
Arguments db_close {W} _ _ _.

(** ** SQL text of the catalog queries *)

Definition nl : string := String "010"%char EmptyString.

Definition list_tables_query : pystr :=
  String.concat nl
    [ "";
      "            SELECT table_name";
      "            FROM information_schema.tables";
      "            WHERE table_schema = $1 ";
      "              AND table_type = 'BASE TABLE'";
      "            ORDER BY table_name;";
      "        " ].

Definition column_query : pystr :=
  String.concat nl
    [ "";
      "            SELECT ";
      "                column_name,";
      "                data_type,";
      "                character_maximum_length,";
      "                is_nullable,";
      "                column_default";
      "            FROM information_schema.columns";
      "            WHERE table_schema = $1 ";
      "            AND table_name = $2";
      "            ORDER BY ordinal_position;";
      "        " ].

Definition pk_query : pystr :=
  String.concat nl
    [ "";
      "            SELECT a.attname as column_name";
      "            FROM pg_index i";
      "            JOIN pg_attribute a ON a.attrelid = i.indrelid ";
      "                AND a.attnum = ANY(i.indkey)";
      "            WHERE i.indrelid = $1::regclass";
      "            AND i.indisprimary;";
      "        " ].

Definition fk_query : pystr :=
  String.concat nl
    [ "";
      "            SELECT";
      "                kcu.column_name,";
      "                ccu.table_name AS foreign_table_name,";
      "                ccu.column_name AS foreign_column_name";
      "            FROM information_schema.table_constraints AS tc";
      "            JOIN information_schema.key_column_usage AS kcu";
      "                ON tc.constraint_name = kcu.constraint_name";
      "                AND tc.table_schema = kcu.table_schema";
      "            JOIN information_schema.constraint_column_usage AS ccu";
      "                ON ccu.constraint_name = tc.constraint_name";
      "                AND ccu.table_schema = tc.table_schema";
      "            WHERE tc.constraint_type = 'FOREIGN KEY'";
      "                AND tc.table_schema = $1";
      "                AND tc.table_name = $2;";
      "        " ].

(** ** Pure parts of the handlers *)

(** The body of the loop of [get_table_schema] over [columns]: one
    column descriptor.  The dict display is evaluated key by key, and
    [max_length] is added under [if col['character_maximum_length']]. *)
Definition col_dict (primary_keys : list pyval) (col : row) : outcome json :=
  let? name := row_get col "column_name" in
  let? type := row_get col "data_type" in
  let? is_nullable := row_get col "is_nullable" in
  let? default := row_get col "column_default" in
  let? name' := row_get col "column_name" in
  let d := [ "name" =: to_json name;
             "type" =: to_json type;
             "nullable" =: JBool (pyval_eqb is_nullable (PStr "YES"));
             "default" =: to_json default;
             "is_primary_key" =: JBool (py_in name' primary_keys) ] in
  let? len := row_get col "character_maximum_length" in
  if truthy len
  then let? len' := row_get col "character_maximum_length" in
       Return (JDict (dict_set d "max_length" (to_json len')))
  else Return (JDict d).

Definition column_info (primary_keys : list pyval) (columns : list row) : outcome (list json) :=
  omap (col_dict primary_keys) columns.

Definition fk_dict (fk : row) : outcome json :=
  let? column := row_get fk "column_name" in
  let? references_table := row_get fk "foreign_table_name" in
  let? references_column := row_get fk "foreign_column_name" in
  Return (JDict [ "column" =: to_json column;
                  "references_table" =: to_json references_table;
                  "references_column" =: to_json references_column ]).

(** [query.strip().upper()] *)
Definition query_upper (query : pystr) : pystr := PyStr.upper (PyStr.strip query).

(** [status.split()[-1] if status else "0"] *)
Definition affected_of (status : option pystr) : outcome pystr :=
  match status with
  | None => Return (str "0")
  | Some s => if PyStr.truthy s then last_item (PyStr.split s) else Return (str "0")
  end.

(** [if params:] on an optional list: [None] and [[]] are false. *)
Definition params_truthy (params : option (list pyval)) : bool :=
  match params with
  | Some (_ :: _) => true
  | _ => false
  end.

(** [*params] in a call *)
Definition unpack (params : option (list pyval)) : list pyval :=
  match params with
  | Some ps => ps
  | None => []
  end.

(** ** The handlers *)

Section Handlers.

Variable W : Type.
Variable drv : driver W.
Variable DB_CONFIG : db_config.

(** What a handler runs in: the driver's world and the calls made. *)
Record state : Type := { world : W; trace : list event }.

Definition M (A : Type) : Type := state -> outcome A * state.

Definition ret {A} (a : A) : M A := fun s => (Return a, s).

Definition raise {A} (e : exn) : M A := fun s => (Raise e, s).

Definition bind {A B} (m : M A) (k : A -> M B) : M B :=
  fun s =>
    match m s with
    | (Return a, s') => k a s'
    | (Raise e, s') => (Raise e, s')
    end.

Definition lift {A} (o : outcome A) : M A := fun s => (o, s).

(** [try: body  except Exception as e: handler e] *)
Definition try_except {A} (body : M A) (handler : exn -> M A) : M A :=
  fun s =>
    match body s with
    | (Return a, s') => (Return a, s')
    | (Raise e, s') => handler e s'
    end.

(** [try: body  finally: final]: [final] runs on every exit of [body];
    if it raises, its exception replaces the outcome of [body]. *)
Definition try_finally {A} (body : M A) (final : M unit) : M A :=
  fun s =>
    match body s with
    | (o, s') =>
        match final s' with
        | (Return _, s'') => (o, s'')
        | (Raise e, s'') => (Raise e, s'')
        end
    end.

Notation "'let*' x ':=' c1 'in' c2" := (bind c1 (fun x => c2))
  (at level 10, x name, c1 at level 100, c2 at level 200).

Definition log (s : state) (ev : event) (w : W) : state :=
  {| world := w; trace := trace s ++ [ev] |}.

(** [asyncpg.connect(host=..., port=..., ...)] *)
Definition connect : M connection :=
  fun s =>
    match db_connect drv DB_CONFIG (world s) with
    | (inr c, w) => (Return c, log s (EvConnect c) w)
    | (inl e, w) => (Raise e, log s EvConnectFailed w)
    end.

(** [conn.fetch(query, *args)] *)
Definition fetch (conn : connection) (query : pystr) (args : list pyval) : M (list row) :=
  fun s =>
    match db_fetch drv conn query args (world s) with
    | (inr rows, w) => (Return rows, log s (EvFetch conn query args) w)
    | (inl e, w) => (Raise e, log s (EvFetch conn query args) w)
    end.

(** [conn.execute(query, *args)] *)
Definition execute (conn : connection) (query : pystr) (args : list pyval) : M (option pystr) :=
  fun s =>
    match db_execute drv conn query args (world s) with
    | (inr status, w) => (Return status, log s (EvExecute conn query args) w)
    | (inl e, w) => (Raise e, log s (EvExecute conn query args) w)
    end.

(** [conn.close()] *)
Definition close (conn : connection) : M unit :=
  fun s =>
    match db_close drv conn (world s) with
    | (inr u, w) => (Return u, log s (EvClose conn) w)
    | (inl e, w) => (Raise e, log s (EvClose conn) w)
    end.

Definition get_db_connection : M connection :=
  try_except connect (fun e => raise e).

Definition list_tables_body (conn : connection) (schema_name : pystr) : M json :=
  let* rows := fetch conn list_tables_query [PStr schema_name] in
  let* tables := lift (omap (fun r => row_get r "table_name") rows) in
  lift (json_dumps (JDict [ "schema" =: JStr schema_name;
                            "tables" =: JList (map to_json tables);
                            "count" =: JInt (Z.of_nat (length tables)) ])).

Definition list_tables (schema_name : pystr) : M json :=
  let* conn := get_db_connection in
  try_finally
    (try_except (list_tables_body conn schema_name) (fun e => raise e))
    (close conn).

Definition not_found (table_name schema_name : pystr) : pystr :=
  str "Table '" ++ table_name ++ str "' not found in schema '" ++ schema_name ++ str "'".

Definition get_table_schema_body (conn : connection) (table_name schema_name : pystr) : M json :=
  let* columns := fetch conn column_query [PStr schema_name; PStr table_name] in
  match columns with
  | [] => lift (json_dumps (ErrorResponse (not_found table_name schema_name)))
  | _ :: _ =>
      let* pks := fetch conn pk_query [PStr (schema_name ++ str "." ++ table_name)] in
      let* primary_keys := lift (omap (fun pk => row_get pk "column_name") pks) in
      let* fks := fetch conn fk_query [PStr schema_name; PStr table_name] in
      let* column_info := lift (column_info primary_keys columns) in
      let* foreign_keys := lift (omap fk_dict fks) in
      lift (json_dumps (JDict [ "schema" =: JStr schema_name;
                                "table" =: JStr table_name;
                                "columns" =: JList column_info;
                                "primary_keys" =: JList (map to_json primary_keys);
                                "foreign_keys" =: JList foreign_keys ]))
  end.

Definition get_table_schema (table_name schema_name : pystr) : M json :=
  let* conn := get_db_connection in
  try_finally
    (try_except (get_table_schema_body conn table_name schema_name)
                (fun e => lift (json_dumps (ErrorResponse (str_exn e)))))
    (close conn).

Definition execute_query_body (conn : connection) (query : pystr)
    (params : option (list pyval)) : M json :=
  let query_upper := query_upper query in
  if PyStr.startswith query_upper "SELECT"
  then
    let* rows := (if params_truthy params
                  then fetch conn query (unpack params)
                  else fetch conn query []) in
    let results := map dict_of_row rows in
    lift (json_dumps_default_str
            (JDict [ "type" =: JStr "SELECT";
                     "row_count" =: JInt (Z.of_nat (length results));
                     "results" =: JList results ]))
  else
    let* status := (if params_truthy params
                    then execute conn query (unpack params)
                    else execute conn query []) in
    let* affected := lift (affected_of status) in
    let* _ := lift (first_item (PyStr.split query_upper)) in
    let* type := lift (first_item (PyStr.split query_upper)) in
    lift (json_dumps (JDict [ "type" =: JStr type;
                              "affected_rows" =: JStr affected;
                              "status" =: JStr "success" ])).

Definition execute_query (query : pystr) (params : option (list pyval)) : M json :=
  let* conn := get_db_connection in
  try_finally
    (try_except (execute_query_body conn query params)
                (fun e => lift (json_dumps (ErrorResponse (str_exn e)))))
    (close conn).

Definition execute_safe_query (query : pystr) : M json :=
  if negb (PyStr.startswith (PyStr.upper (PyStr.strip query)) "SELECT")
  then lift (json_dumps (ErrorResponse "Only SELECT queries are allowed with this tool"))
  else execute_query query None.

End Handlers.

Arguments world {W} _.
Arguments trace {W} _.
Arguments execute_query {W} drv DB_CONFIG query params _.
Arguments execute_safe_query {W} drv DB_CONFIG query _.
Arguments execute_query_body {W} drv conn query params _.
Arguments get_table_schema {W} drv DB_CONFIG table_name schema_name _.
Arguments get_table_schema_body {W} drv conn table_name schema_name _.
Arguments list_tables {W} drv DB_CONFIG schema_name _.
Arguments list_tables_body {W} drv conn schema_name _.
Arguments get_db_connection {W} drv DB_CONFIG _.

(** ** A test double for the driver

    The counterpart of the [AsyncMock] connection of the unit tests: the
    world counts the [fetch] calls made, [connect], [execute] and
    [close] have a fixed result, and [fetch] answers its n-th call from
    a script (the [side_effect] list); past the end of the script it
    returns no rows. *)
Module Mock.

Definition script : Type := list (exn + list row).

Definition mock_closing (connected : exn + connection) (fetches : script)
    (executed : exn + option pystr) (closed : exn + unit) : driver nat :=
  {| db_connect := fun _ n => (connected, n);
     db_fetch := fun _ _ _ n => (nth n fetches (inr []), S n);
     db_execute := fun _ _ _ n => (executed, n);
     db_close := fun _ n => (closed, n) |}.

(** The double whose [close] returns. *)
Definition mock (connected : exn + connection) (fetches : script)
    (executed : exn + option pystr) : driver nat :=
  mock_closing connected fetches executed (inr tt).

Definition config : db_config :=
  {| host := Some (str "localhost"); port := 5432; database := Some (str "test_db");
     user := Some (str "test_user"); password := Some (str "test_password") |}.

Definition start : state nat := {| world := 0; trace := [] |}.

End Mock.

(** ** Start-up: the module-level [DB_CONFIG] *)

(** The process environment after [load_dotenv()]. *)
Abbreviation environ := (gmap pystr pystr).

(** [os.getenv(key, default)] *)
Definition getenv (env : environ) (key : pystr) (default : option pystr) : option pystr :=
  match env !! key with
  | Some v => Some v
  | None => default
  end.

(** What [int(...)] raises. *)
Inductive startup_error : Type :=
| TypeError_int (* int() argument must be a string, ..., not 'NoneType' *)
| ValueError_int (literal : pystr) (* invalid literal, or too many digits *).

(** The code points of the digits zero of the Unicode decimal digits;
    the nine other digits of each set follow their zero. *)
Definition decimal_zeros : list N :=
  [ 48; 1632; 1776; 1984; 2406; 2534; 2662; 2790; 2918; 3046; 3174; 3302; 3430; 3558; 3664; 3792;
    3872; 4160; 4240; 6112; 6160; 6470; 6608; 6784; 6800; 6992; 7088; 7232; 7248; 42528; 43216;
    43264; 43472; 43504; 43600; 44016; 65296; 66720; 68912; 69734; 69872; 69942; 70096; 70384;
    70736; 70864; 71248; 71360; 71472; 71904; 72016; 72784; 73040; 73120; 92768; 92864; 93008;
    120782; 120792; 120802; 120812; 120822; 123200; 123632; 125264; 130032 ]%N.

(** The value of a decimal digit. *)
Definition todecimal (c : N) : option N :=
  match find (fun z => (z <=? c) && (c <? z + 10))%N decimal_zeros with
  | Some z => Some (c - z)%N
  | None => None
  end.

(** What [int] parses in place of a character: a character below 127 is
    kept; beyond, whitespace becomes a space, a decimal digit its ASCII
    digit, and anything else a question mark. *)
Definition to_ascii (c : N) : N :=
  if (c <? 127)%N then c
  else if PyStr.isspace c then 32%N
  else match todecimal c with
       | Some d => (48 + d)%N
       | None => 63%N
       end.

(** The whitespace [int] skips around a literal. *)
Definition ascii_space (c : N) : bool :=
  (((9 <=? c) && (c <=? 13)) || (c =? 32))%N.

Fixpoint skip_spaces (s : list N) : list N :=
  match s with
  | c :: s' => if ascii_space c then skip_spaces s' else s
  | [] => []
  end.

(** Digits and underscores from the head of [s]: the value read, the
    number of digits, and what follows.  [prev] is the character before
    (0 at the start); two underscores in a row or an underscore at the
    end are refused. *)
Fixpoint scan_digits (s : list N) (acc : Z) (digits : nat) (prev : N)
    : option (Z * nat * list N) :=
  match s with
  | c :: s' =>
      if ((48 <=? c) && (c <=? 57))%N
      then scan_digits s' (10 * acc + Z.of_N (c - 48)) (S digits) c
      else if (c =? 95)%N
           then (if (prev =? 95)%N then None else scan_digits s' acc digits c)
           else (if (prev =? 95)%N then None else Some (acc, digits, s))
  | [] => if (prev =? 95)%N then None else Some (acc, digits, [])
  end.

(** [int(s)] for a [str], [limit] being [sys.get_int_max_str_digits()]
    (4300 unless the interpreter is told otherwise, 0 for no limit). *)
Definition parse_int (limit : nat) (s : pystr) : option Z :=
  let b := skip_spaces (map to_ascii s) in
  let signed :=
    match b with
    | 45%N :: b' => (true, b')
    | 43%N :: b' => (false, b')
    | _ => (false, b)
    end in
  match snd signed with
  | 95%N :: _ => None
  | digits_on =>
      match scan_digits digits_on 0 0 0 with
      | None => None
      | Some (z, digits, rest) =>
          if (Nat.ltb 640 digits && Nat.ltb 0 limit && Nat.ltb limit digits)%bool then None
          else if Nat.eqb digits 0 then None
          else match skip_spaces rest with
               | [] => Some (if fst signed then (- z)%Z else z)
               | _ :: _ => None
               end
      end
  end.

(** [int(x)] for [x] a [str] or [None] *)
Definition py_int (limit : nat) (x : option pystr) : startup_error + Z :=
  match x with
  | None => inl TypeError_int
  | Some s =>
      match parse_int limit s with
      | Some z => inr z
      | None => inl (ValueError_int s)
      end
  end.

(** The dict display bound to [DB_CONFIG], evaluated when the module is
    loaded. *)
Definition load_db_config (limit : nat) (env : environ) : startup_error + db_config :=
  let host := getenv env "DB_HOST" (Some (str "localhost")) in
  match py_int limit (getenv env "DB_PORT" None) with
  | inl e => inl e
  | inr port =>
      inr {| host := host;
             port := port;
             database := getenv env "DB_DATABASE" None;
             user := getenv env "DB_USER" None;
             password := getenv env "DB_PASSWORD" None |}
  end.

(** A served request: the handlers exist only once the module has been
    loaded, and they read the [DB_CONFIG] built then. *)
Definition serve {W A : Type} (limit : nat) (env : environ)
    (handler : db_config -> state W -> outcome A * state W) (s : state W)
    : startup_error + outcome A * state W :=
  match load_db_config limit env with
  | inl e => inl e
  | inr cfg => inr (handler cfg s)
  end.

Arguments str : simpl never.
Arguments PyStr.startswith : simpl never.

(** ** Vocabulary of the properties *)

(** An environment that sets the port and nothing else. *)
Definition env_port_only : environ := {[ str "DB_PORT" := str "5432" ]}.

Ltac run_handler :=
  cbv beta delta
    [execute_query execute_query_body get_table_schema get_table_schema_body
     list_tables list_tables_body get_db_connection connect fetch execute close
     bind ret raise lift try_except try_finally log]; simpl.

Ltac case_close :=
  repeat match goal with
         | |- context [db_close ?d ?c ?w] => destruct (db_close d c w) as [[?|?] ?]; simpl
         end.

Definition is_close (ev : event) : bool :=
  match ev with
  | EvClose _ => true
  | _ => false
  end.

(** How many times [close] was called in a run of driver calls. *)
Definition close_count (evs : list event) : nat := length (List.filter is_close evs).

(** A run of calls made on the open handle [c]: fetches and executes. *)
Definition query_call (c : connection) (ev : event) : Prop :=
  match ev with
  | EvFetch c' _ _ | EvExecute c' _ _ => c' = c
  | _ => False
  end.

(** One query call on the open handle [c]: the driver's [fetch] or
    [execute] is applied to the world and the call is recorded. *)
Inductive query_step {W : Type} (drv : driver W) (c : connection)
    : state W -> state W -> Prop :=
| step_fetch (s : state W) (q : pystr) (args : list pyval) :
    query_step drv c s
      (log W s (EvFetch c q args) (snd (db_fetch drv c q args (world s))))
| step_execute (s : state W) (q : pystr) (args : list pyval) :
    query_step drv c s
      (log W s (EvExecute c q args) (snd (db_execute drv c q args (world s)))).

(** Any number of query calls on [c], and nothing else. *)
Inductive query_run {W : Type} (drv : driver W) (c : connection)
    : state W -> state W -> Prop :=
| run_done (s : state W) : query_run drv c s s
| run_more (s1 s2 s3 : state W) :
    query_step drv c s1 s2 -> query_run drv c s2 s3 -> query_run drv c s1 s3.

(** A computation that makes query calls on [c] and no other driver
    call. *)
Definition only_queries {W A : Type} (drv : driver W) (c : connection) (m : M W A) : Prop :=
  forall s, query_run drv c s (snd (m s)).

(** The state in which the guarded block of a handler starts: the
    connection [c] has just been acquired from the state [s]. *)
Definition entered {W : Type} (s : state W) (c : connection) (w : W) : state W :=
  log W s (EvConnect c) w.

(** The state [close] leaves, whether it returns or raises: the driver's
    [close] is applied to the world and the call is recorded. *)
Definition closed {W : Type} (drv : driver W) (c : connection) (s : state W) : state W :=
  log W s (EvClose c) (snd (db_close drv c (world s))).

(** One handler invocation that acquired the handle [c]: the driver
    connected, then answered query calls on [c] only, and the handler
    left after the driver's [close] was applied to the world those calls
    had reached.  In the trace the close of [c] comes once, last. *)
Definition released {W A : Type} (drv : driver W) (cfg : db_config)
    (m : M W A) (s : state W) (c : connection) : Prop :=
  exists w s2 mid,
    db_connect drv cfg (world s) = (inr c, w) /\
    query_run drv c (entered s c w) s2 /\
    snd (m s) = closed drv c s2 /\
    trace (snd (m s)) = trace s ++ EvConnect c :: mid ++ [EvClose c] /\
    Forall (query_call c) mid /\
    close_count (EvConnect c :: mid ++ [EvClose c]) = 1.

(** The three ways a handler invocation can go: without any driver call,
    with a failed connection attempt and no other call, or with a
    connection that is released. *)
Definition run_shape {W A : Type} (drv : driver W) (cfg : db_config)
    (m : M W A) (s : state W) : Prop :=
  snd (m s) = s \/
  (exists e w,
      db_connect drv cfg (world s) = (inl e, w) /\
      snd (m s) = log W s EvConnectFailed w) \/
  (exists c, released drv cfg m s c).

(** What a column descriptor [desc] of the payload says about the
    catalog row [col] it was built from, [pk_names] being the payload's
    [primary_keys]. *)
Definition column_described (pk_names : list json) (col : row) (desc : json) : Prop :=
  exists name len,
    row_get col "column_name" = Return name /\
    row_get col "character_maximum_length" = Return len /\
    field desc "name" = Some (to_json name) /\
    (exists b, field desc "is_primary_key" = Some (JBool b) /\
               (b = true <-> In (to_json name) pk_names)) /\
    (field desc "max_length" <> None <-> truthy len = true) /\
    (truthy len = true -> field desc "max_length" = Some (to_json len)).

(** A catalog row reporting a length bound of zero. *)
Definition zero_length_column : row :=
  [ "column_name" =: PStr "code";
    "data_type" =: PStr "character varying";
    "character_maximum_length" =: PInt 0;
    "is_nullable" =: PStr "YES";
    "column_default" =: PNone ].

(** The catalog rows of the unit test: an integer key and a
    [varchar(255)]. *)
Definition users_columns : list row :=
  [ [ "column_name" =: PStr "id"; "data_type" =: PStr "integer";
      "character_maximum_length" =: PNone; "is_nullable" =: PStr "NO";
      "column_default" =: PStr "nextval(...)" ];
    [ "column_name" =: PStr "name"; "data_type" =: PStr "character varying";
      "character_maximum_length" =: PInt 255; "is_nullable" =: PStr "YES";
      "column_default" =: PNone ] ].

Definition users_descriptors : list json :=
  [ JDict [ "name" =: JStr "id"; "type" =: JStr "integer"; "nullable" =: JBool false;
            "default" =: JStr "nextval(...)"; "is_primary_key" =: JBool true ];
    JDict [ "name" =: JStr "name"; "type" =: JStr "character varying";
            "nullable" =: JBool true; "default" =: JNull;
            "is_primary_key" =: JBool false; "max_length" =: JInt 255 ] ].

Definition users_driver : driver nat :=
  Mock.mock (inr 1) [inr users_columns; inr [["column_name" =: PStr "id"]]; inr []] (inr None).

(** A database that cannot be reached. *)
Definition unreachable : driver nat :=
  Mock.mock (inl (DriverError "Connection failed")) [] (inr None).

(** A driver whose [close] raises. *)
Definition failing_close (fetches : Mock.script) (executed : exn + option pystr) : driver nat :=
  Mock.mock_closing (inr 1) fetches executed (inl (DriverError "connection is closed")).

(** The row has a column named [k]. *)
Definition has_key (r : row) (k : pystr) : Prop := exists v, row_get r k = Return v.

(** A value [json.dumps] writes by itself. *)
Definition native (v : pyval) : Prop :=
  match v with
  | POther _ _ _ => False
  | _ => True
  end.

(** The row has a column named [k] holding such a value. *)
Definition native_at (r : row) (k : pystr) : Prop :=
  exists v, row_get r k = Return v /\ native v.

(** A driver call that is not [conn.execute]. *)
Definition no_execute (ev : event) : Prop :=
  match ev with
  | EvExecute _ _ _ => False
  | _ => True
  end.

(** A driver call [list_tables] may make for a schema name: no
    [execute], and a [fetch] only of its constant SQL text, the name
    travelling as the positional parameter. *)
Definition listing_call (schema_name : pystr) (ev : event) : Prop :=
  match ev with
  | EvExecute _ _ _ => False
  | EvFetch _ q args => q = list_tables_query /\ args = [PStr schema_name]
  | _ => True
  end.

(** A driver call [get_table_schema] may make for the given names: no
    [execute], and a [fetch] only of one of its three constant SQL
    texts, the names travelling as positional parameters. *)
Definition schema_call (table_name schema_name : pystr) (ev : event) : Prop :=
  match ev with
  | EvExecute _ _ _ => False
  | EvFetch _ q args =>
      (q = column_query /\ args = [PStr schema_name; PStr table_name]) \/
      (q = pk_query /\ args = [PStr (schema_name ++ str "." ++ table_name)]) \/
      (q = fk_query /\ args = [PStr schema_name; PStr table_name])
  | _ => True
  end.



(** The fields of a column descriptor that repeat the catalog row. *)
Definition column_echoed (col : row) (desc : json) : Prop :=
  exists type is_nullable default,
    row_get col "data_type" = Return type /\
    row_get col "is_nullable" = Return is_nullable /\
    row_get col "column_default" = Return default /\
    field desc "type" = Some (to_json type) /\
    field desc "default" = Some (to_json default) /\
    exists b, field desc "nullable" = Some (JBool b) /\
              (b = true <-> is_nullable = PStr "YES").

(** A foreign-key descriptor of the payload against its catalog row. *)
Definition fk_described (fk : row) (desc : json) : Prop :=
  exists column references_table references_column,
    row_get fk "column_name" = Return column /\
    row_get fk "foreign_table_name" = Return references_table /\
    row_get fk "foreign_column_name" = Return references_column /\
    desc = JDict [ "column" =: to_json column;
                   "references_table" =: to_json references_table;
                   "references_column" =: to_json references_column ].

(** The columns a row of the column fetch is read at. *)
Definition column_keys : list pystr :=
  [ str "column_name"; str "data_type"; str "is_nullable"; str "column_default";
    str "character_maximum_length" ].

(** The columns a row of the foreign-key fetch is read at. *)
Definition fk_keys : list pystr :=
  [ str "column_name"; str "foreign_table_name"; str "foreign_column_name" ].

(** The string has no whitespace character. *)
Fixpoint no_space (s : pystr) : bool :=
  match s with
  | [] => true
  | c :: s' => negb (PyStr.isspace c) && no_space s'
  end.

(** A word: not empty, no whitespace. *)
Definition is_word (s : pystr) : Prop := s <> [] /\ no_space s = true.

(** What [str.upper] keeps of the shape of a string, character by
    character: whitespace is left as it is, any other character becomes
    one or more characters that are not whitespace, and a second
    [upper] changes nothing. *)
Definition char_ok (c : N) : bool :=
  (if PyStr.isspace c
   then PyStr.eqb (PyStr.toupper c) [c]
   else PyStr.truthy (PyStr.toupper c) && no_space (PyStr.toupper c))
  && PyStr.eqb (PyStr.upper (PyStr.toupper c)) (PyStr.toupper c).

(** * Properties *)

Example repr_ex :
  PyStr.repr "table_name" = "'table_name'" /\
  PyStr.repr "it's" = 34%N :: str "it's" ++ [34%N] /\
  PyStr.repr [233%N; 10%N; 160%N] = str "'" ++ [233%N] ++ str "\n\xa0'".
Proof. vm_compute. repeat split. Qed.

Example strip_ex : PyStr.strip "   SELECT * FROM users " = "SELECT * FROM users".
Proof. reflexivity. Qed.

Example strip_nbsp : PyStr.strip (160%N :: str "SELECT 1") = "SELECT 1".
Proof. reflexivity. Qed.

Example split_ex : PyStr.split "INSERT 0 1" = [str "INSERT"; str "0"; str "1"].
Proof. reflexivity. Qed.

Example upper_ex : PyStr.upper "SeLeCt 1" = "SELECT 1".
Proof. reflexivity. Qed.

Example upper_long_s : PyStr.upper (383%N :: str "elect 1") = "SELECT 1".
Proof. vm_compute. reflexivity. Qed.

Example upper_sharp_s : PyStr.upper [223%N] = "SS".
Proof. vm_compute. reflexivity. Qed.

(** ** Characters *)

Section CharFacts.

Import PyStr.

Lemma eqb_eq (a b : pystr) : eqb a b = true <-> a = b.
Proof.
  revert b. induction a as [|x a IH]; intros [|y b]; simpl; split; intros H;
    try discriminate H; try reflexivity.
  - apply andb_prop in H. destruct H as [Hx Ha].
    apply N.eqb_eq in Hx. apply IH in Ha. congruence.
  - injection H as -> ->. rewrite N.eqb_refl. apply IH. reflexivity.
Qed.

Lemma eqb_refl (a : pystr) : eqb a a = true.
Proof. apply eqb_eq. reflexivity. Qed.



Lemma lookup_In (c : N) (table : list (N * list N)) (u : list N) :
  lookup c table = Some u -> In c (map fst table).
Proof.
  induction table as [|[k v] table IH]; simpl; [discriminate|].
  destruct (N.eqb k c) eqn:E.
  - intros _. left. apply N.eqb_eq, E.
  - intros H. right. apply IH, H.
Qed.

Lemma ascii_range (c : N) : (c <? 128)%N = true -> In c (map N.of_nat (seq 0 128)).
Proof.
  intros H. apply N.ltb_lt in H. apply in_map_iff.
  exists (N.to_nat c). split; [apply N2Nat.id|]. apply in_seq. lia.
Qed.

Lemma char_ok_ascii : forallb char_ok (map N.of_nat (seq 0 128)) = true.
Proof. vm_compute. reflexivity. Qed.

Lemma char_ok_table : forallb char_ok (map fst upper_table) = true.
Proof. vm_compute. reflexivity. Qed.

(** The check holds of every character. *)
Lemma char_ok_all (c : N) : char_ok c = true.
Proof.
  destruct (c <? 128)%N eqn:Hlt.
  - pose proof char_ok_ascii as H. rewrite forallb_forall in H.
    apply H, ascii_range, Hlt.
  - destruct (lookup c upper_table) as [u|] eqn:Hu.
    + pose proof char_ok_table as H. rewrite forallb_forall in H.
      apply H. apply (lookup_In c upper_table u Hu).
    + unfold char_ok, toupper. rewrite Hlt, Hu. simpl.
      unfold toupper. rewrite Hlt, Hu. simpl.
      rewrite N.eqb_refl. destruct (isspace c); reflexivity.
Qed.

Lemma toupper_space (c : N) : isspace c = true -> toupper c = [c].
Proof.
  intros Hc. pose proof (char_ok_all c) as H. unfold char_ok in H. rewrite Hc in H.
  apply andb_prop in H. destruct H as [H _]. apply eqb_eq, H.
Qed.

Lemma toupper_solid (c : N) :
  isspace c = false ->
  exists d ds, toupper c = d :: ds /\ isspace d = false /\ no_space ds = true.
Proof.
  intros Hc. pose proof (char_ok_all c) as H. unfold char_ok in H. rewrite Hc in H.
  apply andb_prop in H. destruct H as [H _]. apply andb_prop in H. destruct H as [Hne Hns].
  destruct (toupper c) as [|d ds]; [discriminate Hne|].
  simpl in Hns. apply andb_prop in Hns. destruct Hns as [Hd Hds].
  exists d, ds. split; [reflexivity|]. split; [apply negb_true_iff, Hd | exact Hds].
Qed.

Lemma toupper_idem (c : N) : upper (toupper c) = toupper c.
Proof.
  pose proof (char_ok_all c) as H. unfold char_ok in H.
  apply andb_prop in H. destruct H as [_ H]. apply eqb_eq, H.
Qed.

End CharFacts.

(** ** Trimming, case and words *)

Section StringFacts.

Import PyStr.

Lemma upper_app (a b : pystr) : upper (a ++ b) = upper a ++ upper b.
Proof.
  induction a as [|c a IH]; simpl; [reflexivity|].
  rewrite IH, app_assoc. reflexivity.
Qed.

Lemma upper_cons_space (c : N) (s : pystr) :
  isspace c = true -> upper (c :: s) = c :: upper s.
Proof. intros Hc. simpl. rewrite (toupper_space c Hc). reflexivity. Qed.

Lemma upper_idem (s : pystr) : upper (upper s) = upper s.
Proof.
  induction s as [|c s IH]; simpl; [reflexivity|].
  rewrite upper_app, toupper_idem, IH. reflexivity.
Qed.

Lemma no_space_app (a b : pystr) : no_space (a ++ b) = no_space a && no_space b.
Proof.
  induction a as [|c a IH]; simpl; [reflexivity|].
  rewrite IH, andb_assoc. reflexivity.
Qed.

Lemma blank_app (a b : pystr) : blank (a ++ b) = blank a && blank b.
Proof.
  induction a as [|c a IH]; simpl; [reflexivity|].
  rewrite IH, andb_assoc. reflexivity.
Qed.


(** Trimming the end leaves a string that ends without whitespace
    ahead of whatever follows. *)
Lemma rstrip_solid_app (u t : pystr) :
  u <> [] -> no_space u = true -> rstrip (u ++ t) = u ++ rstrip t.
Proof.
  induction u as [|a u IH]; [congruence|].
  intros _ Hu. simpl in Hu. apply andb_prop in Hu. destruct Hu as [Ha Hu].
  apply negb_true_iff in Ha.
  destruct u as [|b u].
  - simpl. rewrite Ha. destruct (rstrip t); reflexivity.
  - change (rstrip ((a :: b :: u) ++ t))
      with (match rstrip ((b :: u) ++ t) with
            | [] => if isspace a then [] else [a]
            | r => a :: r
            end).
    rewrite (IH ltac:(discriminate) Hu). reflexivity.
Qed.

Lemma upper_nil (s : pystr) : upper s = [] -> s = [].
Proof.
  destruct s as [|c s]; [reflexivity|]. simpl. intros H.
  apply app_eq_nil in H. destruct H as [H _].
  destruct (isspace c) eqn:Hc.
  - rewrite (toupper_space c Hc) in H. discriminate H.
  - destruct (toupper_solid c Hc) as (d & ds & Hu & _). rewrite Hu in H. discriminate H.
Qed.

Lemma upper_rstrip (s : pystr) : upper (rstrip s) = rstrip (upper s).
Proof.
  induction s as [|c s IH]; [reflexivity|].
  destruct (isspace c) eqn:Hc.
  - rewrite (upper_cons_space c s Hc). simpl. rewrite Hc, <- IH.
    destruct (rstrip s) as [|a r] eqn:Hr; [reflexivity|].
    rewrite (upper_cons_space c (a :: r) Hc).
    destruct (upper (a :: r)) eqn:Hup; [|reflexivity].
    apply upper_nil in Hup. discriminate Hup.
  - destruct (toupper_solid c Hc) as (d & ds & Hu & Hd & Hds).
    assert (Hr : rstrip (c :: s) = c :: rstrip s).
    { simpl. rewrite Hc. destruct (rstrip s); reflexivity. }
    rewrite Hr. simpl upper. rewrite Hu.
    rewrite (rstrip_solid_app (d :: ds) (upper s)); [rewrite IH; reflexivity | discriminate |].
    simpl. rewrite Hd, Hds. reflexivity.
Qed.




Lemma lstrip_blank_app (ws s : pystr) : blank ws = true -> lstrip (ws ++ s) = lstrip s.
Proof.
  induction ws as [|c ws IH]; simpl; [reflexivity|].
  intros [Hc Hws]%andb_prop. rewrite Hc. auto.
Qed.





Lemma blank_upper (s : pystr) : blank (upper s) = blank s.
Proof.
  induction s as [|c s IH]; [reflexivity|].
  destruct (isspace c) eqn:Hc.
  - rewrite (upper_cons_space c s Hc). simpl. rewrite Hc, IH. reflexivity.
  - destruct (toupper_solid c Hc) as (d & ds & Hu & Hd & _).
    simpl. rewrite Hu, Hc. simpl. rewrite Hd. reflexivity.
Qed.

Lemma blank_lstrip (s : pystr) : blank (lstrip s) = blank s.
Proof.
  induction s as [|c s IH]; simpl; [reflexivity|].
  destruct (isspace c) eqn:Hc; simpl; [exact IH|]. rewrite Hc. reflexivity.
Qed.

Lemma blank_rstrip (s : pystr) : blank (rstrip s) = blank s.
Proof.
  induction s as [|c s IH]; simpl; [reflexivity|].
  rewrite <- IH. destruct (rstrip s); simpl.
  - destruct (isspace c) eqn:Hc; simpl; rewrite ?Hc; reflexivity.
  - reflexivity.
Qed.

Lemma blank_query_upper (q : pystr) : blank (query_upper q) = blank q.
Proof.
  unfold query_upper, strip. rewrite blank_upper, blank_rstrip, blank_lstrip.
  reflexivity.
Qed.

Lemma split_go_nil (cur s : pystr) :
  split_go cur s = [] <-> cur = [] /\ blank s = true.
Proof.
  revert cur. induction s as [|c s IH]; intros cur; simpl.
  - destruct cur; split; try (intros [H _]); try intros H; try discriminate; auto.
  - destruct (isspace c); simpl.
    + destruct cur.
      * rewrite IH. tauto.
      * split; [discriminate | intros [H _]; discriminate].
    + rewrite IH. split; [|intros [_ H]; discriminate].
      intros [H _]. destruct cur; discriminate H.
Qed.

Lemma split_nil (s : pystr) : split s = [] <-> blank s = true.
Proof. unfold split. rewrite split_go_nil. tauto. Qed.

(** A string with a non-whitespace character has a first and a last
    item. *)
Lemma first_item_split (s : pystr) :
  blank s = false -> exists t, first_item (split s) = Return t.
Proof.
  intros Hb. destruct (split s) as [|t ts] eqn:Hs.
  - apply split_nil in Hs. congruence.
  - exists t. reflexivity.
Qed.

Lemma last_item_split (s : pystr) :
  blank s = false -> exists t, last_item (split s) = Return t.
Proof.
  intros Hb. unfold last_item. destruct (rev (split s)) as [|t ts] eqn:Hs.
  - apply (f_equal (@rev pystr)) in Hs. rewrite rev_involutive in Hs. simpl in Hs.
    apply split_nil in Hs. congruence.
  - exists t. reflexivity.
Qed.

Lemma not_blank_truthy (s : pystr) : blank s = false -> truthy s = true.
Proof. destruct s; [discriminate | reflexivity]. Qed.

Lemma split_go_solid_app (cur u t : pystr) :
  no_space u = true -> split_go cur (u ++ t) = split_go (cur ++ u) t.
Proof.
  revert cur. induction u as [|a u IH]; intros cur Hu; simpl.
  - rewrite app_nil_r. reflexivity.
  - simpl in Hu. apply andb_prop in Hu. destruct Hu as [Ha Hu].
    apply negb_true_iff in Ha. rewrite Ha, (IH _ Hu), <- app_assoc. reflexivity.
Qed.

Lemma split_go_upper (cur s : pystr) :
  split_go (upper cur) (upper s) = map upper (split_go cur s).
Proof.
  revert cur. induction s as [|c s IH]; intros cur.
  - simpl. destruct cur as [|a cur]; [reflexivity|].
    destruct (upper (a :: cur)) eqn:Hup; [|rewrite <- Hup; reflexivity].
    apply upper_nil in Hup. discriminate Hup.
  - destruct (isspace c) eqn:Hc.
    + rewrite (upper_cons_space c s Hc). simpl. rewrite Hc.
      destruct cur as [|a cur]; [apply (IH [])|].
      destruct (upper (a :: cur)) eqn:Hup.
      * apply upper_nil in Hup. discriminate Hup.
      * simpl. rewrite <- Hup. f_equal. apply (IH []).
    + destruct (toupper_solid c Hc) as (d & ds & Hu & Hd & Hds).
      simpl upper. simpl split_go. rewrite Hc, <- IH, upper_app. simpl upper.
      rewrite app_nil_r. apply split_go_solid_app.
      rewrite Hu. simpl. rewrite Hd, Hds. reflexivity.
Qed.

Lemma split_upper (s : pystr) : split (upper s) = map upper (split s).
Proof. apply (split_go_upper [] s). Qed.

Lemma split_lstrip (s : pystr) : split (lstrip s) = split s.
Proof.
  unfold split. induction s as [|c s IH]; simpl; [reflexivity|].
  destruct (isspace c) eqn:Hc; [exact IH|]. simpl. rewrite Hc. reflexivity.
Qed.

Lemma split_go_blank (cur s : pystr) :
  blank s = true ->
  split_go cur s = match cur with [] => [] | _ => [cur] end.
Proof.
  revert cur. induction s as [|c s IH]; intros cur; simpl; [reflexivity|].
  intros [Hc Hs]%andb_prop. rewrite Hc.
  destruct cur; rewrite (IH [] Hs); reflexivity.
Qed.

Lemma split_go_rstrip (cur s : pystr) : split_go cur (rstrip s) = split_go cur s.
Proof.
  revert cur. induction s as [|c s IH]; intros cur; simpl; [reflexivity|].
  destruct (rstrip s) as [|a r] eqn:Hr.
  - assert (Hs : blank s = true) by (rewrite <- blank_rstrip, Hr; reflexivity).
    destruct (isspace c) eqn:Hc; simpl; rewrite ?Hc.
    + rewrite (split_go_blank [] s Hs). destruct cur; reflexivity.
    + rewrite (split_go_blank _ s Hs).
      destruct cur; reflexivity.
  - simpl. destruct (isspace c); [destruct cur|]; rewrite <- IH; reflexivity.
Qed.

Lemma split_strip (s : pystr) : split (strip s) = split s.
Proof.
  unfold strip, split. rewrite split_go_rstrip. apply split_lstrip.
Qed.

(** The words of the trimmed, uppercased statement are the uppercased
    words of the statement. *)
Lemma split_query_upper (q : pystr) :
  split (query_upper q) = map upper (split q).
Proof. unfold query_upper. rewrite split_upper, split_strip. reflexivity. Qed.

Lemma no_space_snoc (cur : pystr) (c : N) :
  no_space cur = true -> isspace c = false -> is_word (cur ++ [c]).
Proof.
  intros Hcur Hc. split.
  - destruct cur; discriminate.
  - rewrite no_space_app, Hcur. simpl. rewrite Hc. reflexivity.
Qed.

Lemma split_go_words (cur s : pystr) :
  no_space cur = true -> Forall is_word (split_go cur s).
Proof.
  revert cur. induction s as [|c s IH]; intros cur Hcur; simpl.
  - destruct cur; constructor; [|constructor]. split; [discriminate | exact Hcur].
  - destruct (isspace c) eqn:Hc.
    + destruct cur; [apply IH; reflexivity|].
      constructor; [split; [discriminate | exact Hcur] | apply IH; reflexivity].
    + apply IH. apply (no_space_snoc cur c Hcur Hc).
Qed.

(** Every item of [s.split()] is a word. *)
Lemma split_words (s : pystr) : Forall is_word (split s).
Proof. apply split_go_words. reflexivity. Qed.

Lemma first_item_word (l : list pystr) (t : pystr) :
  Forall is_word l -> first_item l = Return t -> is_word t.
Proof.
  destruct 1 as [|x l Hx _]; simpl; [discriminate|]. intros [= <-]. exact Hx.
Qed.

Lemma last_item_word (l : list pystr) (t : pystr) :
  Forall is_word l -> last_item l = Return t -> is_word t.
Proof.
  intros Hl. unfold last_item.
  destruct (rev l) as [|x r] eqn:Hr; [discriminate|]. intros [= <-].
  rewrite List.Forall_forall in Hl. apply Hl. apply in_rev. rewrite Hr. left. reflexivity.
Qed.

Lemma affected_of_word (status : option pystr) (affected : pystr) :
  affected_of status = Return affected -> is_word affected.
Proof.
  unfold affected_of. destruct status as [st|].
  - destruct (truthy st).
    + apply last_item_word, split_words.
    + intros [= <-]. split; [discriminate | reflexivity].
  - intros [= <-]. split; [discriminate | reflexivity].
Qed.

Lemma startswith_nil (s : pystr) : startswith s [] = true.
Proof. destruct s; reflexivity. Qed.

Lemma startswith_cons (a b : N) (s p : pystr) :
  startswith (a :: s) (b :: p) = N.eqb a b && startswith s p.
Proof. reflexivity. Qed.

Lemma startswith_nil_cons (b : N) (p : pystr) : startswith [] (b :: p) = false.
Proof. reflexivity. Qed.

(** A prefix without whitespace is not affected by trimming the end. *)
Lemma startswith_rstrip (p s : pystr) :
  no_space p = true -> startswith (rstrip s) p = startswith s p.
Proof.
  revert p. induction s as [|a s IH]; intros p Hp; [reflexivity|].
  destruct p as [|b p]; [rewrite !startswith_nil; reflexivity|].
  simpl in Hp. apply andb_prop in Hp. destruct Hp as [Hb Hp].
  apply negb_true_iff in Hb.
  specialize (IH p Hp). rewrite startswith_cons.
  simpl rstrip. destruct (rstrip s) as [|x r] eqn:Hr.
  - destruct (isspace a) eqn:Ha.
    + rewrite startswith_nil_cons. destruct (N.eqb a b) eqn:E; [|reflexivity].
      apply N.eqb_eq in E. congruence.
    + rewrite startswith_cons, IH. reflexivity.
  - rewrite startswith_cons, IH. reflexivity.
Qed.

Lemma startswith_app (p t : pystr) : startswith (p ++ t) p = true.
Proof.
  induction p as [|b p IH]; [apply startswith_nil|].
  simpl app. rewrite startswith_cons, N.eqb_refl. exact IH.
Qed.

Lemma startswith_app_l (s t p : pystr) :
  startswith s p = true -> startswith (s ++ t) p = true.
Proof.
  revert s. induction p as [|b p IH]; intros s H; [apply startswith_nil|].
  destruct s as [|a s]; [discriminate H|].
  simpl app. rewrite startswith_cons in *.
  apply andb_prop in H. destruct H as [-> H]. simpl. apply IH, H.
Qed.

Lemma lstrip_decompose (q : pystr) :
  exists ws, blank ws = true /\ q = ws ++ lstrip q.
Proof.
  induction q as [|c q (ws & Hws & Hq)].
  - exists []. split; reflexivity.
  - simpl. destruct (isspace c) eqn:Hc.
    + exists (c :: ws). split; [simpl; rewrite Hc; exact Hws|].
      simpl. rewrite <- Hq. reflexivity.
    + exists []. split; reflexivity.
Qed.

(** The test of the guard and of the classification reads the
    statement after its leading whitespace only. *)
Lemma select_test_lstrip (q : pystr) :
  startswith (upper (strip q)) "SELECT" = startswith (upper (lstrip q)) "SELECT".
Proof.
  unfold strip. rewrite upper_rstrip. apply startswith_rstrip. reflexivity.
Qed.

End StringFacts.

(** ** Start-up configuration *)

Example int_port : py_int 4300 (Some (str " 5_432 ")) = inr 5432%Z.
Proof. reflexivity. Qed.

Example int_not_a_number : py_int 4300 (Some (str "54x2")) = inl (ValueError_int "54x2").
Proof. reflexivity. Qed.

(** [int] does not skip the separator FS, and reads Arabic-Indic digits. *)
Example int_separator : py_int 4300 (Some (28%N :: str "5432")) = inl (ValueError_int (28%N :: str "5432")).
Proof. reflexivity. Qed.

Example int_arabic_indic : py_int 4300 (Some [1637; 1636; 1635; 1634]%N) = inr 5432%Z.
Proof. vm_compute. reflexivity. Qed.

(** C9, as stated, fails: with [DB_PORT] set and [DB_DATABASE], [DB_USER]
    and [DB_PASSWORD] all missing, loading the module succeeds; the
    missing settings are [None] in [DB_CONFIG] and a handler runs. *)
Lemma missing_identity_settings_start :
  env_port_only !! str "DB_DATABASE" = None /\
  env_port_only !! str "DB_USER" = None /\
  env_port_only !! str "DB_PASSWORD" = None /\
  load_db_config 4300 env_port_only
  = inr {| host := Some (str "localhost"); port := 5432;
           database := None; user := None; password := None |} /\
  exists r,
    serve 4300 env_port_only
      (fun cfg => execute_safe_query (Mock.mock (inr 1) [] (inr None)) cfg "DROP TABLE t")
      Mock.start = inr r.
Proof.
  repeat split; try (vm_compute; reflexivity).
  eexists. vm_compute. reflexivity.
Qed.

(** C9, amended: a missing [DB_PORT] is a start-up fault ([int(None)]
    raises while [DB_CONFIG] is built, so no handler ever runs), and so
    is a [DB_PORT] that [int] refuses; when [int] accepts [DB_PORT],
    start-up succeeds whichever of [DB_DATABASE], [DB_USER],
    [DB_PASSWORD] are missing, and those are [None] in [DB_CONFIG]. *)
Theorem startup_fails_iff_port_unusable (limit : nat) (env : environ) :
  (env !! str "DB_PORT" = None ->
   load_db_config limit env = inl TypeError_int /\
   forall W A (handler : db_config -> state W -> outcome A * state W) s,
     serve limit env handler s = inl TypeError_int) /\
  (forall p n,
     env !! str "DB_PORT" = Some p -> parse_int limit p = Some n ->
     load_db_config limit env
     = inr {| host := Some (default (str "localhost") (env !! str "DB_HOST"));
              port := n;
              database := env !! str "DB_DATABASE";
              user := env !! str "DB_USER";
              password := env !! str "DB_PASSWORD" |}) /\
  (forall p,
     env !! str "DB_PORT" = Some p -> parse_int limit p = None ->
     load_db_config limit env = inl (ValueError_int p)).
Proof.
  split; [|split].
  - intros Hport.
    assert (Hload : load_db_config limit env = inl TypeError_int).
    { unfold load_db_config, getenv. rewrite Hport. reflexivity. }
    split; [exact Hload|].
    intros W A handler s. unfold serve. rewrite Hload. reflexivity.
  - intros p n Hport Hparse.
    unfold load_db_config, getenv, py_int. rewrite Hport, Hparse.
    destruct (env !! str "DB_HOST"), (env !! str "DB_DATABASE"), (env !! str "DB_USER"),
      (env !! str "DB_PASSWORD"); reflexivity.
  - intros p Hport Hparse.
    unfold load_db_config, getenv, py_int. rewrite Hport, Hparse. reflexivity.
Qed.

Lemma startup_fails_iff_port_unusable_witness :
  load_db_config 4300 (∅ : environ) = inl TypeError_int /\
  load_db_config 4300 env_port_only
  = inr {| host := Some (str "localhost"); port := 5432;
           database := None; user := None; password := None |}.
Proof.
  split.
  - apply (startup_fails_iff_port_unusable 4300 ∅). reflexivity.
  - apply (proj1 (proj2 (startup_fails_iff_port_unusable 4300 env_port_only))
             (str "5432") 5432%Z);
      vm_compute; reflexivity.
Defined.

(** ** The read-only guard *)

(** C1: a query whose trimmed, uppercased text does not start with
    SELECT is answered with the fixed error payload, and the state is the
    one the call started in: no driver call is added to the trace (no
    connection is opened or even attempted) and the driver's world is
    untouched. *)
Theorem safe_query_rejects_without_connection
    (W : Type) (drv : driver W) (cfg : db_config) (query : pystr) (s : state W) :
  PyStr.startswith (PyStr.upper (PyStr.strip query)) "SELECT" = false ->
  execute_safe_query drv cfg query s
  = (Return (JDict [ "error" =: JStr "Only SELECT queries are allowed with this tool";
                     "status" =: JStr "failed" ]),
     s).
Proof.
  intros Hsel. unfold execute_safe_query. rewrite Hsel. reflexivity.
Qed.

Lemma safe_query_rejects_without_connection_witness :
  execute_safe_query (Mock.mock (inl (DriverError "unreachable")) [] (inr None))
    Mock.config "DROP TABLE users" Mock.start
  = (Return (JDict [ "error" =: JStr "Only SELECT queries are allowed with this tool";
                     "status" =: JStr "failed" ]),
     Mock.start).
Proof.
  apply (safe_query_rejects_without_connection nat
           (Mock.mock (inl (DriverError "unreachable")) [] (inr None))
           Mock.config "DROP TABLE users" Mock.start).
  reflexivity.
Defined.

(** The four statements of the unit tests are rejected; a statement
    that starts with a no-break space or with a long s is not. *)
Example safe_query_rejections :
  Forall (fun query : pystr =>
            PyStr.startswith (PyStr.upper (PyStr.strip query)) "SELECT" = false)
    [ str "INSERT INTO users (name) VALUES ('test')";
      str "UPDATE users SET name = 'test'";
      str "DELETE FROM users";
      str "DROP TABLE users" ] /\
  PyStr.startswith (PyStr.upper (PyStr.strip (160%N :: str "SELECT 1"))) "SELECT" = true /\
  PyStr.startswith (PyStr.upper (PyStr.strip (383%N :: str "elect 1"))) "SELECT" = true.
Proof. split; [repeat constructor | split; vm_compute; reflexivity]. Qed.

(** C8: a query whose trimmed, uppercased text starts with SELECT is
    handed unchanged to [execute_query] without parameters: same outcome
    (payload or exception), same driver calls, same final world. *)
Theorem safe_query_delegates
    (W : Type) (drv : driver W) (cfg : db_config) (query : pystr) (s : state W) :
  PyStr.startswith (PyStr.upper (PyStr.strip query)) "SELECT" = true ->
  execute_safe_query drv cfg query s = execute_query drv cfg query None s.
Proof.
  intros Hsel. unfold execute_safe_query. rewrite Hsel. reflexivity.
Qed.

Lemma safe_query_delegates_witness :
  execute_safe_query (Mock.mock (inr 3) [inr [["id" =: PInt 1]]] (inr None))
    Mock.config "   SELECT * FROM users" Mock.start
  = execute_query (Mock.mock (inr 3) [inr [["id" =: PInt 1]]] (inr None))
      Mock.config "   SELECT * FROM users" None Mock.start.
Proof.
  apply (safe_query_delegates nat (Mock.mock (inr 3) [inr [["id" =: PInt 1]]] (inr None))
           Mock.config "   SELECT * FROM users" Mock.start).
  reflexivity.
Defined.

(** ** Runs of driver calls *)

Section Runs.

Variable W : Type.
Variable drv : driver W.

Lemma query_run_trans (c : connection) (s1 s2 s3 : state W) :
  query_run drv c s1 s2 -> query_run drv c s2 s3 -> query_run drv c s1 s3.
Proof.
  induction 1 as [s|s1 s2 s2' Hstep _ IH]; [auto|].
  intros H. apply (run_more drv c s1 s2 s3 Hstep (IH H)).
Qed.

Lemma query_run_trace (c : connection) (s1 s2 : state W) :
  query_run drv c s1 s2 ->
  exists mid, trace s2 = trace s1 ++ mid /\ Forall (query_call c) mid.
Proof.
  induction 1 as [s|s1 s2 s3 Hstep _ (mid & Hmid & Hq)].
  - exists []. rewrite app_nil_r. split; [reflexivity | constructor].
  - destruct Hstep as [s q args | s q args]; simpl in Hmid.
    + exists (EvFetch c q args :: mid). rewrite Hmid, <- app_assoc.
      split; [reflexivity | constructor; [reflexivity | exact Hq]].
    + exists (EvExecute c q args :: mid). rewrite Hmid, <- app_assoc.
      split; [reflexivity | constructor; [reflexivity | exact Hq]].
Qed.

Lemma only_queries_ret {A : Type} (c : connection) (a : A) : only_queries drv c (ret W a).
Proof. intros s. apply run_done. Qed.

Lemma only_queries_lift {A : Type} (c : connection) (o : outcome A) :
  only_queries drv c (lift W o).
Proof. intros s. apply run_done. Qed.

Lemma only_queries_fetch (c : connection) (q : pystr) (args : list pyval) :
  only_queries drv c (fetch W drv c q args).
Proof.
  intros s. eapply run_more; [apply (step_fetch drv c s q args) | ].
  unfold fetch. destruct (db_fetch drv c q args (world s)) as [[e|rows] w]; apply run_done.
Qed.

Lemma only_queries_execute (c : connection) (q : pystr) (args : list pyval) :
  only_queries drv c (execute W drv c q args).
Proof.
  intros s. eapply run_more; [apply (step_execute drv c s q args) | ].
  unfold execute. destruct (db_execute drv c q args (world s)) as [[e|st] w]; apply run_done.
Qed.

Lemma only_queries_bind {A B : Type} (c : connection) (m : M W A) (k : A -> M W B) :
  only_queries drv c m -> (forall a, only_queries drv c (k a)) ->
  only_queries drv c (bind W m k).
Proof.
  intros Hm Hk s. unfold bind. specialize (Hm s).
  destruct (m s) as [[a|e] s1]; simpl in *.
  - apply (query_run_trans c s s1 _ Hm (Hk a s1)).
  - exact Hm.
Qed.

Lemma list_tables_body_run (c : connection) (schema_name : pystr) :
  only_queries drv c (list_tables_body drv c schema_name).
Proof.
  unfold list_tables_body.
  apply only_queries_bind; [apply only_queries_fetch|]. intros rows.
  apply only_queries_bind; [apply only_queries_lift|]. intros tables.
  apply only_queries_lift.
Qed.

Lemma get_table_schema_body_run (c : connection) (table_name schema_name : pystr) :
  only_queries drv c (get_table_schema_body drv c table_name schema_name).
Proof.
  unfold get_table_schema_body.
  apply only_queries_bind; [apply only_queries_fetch|]. intros [|col columns].
  - apply only_queries_lift.
  - apply only_queries_bind; [apply only_queries_fetch|]. intros pks.
    apply only_queries_bind; [apply only_queries_lift|]. intros primary_keys.
    apply only_queries_bind; [apply only_queries_fetch|]. intros fks.
    apply only_queries_bind; [apply only_queries_lift|]. intros info.
    apply only_queries_bind; [apply only_queries_lift|]. intros foreign_keys.
    apply only_queries_lift.
Qed.

Lemma execute_query_body_run (c : connection) (query : pystr)
    (params : option (list pyval)) :
  only_queries drv c (execute_query_body drv c query params).
Proof.
  unfold execute_query_body.
  destruct (PyStr.startswith _ _).
  - apply only_queries_bind.
    + destruct (params_truthy params); apply only_queries_fetch.
    + intros rows. apply only_queries_lift.
  - apply only_queries_bind.
    + destruct (params_truthy params); apply only_queries_execute.
    + intros status.
      apply only_queries_bind; [apply only_queries_lift|]. intros affected.
      apply only_queries_bind; [apply only_queries_lift|]. intros _.
      apply only_queries_bind; [apply only_queries_lift|]. intros type.
      apply only_queries_lift.
Qed.

(** A handler that has the connection: whatever its guarded block and
    its [except] clause return or raise, it leaves through [close]. *)
Lemma with_connection_released {A : Type} (cfg : db_config)
    (body : connection -> M W A) (handler : exn -> M W A)
    (s : state W) (c : connection) (w : W) :
  db_connect drv cfg (world s) = (inr c, w) ->
  (forall e s0, snd (handler e s0) = s0) ->
  only_queries drv c (body c) ->
  released drv cfg
    (bind W (get_db_connection drv cfg)
       (fun conn => try_finally W (try_except W (body conn) handler) (close W drv conn)))
    s c.
Proof.
  intros Hc Hh Hb.
  pose (s2 := snd (body c (entered s c w))).
  assert (Hrun : query_run drv c (entered s c w) s2) by apply Hb.
  assert (Hend : snd (bind W (get_db_connection drv cfg)
                        (fun conn => try_finally W (try_except W (body conn) handler)
                                       (close W drv conn)) s)
                 = closed drv c s2).
  { unfold bind, get_db_connection, try_except at 1, connect. rewrite Hc.
    unfold try_finally, try_except, close, closed. fold (entered s c w).
    subst s2. destruct (body c (entered s c w)) as [[a|e] s1]; simpl.
    - destruct (db_close drv c (world s1)) as [[e'|u] w']; reflexivity.
    - specialize (Hh e s1). destruct (handler e s1) as [o s1']. simpl in Hh. subst s1'.
      destruct (db_close drv c (world s1)) as [[e'|u] w']; reflexivity. }
  destruct (query_run_trace c _ _ Hrun) as (mid & Hmid & Hq).
  exists w, s2, mid.
  split; [exact Hc|]. split; [exact Hrun|]. split; [exact Hend|].
  split; [|split].
  - rewrite Hend. unfold closed, log. simpl. rewrite Hmid. unfold entered, log. simpl.
    rewrite <- !app_assoc. reflexivity.
  - exact Hq.
  - unfold close_count. simpl. rewrite List.filter_app, length_app. simpl.
    assert (Hz : length (List.filter is_close mid) = 0).
    { clear -Hq. induction Hq as [|ev evs Hev _ IH]; [reflexivity|].
      destruct ev; simpl in *; solve [exact IH | contradiction]. }
    rewrite Hz. reflexivity.
Qed.

End Runs.

(** ** Release of the connection *)

(** C7: whenever [list_tables], [get_table_schema] or [execute_query]
    has acquired a connection, the driver's [close] is applied to that
    connection exactly once, as the last driver call before the handler
    is left, whatever the driver answers to the queries (rows, no rows,
    or an exception) and whether [close] itself returns or raises. *)
Theorem connection_closed_exactly_once
    (W : Type) (drv : driver W) (cfg : db_config) (s : state W) (c : connection) (w : W) :
  db_connect drv cfg (world s) = (inr c, w) ->
  (forall schema_name, released drv cfg (list_tables drv cfg schema_name) s c) /\
  (forall table_name schema_name,
      released drv cfg (get_table_schema drv cfg table_name schema_name) s c) /\
  (forall query params, released drv cfg (execute_query drv cfg query params) s c).
Proof.
  intros Hc. split; [|split].
  - intros schema_name.
    apply (with_connection_released W drv cfg
             (fun conn => list_tables_body drv conn schema_name) _ s c w Hc).
    + reflexivity.
    + apply list_tables_body_run.
  - intros table_name schema_name.
    apply (with_connection_released W drv cfg
             (fun conn => get_table_schema_body drv conn table_name schema_name) _ s c w Hc).
    + reflexivity.
    + apply get_table_schema_body_run.
  - intros query params.
    apply (with_connection_released W drv cfg
             (fun conn => execute_query_body drv conn query params) _ s c w Hc).
    + reflexivity.
    + apply execute_query_body_run.
Qed.

(** The exit paths of [get_table_schema] on the test double: a table
    with one column, an absent table, a failing fetch, a failing
    close. *)
Lemma connection_closed_exactly_once_witness :
  released (Mock.mock (inr 5) [inr [["column_name" =: PStr "id"]]; inr []; inr []] (inr None))
    Mock.config
    (get_table_schema
       (Mock.mock (inr 5) [inr [["column_name" =: PStr "id"]]; inr []; inr []] (inr None))
       Mock.config "users" "public") Mock.start 5 /\
  released (Mock.mock (inr 5) [inr []] (inr None)) Mock.config
    (get_table_schema (Mock.mock (inr 5) [inr []] (inr None))
       Mock.config "nonexistent" "public") Mock.start 5 /\
  released (Mock.mock (inr 5) [inl (DriverError "Syntax error")] (inr None)) Mock.config
    (get_table_schema (Mock.mock (inr 5) [inl (DriverError "Syntax error")] (inr None))
       Mock.config "users" "public") Mock.start 5 /\
  released (failing_close [inr []] (inr None)) Mock.config
    (get_table_schema (failing_close [inr []] (inr None))
       Mock.config "users" "public") Mock.start 1.
Proof.
  split; [|split; [|split]].
  - apply (connection_closed_exactly_once nat
             (Mock.mock (inr 5) [inr [["column_name" =: PStr "id"]]; inr []; inr []] (inr None))
             Mock.config Mock.start 5 0%nat).
    reflexivity.
  - apply (connection_closed_exactly_once nat (Mock.mock (inr 5) [inr []] (inr None))
             Mock.config Mock.start 5 0%nat).
    reflexivity.
  - apply (connection_closed_exactly_once nat
             (Mock.mock (inr 5) [inl (DriverError "Syntax error")] (inr None))
             Mock.config Mock.start 5 0%nat).
    reflexivity.
  - apply (connection_closed_exactly_once nat (failing_close [inr []] (inr None))
             Mock.config Mock.start 1 0%nat).
    reflexivity.
Defined.

(** ** Classification by [execute_query] *)

(** The driver calls of one [execute_query] on a reachable database: the
    second call is a [fetch] exactly for a SELECT, an [execute] otherwise. *)
Lemma execute_query_trace
    (W : Type) (drv : driver W) (cfg : db_config) (query : pystr)
    (params : option (list pyval)) (s : state W) (c : connection) (w : W) :
  db_connect drv cfg (world s) = (inr c, w) ->
  trace (snd (execute_query drv cfg query params s))
  = trace s ++
    [ EvConnect c;
      (if PyStr.startswith (PyStr.upper (PyStr.strip query)) "SELECT"
       then EvFetch c query
       else EvExecute c query) (if params_truthy params then unpack params else []);
      EvClose c ].
Proof.
  intros Hc. run_handler. rewrite Hc. simpl. unfold query_upper.
  destruct (PyStr.startswith _ _); destruct (params_truthy params); run_handler.
  all: try (destruct (db_fetch drv c query _ w) as [[e|rows] w']; simpl; case_close;
       rewrite <- ?app_assoc; reflexivity).
  all: destruct (db_execute drv c query _ w) as [[e|status] w']; simpl;
       [case_close; rewrite <- ?app_assoc; reflexivity|].
  all: destruct (affected_of status); simpl;
       [|case_close; rewrite <- ?app_assoc; reflexivity].
  all: destruct (first_item _); simpl; case_close; rewrite <- ?app_assoc; reflexivity.
Qed.


(** The run of the mutation branch once the driver has answered. *)
Lemma mutation_result
    (W : Type) (drv : driver W) (cfg : db_config) (query : pystr)
    (params : option (list pyval)) (s : state W) (c : connection) (w w' w'' : W)
    (status : option pystr) (closing : exn + unit) :
  db_connect drv cfg (world s) = (inr c, w) ->
  PyStr.startswith (PyStr.upper (PyStr.strip query)) "SELECT" = false ->
  db_execute drv c query (if params_truthy params then unpack params else []) w
  = (inr status, w') ->
  db_close drv c w' = (closing, w'') ->
  fst (execute_query drv cfg query params s)
  = match closing with
    | inl e => Raise e
    | inr _ =>
        match affected_of status,
              first_item (PyStr.split (PyStr.upper (PyStr.strip query))) with
        | Return affected, Return type =>
            Return (JDict [ "type" =: JStr type;
                            "affected_rows" =: JStr affected;
                            "status" =: JStr "success" ])
        | Raise e, _ | Return _, Raise e => Return (ErrorResponse (str_exn e))
        end
    end.
Proof.
  intros Hc Hsel Hx Hcl. run_handler. rewrite Hc. simpl. unfold query_upper. rewrite Hsel.
  destruct (params_truthy params); run_handler; rewrite Hx; simpl;
    (destruct (affected_of status); simpl;
     [destruct (first_item _); simpl|]; rewrite Hcl; destruct closing; reflexivity).
Qed.



(** ** Table schema *)

(** C5, as stated, fails: the handler leaves through
    [finally: await conn.close()], and when [close] raises on the
    not-found path its exception reaches the caller in place of the
    payload. *)
Lemma absent_table_close_raises :
  db_fetch (failing_close [inr []] (inr None)) 1 column_query
    [PStr "public"; PStr "nonexistent"] 0%nat = (inr [], 1%nat) /\
  get_table_schema (failing_close [inr []] (inr None))
    Mock.config "nonexistent" "public" Mock.start
  = (Raise (DriverError "connection is closed"),
     {| world := 1;
        trace := [ EvConnect 1;
                   EvFetch 1 column_query [PStr "public"; PStr "nonexistent"];
                   EvClose 1 ] |}).
Proof. split; reflexivity. Qed.

(** C5, amended: when the column fetch returns no rows and closing the
    connection does not raise, [get_table_schema] returns the error
    payload naming the table and the schema; the only driver calls are
    the connection, that fetch and the close. *)
Theorem absent_table_is_reported
    (W : Type) (drv : driver W) (cfg : db_config) (table_name schema_name : pystr)
    (s : state W) (c : connection) (w w' w'' : W) :
  db_connect drv cfg (world s) = (inr c, w) ->
  db_fetch drv c column_query [PStr schema_name; PStr table_name] w = (inr [], w') ->
  db_close drv c w' = (inr tt, w'') ->
  get_table_schema drv cfg table_name schema_name s
  = (Return (JDict [ "error" =: JStr (str "Table '" ++ table_name
                                        ++ str "' not found in schema '"
                                        ++ schema_name ++ str "'");
                     "status" =: JStr "failed" ]),
     {| world := w'';
        trace := trace s ++ [ EvConnect c;
                              EvFetch c column_query [PStr schema_name; PStr table_name];
                              EvClose c ] |}).
Proof.
  intros Hc Hf Hcl. run_handler. rewrite Hc. simpl. rewrite Hf. simpl. rewrite Hcl. simpl.
  rewrite <- !app_assoc. reflexivity.
Qed.

Lemma absent_table_is_reported_witness :
  fst (get_table_schema (Mock.mock (inr 4) [inr []] (inr None))
         Mock.config "nonexistent" "public" Mock.start)
  = Return (JDict [ "error" =: JStr "Table 'nonexistent' not found in schema 'public'";
                    "status" =: JStr "failed" ]).
Proof.
  rewrite (absent_table_is_reported nat (Mock.mock (inr 4) [inr []] (inr None))
             Mock.config "nonexistent" "public" Mock.start 4 0%nat 1%nat 1%nat);
    reflexivity.
Defined.

Lemma pyval_eqb_eq (a b : pyval) : pyval_eqb a b = true <-> a = b.
Proof.
  destruct a, b; simpl; split; intros H;
    try discriminate H; try reflexivity.
  - apply Z.eqb_eq in H. congruence.
  - injection H as ->. apply Z.eqb_refl.
  - apply eqb_eq in H. congruence.
  - injection H as ->. apply eqb_refl.
  - apply andb_prop in H. destruct H as [H Hb]. apply andb_prop in H. destruct H as [Ht Hx].
    apply eqb_eq in Ht. apply eqb_eq in Hx. apply Bool.eqb_prop in Hb. congruence.
  - injection H as -> -> ->. rewrite !eqb_refl, Bool.eqb_reflx. reflexivity.
Qed.

Lemma py_in_In (x : pyval) (l : list pyval) : py_in x l = true <-> In x l.
Proof.
  unfold py_in. rewrite existsb_exists. split.
  - intros (y & Hy & Heq). apply pyval_eqb_eq in Heq. subst y. exact Hy.
  - intros H. exists x. split; [exact H | apply pyval_eqb_eq; reflexivity].
Qed.

Lemma to_json_inj (a b : pyval) : to_json a = to_json b -> native a -> a = b.
Proof. destruct a, b; simpl; try congruence; contradiction. Qed.

Lemma omap_Forall2 {A B : Type} (f : A -> outcome B) (l : list A) (l' : list B) :
  omap f l = Return l' -> Forall2 (fun a b => f a = Return b) l l'.
Proof.
  revert l'. induction l as [|a l IH]; simpl; intros l' H.
  - injection H as <-. constructor.
  - destruct (f a) as [b|e] eqn:Hfa; simpl in H; [|discriminate H].
    destruct (omap f l) as [bs|e]; simpl in H; [|discriminate H].
    injection H as <-. constructor; [exact Hfa | apply IH; reflexivity].
Qed.

Lemma find_other_list (l : list json) :
  find_other (JList l) = None <-> Forall (fun a => find_other a = None) l.
Proof.
  induction l as [|a l IH].
  - split; [constructor | reflexivity].
  - change (find_other (JList (a :: l)))
      with (match find_other a with Some t => Some t | None => find_other (JList l) end).
    split.
    + intros H. destruct (find_other a) eqn:Ha; [discriminate H|].
      constructor; [exact Ha | apply IH, H].
    + intros H. apply Forall_cons_iff in H. destruct H as [Ha Hl].
      rewrite Ha. apply IH, Hl.
Qed.

Lemma find_other_dict_cons (k : pystr) (a : json) (d : list (pystr * json)) :
  find_other (JDict ((k, a) :: d))
  = match find_other a with Some t => Some t | None => find_other (JDict d) end.
Proof. reflexivity. Qed.

Lemma find_other_native (v : pyval) : find_other (to_json v) = None <-> native v.
Proof. destruct v; simpl; split; intros H; try reflexivity; try exact I; try discriminate; contradiction. Qed.

Lemma In_to_json (x : pyval) (l : list pyval) :
  native x -> In (to_json x) (map to_json l) <-> In x l.
Proof.
  intros Hx. rewrite in_map_iff. split.
  - intros (y & Heq & Hy). symmetry in Heq. apply to_json_inj in Heq; [|exact Hx].
    subst y. exact Hy.
  - intros H. exists x. split; [reflexivity | exact H].
Qed.

(** A descriptor that [json.dumps] can write describes its row. *)
Lemma col_dict_described (primary_keys : list pyval) (col : row) (desc : json) :
  col_dict primary_keys col = Return desc ->
  find_other desc = None ->
  column_described (map to_json primary_keys) col desc.
Proof.
  unfold col_dict. intros H Hfo.
  destruct (row_get col "column_name") as [name|e] eqn:Hname; simpl in H; [|discriminate H].
  destruct (row_get col "data_type") as [type|e]; simpl in H; [|discriminate H].
  destruct (row_get col "is_nullable") as [is_nullable|e]; simpl in H; [|discriminate H].
  destruct (row_get col "column_default") as [default|e]; simpl in H; [|discriminate H].
  destruct (row_get col "character_maximum_length") as [len|e] eqn:Hcml; simpl in H;
    [|discriminate H].
  assert (Hnative : native name).
  { destruct name; try exact I.
    destruct (truthy len); injection H as <-; vm_compute in Hfo; discriminate Hfo. }
  exists name, len. split; [exact Hname|]. split; [exact Hcml|].
  destruct (truthy len) eqn:Hlen; injection H as <-.
  - split; [reflexivity|]. split; [|split].
    + exists (py_in name primary_keys). split; [reflexivity|].
      rewrite (In_to_json name primary_keys Hnative). apply py_in_In.
    + split; [reflexivity | intros _; vm_compute; discriminate].
    + reflexivity.
  - split; [reflexivity|]. split; [|split].
    + exists (py_in name primary_keys). split; [reflexivity|].
      rewrite (In_to_json name primary_keys Hnative). apply py_in_In.
    + split; [intros H; vm_compute in H; congruence | discriminate].
    + discriminate.
Qed.

(** C6, as stated, fails: [max_length] is added under
    [if col['character_maximum_length']], which is false for [0] as well
    as for [None].  For a row whose [character_maximum_length] is the
    non-null value 0 the result is successful and the descriptor has no
    [max_length]. *)
Lemma zero_length_has_no_max_length :
  row_get zero_length_column "character_maximum_length" = Return (PInt 0) /\
  PInt 0 <> PNone /\
  exists desc,
    fst (get_table_schema (Mock.mock (inr 1) [inr [zero_length_column]; inr []; inr []] (inr None))
           Mock.config "items" "public" Mock.start)
    = Return (JDict [ "schema" =: JStr "public";
                      "table" =: JStr "items";
                      "columns" =: JList [desc];
                      "primary_keys" =: JList [];
                      "foreign_keys" =: JList [] ]) /\
    field desc "max_length" = None.
Proof.
  split; [reflexivity|]. split; [discriminate|].
  eexists. split; [vm_compute; reflexivity | reflexivity].
Qed.

(** Where a successful payload comes from. *)
Lemma schema_success_inv
    (W : Type) (drv : driver W) (cfg : db_config) (table_name schema_name : pystr)
    (s : state W) (payload : json) (descs : list json) :
  fst (get_table_schema drv cfg table_name schema_name s) = Return payload ->
  field payload "columns" = Some (JList descs) ->
  exists c w columns w1 primary_keys,
    db_connect drv cfg (world s) = (inr c, w) /\
    db_fetch drv c column_query [PStr schema_name; PStr table_name] w = (inr columns, w1) /\
    column_info primary_keys columns = Return descs /\
    Forall (fun d => find_other d = None) descs /\
    field payload "schema" = Some (JStr schema_name) /\
    field payload "table" = Some (JStr table_name) /\
    field payload "primary_keys" = Some (JList (map to_json primary_keys)).
Proof.
  assert (Herr : forall msg, field (ErrorResponse msg) "columns" = Some (JList descs) -> False)
    by (intros msg H; discriminate H).
  run_handler.
  destruct (db_connect drv cfg (world s)) as [[e|c] w] eqn:Hc; simpl; [discriminate|].
  destruct (db_fetch drv c column_query _ w) as [[e|columns] w1] eqn:Hf; simpl.
  { case_close; intros [= <-] H; try discriminate; exfalso; eapply Herr, H. }
  destruct columns as [|col columns]; simpl.
  { case_close; intros [= <-] H; try discriminate; exfalso; eapply Herr, H. }
  destruct (db_fetch drv c pk_query _ w1) as [[e|pks] w2]; simpl.
  { case_close; intros [= <-] H; try discriminate; exfalso; eapply Herr, H. }
  destruct (omap _ pks) as [primary_keys|e]; simpl.
  2:{ case_close; intros [= <-] H; try discriminate; exfalso; eapply Herr, H. }
  destruct (db_fetch drv c fk_query _ w2) as [[e|fks] w3]; simpl.
  { case_close; intros [= <-] H; try discriminate; exfalso; eapply Herr, H. }
  destruct (column_info primary_keys (col :: columns)) as [info|e] eqn:Hinfo; simpl.
  2:{ case_close; intros [= <-] H; try discriminate; exfalso; eapply Herr, H. }
  destruct (omap fk_dict fks) as [foreign_keys|e]; simpl.
  2:{ case_close; intros [= <-] H; try discriminate; exfalso; eapply Herr, H. }
  unfold json_dumps.
  destruct (find_other (JDict _)) as [t|] eqn:Hfo; simpl.
  { case_close; intros [= <-] H; try discriminate; exfalso; eapply Herr, H. }
  case_close; [discriminate|].
  intros [= <-] [= <-].
  exists c, w, (col :: columns), w1, primary_keys.
  split; [reflexivity|]. split; [exact Hf|]. split; [exact Hinfo|].
  split; [|repeat split].
  apply find_other_list.
  destruct (find_other (JList info)) as [t|] eqn:Hl; [|reflexivity].
  rewrite !find_other_dict_cons, Hl in Hfo. simpl in Hfo. discriminate Hfo.
Qed.

(** C6, amended: in every successful result of [get_table_schema] the
    descriptors follow the rows of the column fetch one to one; a
    descriptor has [is_primary_key] true if and only if its name is in
    the payload's [primary_keys], and it has a [max_length] field if and
    only if the row's [character_maximum_length] is neither null nor
    zero (a true value), the field then holding that value. *)
Theorem column_descriptors
    (W : Type) (drv : driver W) (cfg : db_config) (table_name schema_name : pystr)
    (s : state W) (payload : json) (descs : list json) :
  fst (get_table_schema drv cfg table_name schema_name s) = Return payload ->
  field payload "columns" = Some (JList descs) ->
  exists c w columns w1 pk_names,
    db_connect drv cfg (world s) = (inr c, w) /\
    db_fetch drv c column_query [PStr schema_name; PStr table_name] w = (inr columns, w1) /\
    field payload "primary_keys" = Some (JList pk_names) /\
    Forall2 (column_described pk_names) columns descs.
Proof.
  intros Hrun Hcols.
  destruct (schema_success_inv W drv cfg table_name schema_name s payload descs Hrun Hcols)
    as (c & w & columns & w1 & primary_keys & Hc & Hf & Hinfo & Hfo & _ & _ & Hpk).
  exists c, w, columns, w1, (map to_json primary_keys).
  split; [exact Hc|]. split; [exact Hf|]. split; [exact Hpk|].
  apply omap_Forall2 in Hinfo.
  clear -Hinfo Hfo. induction Hinfo as [|col desc columns descs Hd _ IH]; [constructor|].
  apply Forall_cons_iff in Hfo. destruct Hfo as [Hdesc Hfo].
  constructor; [apply (col_dict_described primary_keys col desc Hd Hdesc) | apply IH, Hfo].
Qed.

Lemma column_descriptors_witness :
  exists c w columns w1 pk_names,
    db_connect users_driver Mock.config 0%nat = (inr c, w) /\
    db_fetch users_driver c column_query [PStr "public"; PStr "users"] w = (inr columns, w1) /\
    Some (JList [JStr "id"]) = Some (JList pk_names) /\
    Forall2 (column_described pk_names) columns users_descriptors.
Proof.
  apply (column_descriptors nat users_driver Mock.config "users" "public" Mock.start
           (JDict [ "schema" =: JStr "public";
                    "table" =: JStr "users";
                    "columns" =: JList users_descriptors;
                    "primary_keys" =: JList [JStr "id"];
                    "foreign_keys" =: JList [] ])
           users_descriptors);
    reflexivity.
Defined.

(** ** Mutations *)

(** C4, as stated, fails on a mutation that has no token to take.  An
    empty query, or one made of a no-break space, is a mutation for the
    classification, and [query_upper.split()[0]] raises [IndexError]; a
    status made of whitespace is true, and [status.split()[-1]] raises
    [IndexError].  Both are caught by the handler, whose payload is then
    an error payload and not [{type, affected_rows, status: "success"}].
    And when [close] raises, no payload is returned at all. *)
Lemma mutation_without_token_fails :
  PyStr.startswith (PyStr.upper (PyStr.strip "")) "SELECT" = false /\
  fst (execute_query (Mock.mock (inr 1) [] (inr (Some (str "INSERT 0 1"))))
         Mock.config "" None Mock.start)
  = Return (JDict [ "error" =: JStr "list index out of range"; "status" =: JStr "failed" ]) /\
  fst (execute_query (Mock.mock (inr 1) [] (inr (Some (str "INSERT 0 1"))))
         Mock.config [160%N] None Mock.start)
  = Return (JDict [ "error" =: JStr "list index out of range"; "status" =: JStr "failed" ]) /\
  PyStr.startswith (PyStr.upper (PyStr.strip "DELETE FROM users")) "SELECT" = false /\
  fst (execute_query (Mock.mock (inr 1) [] (inr (Some (str " "))))
         Mock.config "DELETE FROM users" None Mock.start)
  = Return (JDict [ "error" =: JStr "list index out of range"; "status" =: JStr "failed" ]) /\
  fst (execute_query (failing_close [] (inr (Some (str "DELETE 3"))))
         Mock.config "DELETE FROM users" None Mock.start)
  = Raise (DriverError "connection is closed").
Proof. repeat split. Qed.

(** C4, amended: for a mutation with at least one non-whitespace
    character, when the driver's status has at least one non-whitespace
    character and closing the connection does not raise,
    [execute_query] returns [{type, affected_rows, status}] with [type]
    the first token of the trimmed, uppercased query, [affected_rows]
    the last token of the status, and [status] "success". *)
Theorem mutation_payload
    (W : Type) (drv : driver W) (cfg : db_config) (query : pystr)
    (params : option (list pyval)) (s : state W) (c : connection) (w w' w'' : W)
    (status : pystr) :
  db_connect drv cfg (world s) = (inr c, w) ->
  PyStr.startswith (PyStr.upper (PyStr.strip query)) "SELECT" = false ->
  db_execute drv c query (if params_truthy params then unpack params else []) w
  = (inr (Some status), w') ->
  db_close drv c w' = (inr tt, w'') ->
  PyStr.blank query = false ->
  PyStr.blank status = false ->
  exists type affected,
    first_item (PyStr.split (PyStr.upper (PyStr.strip query))) = Return type /\
    last_item (PyStr.split status) = Return affected /\
    fst (execute_query drv cfg query params s)
    = Return (JDict [ "type" =: JStr type;
                      "affected_rows" =: JStr affected;
                      "status" =: JStr "success" ]).
Proof.
  intros Hc Hsel Hx Hcl Hq Hst.
  destruct (first_item_split (query_upper query)) as [type Htype].
  { rewrite blank_query_upper. exact Hq. }
  destruct (last_item_split status Hst) as [affected Haff].
  exists type, affected. split; [exact Htype|]. split; [exact Haff|].
  rewrite (mutation_result W drv cfg query params s c w w' w'' (Some status) (inr tt)
             Hc Hsel Hx Hcl).
  unfold affected_of. rewrite (not_blank_truthy status Hst), Haff.
  unfold query_upper in Htype. rewrite Htype. reflexivity.
Qed.

Lemma mutation_payload_witness :
  exists type affected,
    first_item (PyStr.split (PyStr.upper (PyStr.strip "update users set active = true")))
    = Return type /\
    last_item (PyStr.split "UPDATE 2") = Return affected /\
    fst (execute_query (Mock.mock (inr 1) [] (inr (Some (str "UPDATE 2"))))
           Mock.config "update users set active = true" None Mock.start)
    = Return (JDict [ "type" =: JStr type;
                      "affected_rows" =: JStr affected;
                      "status" =: JStr "success" ]).
Proof.
  apply (mutation_payload nat (Mock.mock (inr 1) [] (inr (Some (str "UPDATE 2"))))
           Mock.config "update users set active = true" None Mock.start 1 0%nat 0%nat 0%nat
           "UPDATE 2");
    reflexivity.
Defined.

Example insert_status : affected_of (Some (str "INSERT 0 1")) = Return (str "1").
Proof. reflexivity. Qed.

Example update_status : affected_of (Some (str "UPDATE 2")) = Return (str "2").
Proof. reflexivity. Qed.

Example mock_insert :
  fst (execute_query (Mock.mock (inr 7) [] (inr (Some (str "INSERT 0 1"))))
         Mock.config "INSERT INTO users (name) VALUES ($1)" (Some [PStr "Charlie"]) Mock.start)
  = Return (JDict [ "type" =: JStr "INSERT"; "affected_rows" =: JStr "1";
                    "status" =: JStr "success" ]).
Proof. reflexivity. Qed.

(** A type that is not ASCII is uppercased as Python does. *)
Example mock_etiquette :
  fst (execute_query (Mock.mock (inr 7) [] (inr (Some (str "OK 1"))))
         Mock.config (233%N :: str "tiquette x") None Mock.start)
  = Return (JDict [ "type" =: JStr (201%N :: str "TIQUETTE"); "affected_rows" =: JStr "1";
                    "status" =: JStr "success" ]).
Proof. vm_compute. reflexivity. Qed.

(** C10, as stated, fails for an empty query: its status is empty,
    [affected] is "0", but the type of the statement cannot be taken
    and the payload is an error payload without [affected_rows].  And
    when [close] raises, no payload is returned at all. *)
Lemma empty_query_empty_status :
  PyStr.startswith (PyStr.upper (PyStr.strip "")) "SELECT" = false /\
  fst (execute_query (Mock.mock (inr 1) [] (inr (Some (str ""))))
         Mock.config "" None Mock.start)
  = Return (JDict [ "error" =: JStr "list index out of range"; "status" =: JStr "failed" ]) /\
  field (JDict [ "error" =: JStr "list index out of range"; "status" =: JStr "failed" ])
    "affected_rows" = None /\
  fst (execute_query (failing_close [] (inr None))
         Mock.config "VACUUM" None Mock.start)
  = Raise (DriverError "connection is closed").
Proof. repeat split. Qed.

(** C10, amended: for a mutation with at least one non-whitespace
    character, when the driver's status is [None] or the empty string
    and closing the connection does not raise, tokenizing the status is
    skipped and the payload has [affected_rows] "0". *)
Theorem empty_status_affects_zero
    (W : Type) (drv : driver W) (cfg : db_config) (query : pystr)
    (params : option (list pyval)) (s : state W) (c : connection) (w w' w'' : W)
    (status : option pystr) :
  db_connect drv cfg (world s) = (inr c, w) ->
  PyStr.startswith (PyStr.upper (PyStr.strip query)) "SELECT" = false ->
  db_execute drv c query (if params_truthy params then unpack params else []) w
  = (inr status, w') ->
  db_close drv c w' = (inr tt, w'') ->
  status = None \/ status = Some [] ->
  PyStr.blank query = false ->
  affected_of status = Return (str "0") /\
  exists type,
    first_item (PyStr.split (PyStr.upper (PyStr.strip query))) = Return type /\
    fst (execute_query drv cfg query params s)
    = Return (JDict [ "type" =: JStr type;
                      "affected_rows" =: JStr "0";
                      "status" =: JStr "success" ]).
Proof.
  intros Hc Hsel Hx Hcl Hst Hq.
  assert (Haff : affected_of status = Return (str "0")) by (destruct Hst; subst; reflexivity).
  split; [exact Haff|].
  destruct (first_item_split (query_upper query)) as [type Htype].
  { rewrite blank_query_upper. exact Hq. }
  exists type. split; [exact Htype|].
  rewrite (mutation_result W drv cfg query params s c w w' w'' status (inr tt)
             Hc Hsel Hx Hcl), Haff.
  unfold query_upper in Htype. rewrite Htype. reflexivity.
Qed.

Lemma empty_status_affects_zero_witness :
  affected_of None = Return (str "0") /\
  exists type,
    first_item (PyStr.split (PyStr.upper (PyStr.strip "-- nothing to do"))) = Return type /\
    fst (execute_query (Mock.mock (inr 1) [] (inr None))
           Mock.config "-- nothing to do" None Mock.start)
    = Return (JDict [ "type" =: JStr type;
                      "affected_rows" =: JStr "0";
                      "status" =: JStr "success" ]).
Proof.
  apply (empty_status_affects_zero nat (Mock.mock (inr 1) [] (inr None))
           Mock.config "-- nothing to do" None Mock.start 1 0%nat 0%nat 0%nat None);
    solve [reflexivity | left; reflexivity].
Defined.

(** ** Exceptions *)

(** C2, as stated, fails for the first and the last piece of database
    work, the connection and its close: [get_db_connection()] is awaited
    before the [try] statement of each handler and [conn.close()] in its
    [finally] clause, so their exceptions leave [get_table_schema],
    [execute_query] and [execute_safe_query] as they leave
    [list_tables]; no error payload is returned. *)
Lemma connection_fault_propagates :
  get_table_schema unreachable Mock.config "users" "public" Mock.start
  = (Raise (DriverError "Connection failed"), {| world := 0; trace := [EvConnectFailed] |}) /\
  execute_query unreachable Mock.config "SELECT 1" None Mock.start
  = (Raise (DriverError "Connection failed"), {| world := 0; trace := [EvConnectFailed] |}) /\
  execute_safe_query unreachable Mock.config "SELECT 1" Mock.start
  = (Raise (DriverError "Connection failed"), {| world := 0; trace := [EvConnectFailed] |}) /\
  fst (execute_query (failing_close [inr []] (inr None)) Mock.config "SELECT 1" None Mock.start)
  = Raise (DriverError "connection is closed").
Proof. repeat split. Qed.

Section ErrorPolicy.

Variable W : Type.
Variable drv : driver W.
Variable cfg : db_config.
Variable s : state W.

(** C2, amended: once the connection is acquired, every exception
    raised in the guarded block of [get_table_schema], [execute_query]
    or [execute_safe_query] (by a fetch, by an execute, or while the
    response is built) is returned as the error payload carrying
    [str(e)], and every exception raised in the guarded block of
    [list_tables] leaves the handler, provided closing the connection
    does not raise.  An exception raised while the connection is
    acquired, or while it is closed, leaves each of the four handlers. *)
Theorem error_policy :
  (forall c w,
      db_connect drv cfg (world s) = (inr c, w) ->
      (forall table_name schema_name e s2 w3,
          get_table_schema_body drv c table_name schema_name (entered s c w) = (Raise e, s2) ->
          db_close drv c (world s2) = (inr tt, w3) ->
          fst (get_table_schema drv cfg table_name schema_name s)
          = Return (ErrorResponse (str_exn e))) /\
      (forall query params e s2 w3,
          execute_query_body drv c query params (entered s c w) = (Raise e, s2) ->
          db_close drv c (world s2) = (inr tt, w3) ->
          fst (execute_query drv cfg query params s)
          = Return (ErrorResponse (str_exn e))) /\
      (forall query e s2 w3,
          PyStr.startswith (PyStr.upper (PyStr.strip query)) "SELECT" = true ->
          execute_query_body drv c query None (entered s c w) = (Raise e, s2) ->
          db_close drv c (world s2) = (inr tt, w3) ->
          fst (execute_safe_query drv cfg query s)
          = Return (ErrorResponse (str_exn e))) /\
      (forall schema_name e s2 w3,
          list_tables_body drv c schema_name (entered s c w) = (Raise e, s2) ->
          db_close drv c (world s2) = (inr tt, w3) ->
          fst (list_tables drv cfg schema_name s) = Raise e) /\
      ((forall w2, exists w3, db_close drv c w2 = (inr tt, w3)) ->
       (forall table_name schema_name,
           exists p, fst (get_table_schema drv cfg table_name schema_name s) = Return p) /\
       (forall query params,
           exists p, fst (execute_query drv cfg query params s) = Return p) /\
       (forall query,
           exists p, fst (execute_safe_query drv cfg query s) = Return p)) /\
      (forall schema_name e w' w'',
          db_fetch drv c list_tables_query [PStr schema_name] w = (inl e, w') ->
          db_close drv c w' = (inr tt, w'') ->
          fst (list_tables drv cfg schema_name s) = Raise e) /\
      (forall query params e w' w'',
          PyStr.startswith (PyStr.upper (PyStr.strip query)) "SELECT" = true ->
          db_fetch drv c query (if params_truthy params then unpack params else []) w
          = (inl e, w') ->
          db_close drv c w' = (inr tt, w'') ->
          fst (execute_query drv cfg query params s)
          = Return (ErrorResponse (str_exn e))) /\
      (forall query params e w' w'',
          PyStr.startswith (PyStr.upper (PyStr.strip query)) "SELECT" = false ->
          db_execute drv c query (if params_truthy params then unpack params else []) w
          = (inl e, w') ->
          db_close drv c w' = (inr tt, w'') ->
          fst (execute_query drv cfg query params s)
          = Return (ErrorResponse (str_exn e))) /\
      (forall e',
          (forall w2, exists w3, db_close drv c w2 = (inl e', w3)) ->
          (forall schema_name, fst (list_tables drv cfg schema_name s) = Raise e') /\
          (forall table_name schema_name,
              fst (get_table_schema drv cfg table_name schema_name s) = Raise e') /\
          (forall query params, fst (execute_query drv cfg query params s) = Raise e'))) /\
  (forall e w,
      db_connect drv cfg (world s) = (inl e, w) ->
      (forall schema_name, fst (list_tables drv cfg schema_name s) = Raise e) /\
      (forall table_name schema_name,
          fst (get_table_schema drv cfg table_name schema_name s) = Raise e) /\
      (forall query params, fst (execute_query drv cfg query params s) = Raise e) /\
      (forall query,
          PyStr.startswith (PyStr.upper (PyStr.strip query)) "SELECT" = true ->
          fst (execute_safe_query drv cfg query s) = Raise e)).
Proof.
  assert (Hraise : forall c w query params e s2 w3,
             db_connect drv cfg (world s) = (inr c, w) ->
             execute_query_body drv c query params (entered s c w) = (Raise e, s2) ->
             db_close drv c (world s2) = (inr tt, w3) ->
             fst (execute_query drv cfg query params s)
             = Return (ErrorResponse (str_exn e))).
  { intros c w query params e s2 w3 Hc Hb Hcl.
    unfold execute_query, bind, get_db_connection, try_except at 1, connect. rewrite Hc.
    unfold try_finally, try_except, close. fold (entered s c w). rewrite Hb. simpl. rewrite Hcl.
    reflexivity. }
  assert (Htotal : forall c w query params,
             db_connect drv cfg (world s) = (inr c, w) ->
             (forall w2, exists w3, db_close drv c w2 = (inr tt, w3)) ->
             exists p, fst (execute_query drv cfg query params s) = Return p).
  { intros c w query params Hc Hok.
    unfold execute_query, bind, get_db_connection, try_except at 1, connect. rewrite Hc.
    unfold try_finally, try_except, close. fold (entered s c w).
    destruct (execute_query_body drv c query params (entered s c w)) as [[p|e] s2]; simpl;
      destruct (Hok (world s2)) as [w3 ->]; eexists; reflexivity. }
  split.
  - intros c w Hc. repeat apply conj.
    + intros table_name schema_name e s2 w3 Hb Hcl.
      unfold get_table_schema, bind, get_db_connection, try_except at 1, connect. rewrite Hc.
      unfold try_finally, try_except, close. fold (entered s c w). rewrite Hb. simpl. rewrite Hcl.
      reflexivity.
    + intros query params e s2 w3. apply Hraise, Hc.
    + intros query e s2 w3 Hsel Hb Hcl. unfold execute_safe_query. rewrite Hsel. simpl.
      apply (Hraise c w query None e s2 w3 Hc Hb Hcl).
    + intros schema_name e s2 w3 Hb Hcl.
      unfold list_tables, bind, get_db_connection, try_except at 1, connect. rewrite Hc.
      unfold try_finally, try_except, close, raise. fold (entered s c w). rewrite Hb. simpl. rewrite Hcl.
      reflexivity.
    + intros Hok. repeat apply conj.
      * intros table_name schema_name.
        unfold get_table_schema, bind, get_db_connection, try_except at 1, connect. rewrite Hc.
        unfold try_finally, try_except, close. fold (entered s c w).
        destruct (get_table_schema_body drv c table_name schema_name (entered s c w))
          as [[p|e] s2]; simpl; destruct (Hok (world s2)) as [w3 ->]; eexists; reflexivity.
      * intros query params. apply (Htotal c w query params Hc Hok).
      * intros query. unfold execute_safe_query.
        destruct (PyStr.startswith _ _); simpl.
        -- apply (Htotal c w query None Hc Hok).
        -- eexists. reflexivity.
    + intros schema_name e w' w'' Hf Hcl. run_handler. rewrite Hc. simpl. rewrite Hf.
      simpl. rewrite Hcl. reflexivity.
    + intros query params e w' w'' Hsel Hf Hcl. run_handler. rewrite Hc. simpl.
      unfold query_upper. rewrite Hsel.
      destruct (params_truthy params); run_handler; rewrite Hf; simpl; rewrite Hcl;
        reflexivity.
    + intros query params e w' w'' Hsel Hx Hcl. run_handler. rewrite Hc. simpl.
      unfold query_upper. rewrite Hsel.
      destruct (params_truthy params); run_handler; rewrite Hx; simpl; rewrite Hcl;
        reflexivity.
    + intros e' Hbad. repeat apply conj.
      * intros schema_name. unfold list_tables, bind, get_db_connection, try_except at 1, connect. rewrite Hc.
        unfold try_finally, try_except, close, raise. fold (entered s c w).
        destruct (list_tables_body drv c schema_name (entered s c w)) as [[p|e] s2]; simpl;
          destruct (Hbad (world s2)) as [w3 ->]; reflexivity.
      * intros table_name schema_name. unfold get_table_schema, bind, get_db_connection, try_except at 1, connect. rewrite Hc.
        unfold try_finally, try_except, close. fold (entered s c w).
        destruct (get_table_schema_body drv c table_name schema_name (entered s c w))
          as [[p|e] s2]; simpl; destruct (Hbad (world s2)) as [w3 ->]; reflexivity.
      * intros query params. unfold execute_query, bind, get_db_connection, try_except at 1, connect. rewrite Hc.
        unfold try_finally, try_except, close. fold (entered s c w).
        destruct (execute_query_body drv c query params (entered s c w))
          as [[p|e] s2]; simpl; destruct (Hbad (world s2)) as [w3 ->]; reflexivity.
  - intros e w Hc. repeat apply conj.
    + intros schema_name. run_handler. rewrite Hc. reflexivity.
    + intros table_name schema_name. run_handler. rewrite Hc. reflexivity.
    + intros query params. run_handler. rewrite Hc. reflexivity.
    + intros query Hsel. unfold execute_safe_query. rewrite Hsel. simpl.
      run_handler. rewrite Hc. reflexivity.
Qed.

End ErrorPolicy.

Lemma error_policy_witness :
  fst (execute_query (Mock.mock (inr 1) [inl (DriverError "Syntax error")] (inr None))
         Mock.config "SELECT * FROM invalid_syntax" None Mock.start)
  = Return (ErrorResponse "Syntax error") /\
  fst (list_tables (Mock.mock (inr 1) [inl (DriverError "Syntax error")] (inr None))
         Mock.config "public" Mock.start)
  = Raise (DriverError "Syntax error") /\
  fst (get_table_schema unreachable Mock.config "users" "public" Mock.start)
  = Raise (DriverError "Connection failed") /\
  fst (get_table_schema (failing_close [inr []] (inr None)) Mock.config "users" "public"
         Mock.start)
  = Raise (DriverError "connection is closed").
Proof.
  split; [|split; [|split]].
  - destruct (proj1 (error_policy nat
                       (Mock.mock (inr 1) [inl (DriverError "Syntax error")] (inr None))
                       Mock.config Mock.start) 1 0%nat eq_refl)
      as (_ & _ & _ & _ & _ & _ & Hfetch & _).
    apply (Hfetch (str "SELECT * FROM invalid_syntax") None (DriverError "Syntax error")
             1%nat 1%nat);
      reflexivity.
  - destruct (proj1 (error_policy nat
                       (Mock.mock (inr 1) [inl (DriverError "Syntax error")] (inr None))
                       Mock.config Mock.start) 1 0%nat eq_refl)
      as (_ & _ & _ & _ & _ & Hlist & _).
    apply (Hlist (str "public") (DriverError "Syntax error") 1%nat 1%nat); reflexivity.
  - destruct (proj2 (error_policy nat unreachable Mock.config Mock.start)
                (DriverError "Connection failed") 0%nat eq_refl)
      as (_ & Hschema & _).
    apply Hschema.
  - destruct (proj1 (error_policy nat (failing_close [inr []] (inr None))
                       Mock.config Mock.start) 1 0%nat eq_refl)
      as (_ & _ & _ & _ & _ & _ & _ & _ & Hclose).
    destruct (Hclose (DriverError "connection is closed")) as (_ & Hschema & _).
    + intros w2. exists w2. reflexivity.
    + apply Hschema.
Defined.

(** * Further properties of the handlers *)

(** ** Rows *)

Lemma row_get_raises (r : row) (k : pystr) (e : exn) :
  row_get r k = Raise e -> e = KeyError k.
Proof.
  destruct r as [|[k' v] r]; simpl.
  - intros [= <-]. reflexivity.
  - destruct (row_get r k); [discriminate|].
    destruct (PyStr.eqb k' k); [discriminate|]. intros [= <-]. reflexivity.
Qed.

Lemma has_key_dec (r : row) (k : pystr) : has_key r k \/ row_get r k = Raise (KeyError k).
Proof.
  destruct (row_get r k) as [v|e] eqn:H.
  - left. exists v. exact H.
  - right. rewrite (row_get_raises r k e H). reflexivity.
Qed.

Lemma omap_total {A B : Type} (f : A -> outcome B) (l : list A) :
  Forall (fun a => exists b, f a = Return b) l ->
  exists l', omap f l = Return l' /\ Forall2 (fun a b => f a = Return b) l l'.
Proof.
  induction 1 as [|a l [b Hb] _ (l' & Hl' & HF)]; simpl.
  - exists []. split; [reflexivity | constructor].
  - exists (b :: l'). rewrite Hb, Hl'. split; [reflexivity | constructor; assumption].
Qed.

Lemma omap_length {A B : Type} (f : A -> outcome B) (l : list A) (l' : list B) :
  omap f l = Return l' -> length l' = length l.
Proof.
  intros H. apply omap_Forall2 in H. symmetry. apply (Forall2_length _ _ _ H).
Qed.

(** A column read of every row fails with [KeyError] of that column as
    soon as one row lacks it. *)
Lemma omap_row_get_missing (k : pystr) (rows : list row) :
  Exists (fun r => ~ has_key r k) rows ->
  omap (fun r => row_get r k) rows = Raise (KeyError k).
Proof.
  induction 1 as [r rows Hr | r rows _ IH]; simpl.
  - destruct (has_key_dec r k) as [Hk | Hk]; [contradiction|].
    rewrite Hk. reflexivity.
  - destruct (has_key_dec r k) as [[v Hv] | Hk].
    + rewrite Hv. simpl. rewrite IH. reflexivity.
    + rewrite Hk. reflexivity.
Qed.

(** A column read of rows that all hold a value [json.dumps] writes. *)
Lemma omap_row_get_native (k : pystr) (rows : list row) :
  Forall (fun r => native_at r k) rows ->
  exists vs,
    omap (fun r => row_get r k) rows = Return vs /\
    Forall2 (fun r v => row_get r k = Return v) rows vs /\
    find_other (JList (map to_json vs)) = None.
Proof.
  induction 1 as [|r rows (v & Hv & Hn) _ (vs & Hvs & HF & Hfo)]; simpl.
  - exists []. split; [reflexivity|]. split; [constructor | reflexivity].
  - exists (v :: vs). rewrite Hv, Hvs. split; [reflexivity|].
    split; [constructor; assumption|].
    apply find_other_list. simpl. constructor.
    + apply find_other_native, Hn.
    + apply find_other_list, Hfo.
Qed.

(** ** [list_tables] *)

(** X1: on a reachable database whose catalog fetch returns rows that all
    carry a [table_name] that [json.dumps] writes, [list_tables] returns
    the schema name, the table names in the order of the rows (nothing is
    sorted or removed) and their number, unless [close] raises, whose
    exception then replaces the payload; the driver sees the connection,
    one fetch of the constant query with the schema name as its only
    parameter, and the close. *)
Theorem list_tables_lists_rows
    (W : Type) (drv : driver W) (cfg : db_config) (schema_name : pystr)
    (s : state W) (c : connection) (w w' w'' : W) (rows : list row) (closing : exn + unit) :
  db_connect drv cfg (world s) = (inr c, w) ->
  db_fetch drv c list_tables_query [PStr schema_name] w = (inr rows, w') ->
  db_close drv c w' = (closing, w'') ->
  Forall (fun r => native_at r "table_name") rows ->
  exists tables,
    Forall2 (fun r v => row_get r "table_name" = Return v) rows tables /\
    list_tables drv cfg schema_name s
    = (match closing with
       | inl e => Raise e
       | inr _ =>
           Return (JDict [ "schema" =: JStr schema_name;
                           "tables" =: JList (map to_json tables);
                           "count" =: JInt (Z.of_nat (length rows)) ])
       end,
       {| world := w'';
          trace := trace s ++ [ EvConnect c;
                                EvFetch c list_tables_query [PStr schema_name];
                                EvClose c ] |}).
Proof.
  intros Hc Hf Hcl Hrows.
  destruct (omap_row_get_native "table_name" rows Hrows) as (tables & Ht & HF & Hfo).
  exists tables. split; [exact HF|].
  run_handler. rewrite Hc. simpl. rewrite Hf. simpl. rewrite Ht. simpl.
  unfold json_dumps. rewrite !find_other_dict_cons, Hfo. simpl. rewrite Hcl.
  rewrite (omap_length _ _ _ Ht), <- !app_assoc. destruct closing; reflexivity.
Qed.

Lemma list_tables_lists_rows_witness :
  exists tables,
    Forall2 (fun r v => row_get r "table_name" = Return v)
      [["table_name" =: PStr "users"]; ["table_name" =: PStr "orders"]] tables /\
    list_tables (Mock.mock (inr 1)
                   [inr [["table_name" =: PStr "users"]; ["table_name" =: PStr "orders"]]]
                   (inr None))
      Mock.config "public" Mock.start
    = (Return (JDict [ "schema" =: JStr "public";
                       "tables" =: JList (map to_json tables);
                       "count" =: JInt (Z.of_nat 2) ]),
       {| world := 1;
          trace := [ EvConnect 1; EvFetch 1 list_tables_query [PStr "public"]; EvClose 1 ] |}).
Proof.
  apply (list_tables_lists_rows nat
           (Mock.mock (inr 1)
              [inr [["table_name" =: PStr "users"]; ["table_name" =: PStr "orders"]]]
              (inr None))
           Mock.config "public" Mock.start 1 0%nat 1%nat 1%nat
           [["table_name" =: PStr "users"]; ["table_name" =: PStr "orders"]] (inr tt)).
  - reflexivity.
  - reflexivity.
  - reflexivity.
  - repeat (apply List.Forall_cons; [eexists; split; [reflexivity | exact I]|]).
    apply List.Forall_nil.
Defined.

(** X2: when a row of the catalog fetch has no [table_name] column,
    [list_tables] produces no payload: it closes the connection and
    raises [KeyError('table_name')] to its caller, or the exception of
    [close] when [close] raises. *)
Theorem list_tables_missing_column
    (W : Type) (drv : driver W) (cfg : db_config) (schema_name : pystr)
    (s : state W) (c : connection) (w w' w'' : W) (rows : list row) (closing : exn + unit) :
  db_connect drv cfg (world s) = (inr c, w) ->
  db_fetch drv c list_tables_query [PStr schema_name] w = (inr rows, w') ->
  db_close drv c w' = (closing, w'') ->
  Exists (fun r => ~ has_key r "table_name") rows ->
  list_tables drv cfg schema_name s
  = (match closing with
     | inl e => Raise e
     | inr _ => Raise (KeyError "table_name")
     end,
     {| world := w'';
        trace := trace s ++ [ EvConnect c;
                              EvFetch c list_tables_query [PStr schema_name];
                              EvClose c ] |}).
Proof.
  intros Hc Hf Hcl Hrows.
  run_handler. rewrite Hc. simpl. rewrite Hf. simpl.
  rewrite (omap_row_get_missing "table_name" rows Hrows). simpl. rewrite Hcl.
  rewrite <- !app_assoc. destruct closing; reflexivity.
Qed.

Lemma list_tables_missing_column_witness :
  fst (list_tables (Mock.mock (inr 1)
                      [inr [["table_name" =: PStr "users"]; ["name" =: PStr "orders"]]]
                      (inr None))
         Mock.config "public" Mock.start)
  = Raise (KeyError "table_name").
Proof.
  rewrite (list_tables_missing_column nat
             (Mock.mock (inr 1)
                [inr [["table_name" =: PStr "users"]; ["name" =: PStr "orders"]]]
                (inr None))
             Mock.config "public" Mock.start 1 0%nat 1%nat 1%nat
             [["table_name" =: PStr "users"]; ["name" =: PStr "orders"]] (inr tt)).
  - reflexivity.
  - reflexivity.
  - reflexivity.
  - reflexivity.
  - apply Exists_cons_tl, Exists_cons_hd. intros [v Hv]. discriminate Hv.
Defined.

(** ** What reaches the driver *)

(** X3: whatever the driver answers, [list_tables] and
    [get_table_schema] never call [conn.execute], and every [fetch] they
    make sends one of their constant SQL texts; the schema and table
    names reach the driver only as positional parameters, never inside
    the SQL text. *)
Theorem catalog_handlers_send_constant_sql
    (W : Type) (drv : driver W) (cfg : db_config) (table_name schema_name : pystr)
    (s : state W) :
  (exists evs,
      trace (snd (list_tables drv cfg schema_name s)) = trace s ++ evs /\
      Forall (listing_call schema_name) evs) /\
  (exists evs,
      trace (snd (get_table_schema drv cfg table_name schema_name s)) = trace s ++ evs /\
      Forall (schema_call table_name schema_name) evs).
Proof.
  split.
  - run_handler.
    destruct (db_connect drv cfg (world s)) as [[e|c] w]; simpl.
    { eexists [_]. split; [reflexivity | repeat constructor]. }
    destruct (db_fetch drv c list_tables_query _ w) as [[e|rows] w1]; simpl.
    { eexists [_; _; _].
      split; [case_close; rewrite <- !app_assoc; reflexivity | repeat constructor]. }
    eexists [_; _; _].
    split; [destruct (omap _ rows); simpl;
            [destruct (json_dumps _); simpl|]; case_close;
            rewrite <- !app_assoc; reflexivity
           | repeat constructor].
  - run_handler.
    destruct (db_connect drv cfg (world s)) as [[e|c] w]; simpl.
    { eexists [_]. split; [reflexivity | repeat constructor]. }
    destruct (db_fetch drv c column_query _ w) as [[e|columns] w1]; simpl.
    { eexists [_; _; _].
      split; [case_close; rewrite <- !app_assoc; reflexivity
             | repeat constructor; left; split; reflexivity]. }
    destruct columns as [|col columns]; simpl.
    { eexists [_; _; _].
      split; [case_close; rewrite <- !app_assoc; reflexivity
             | repeat constructor; left; split; reflexivity]. }
    assert (Hcol : schema_call table_name schema_name
                     (EvFetch c column_query [PStr schema_name; PStr table_name])).
    { left. split; reflexivity. }
    assert (Hpk : schema_call table_name schema_name
                    (EvFetch c pk_query [PStr (schema_name ++ str "." ++ table_name)])).
    { right. left. split; reflexivity. }
    assert (Hfk : schema_call table_name schema_name
                    (EvFetch c fk_query [PStr schema_name; PStr table_name])).
    { right. right. split; reflexivity. }
    destruct (db_fetch drv c pk_query _ w1) as [[e|pks] w2]; simpl.
    { eexists [_; _; _; _].
      split; [case_close; rewrite <- !app_assoc; reflexivity
             | repeat (constructor; try assumption); exact I]. }
    destruct (omap _ pks) as [primary_keys|e]; simpl.
    2:{ eexists [_; _; _; _].
        split; [case_close; rewrite <- !app_assoc; reflexivity
               | repeat (constructor; try assumption); exact I]. }
    destruct (db_fetch drv c fk_query _ w2) as [[e|fks] w3]; simpl.
    { eexists [_; _; _; _; _].
      split; [case_close; rewrite <- !app_assoc; reflexivity
             | repeat (constructor; try assumption); exact I]. }
    eexists [_; _; _; _; _].
    split;
      [ destruct (column_info primary_keys (col :: columns)); simpl;
        [destruct (omap fk_dict fks); simpl; [destruct (json_dumps _); simpl|]|];
        case_close; rewrite <- !app_assoc; reflexivity
      | repeat (constructor; try assumption); exact I ].
Qed.

(** X4: whatever the query and whatever the driver answers,
    [execute_safe_query] never calls [conn.execute]; the only statement
    it can send is the query itself, unchanged and without parameters,
    through [conn.fetch]. *)
Theorem safe_query_never_executes
    (W : Type) (drv : driver W) (cfg : db_config) (query : pystr) (s : state W) :
  exists evs,
    trace (snd (execute_safe_query drv cfg query s)) = trace s ++ evs /\
    Forall no_execute evs /\
    forall c q args, In (EvFetch c q args) evs -> q = query /\ args = [].
Proof.
  unfold execute_safe_query.
  destruct (PyStr.startswith (PyStr.upper (PyStr.strip query)) "SELECT") eqn:Hsel; simpl.
  - destruct (db_connect drv cfg (world s)) as [[e|c] w] eqn:Hc.
    + exists [EvConnectFailed]. run_handler. rewrite Hc. simpl.
      split; [reflexivity|]. split; [repeat constructor|].
      intros c q args [H|[]]. discriminate H.
    + exists [EvConnect c; EvFetch c query []; EvClose c].
      rewrite (execute_query_trace W drv cfg query None s c w Hc), Hsel. simpl.
      split; [reflexivity|]. split; [repeat constructor|].
      intros c' q args [H|[H|[H|[]]]]; try discriminate H.
      injection H as _ <- <-. split; reflexivity.
  - exists []. rewrite app_nil_r.
    split; [reflexivity|]. split; [constructor|]. intros c q args [].
Qed.

Lemma safe_query_never_executes_witness :
  exists evs,
    trace (snd (execute_safe_query (Mock.mock (inr 1) [inr []] (inr None))
                  Mock.config "SELECT 1; DROP TABLE users" Mock.start))
    = [] ++ evs /\
    Forall no_execute evs /\
    forall c q args,
      In (EvFetch c q args) evs -> q = str "SELECT 1; DROP TABLE users" /\ args = [].
Proof.
  exact (safe_query_never_executes nat (Mock.mock (inr 1) [inr []] (inr None))
           Mock.config "SELECT 1; DROP TABLE users" Mock.start).
Defined.

(** X5: on every path of every handler (unreachable database, rejected
    query, rows, no rows, exception, failing close) the invocation makes
    no driver call at all, or a single failed connection attempt, or it
    connects, makes query calls on that connection only, and leaves
    after the driver's [close] has been applied to that connection, once
    and last: no handler leaves a connection it opened without closing
    it, and none closes a connection it did not open. *)
Theorem handlers_do_not_leak
    (W : Type) (drv : driver W) (cfg : db_config) (s : state W) :
  (forall schema_name, run_shape drv cfg (list_tables drv cfg schema_name) s) /\
  (forall table_name schema_name,
      run_shape drv cfg (get_table_schema drv cfg table_name schema_name) s) /\
  (forall query params, run_shape drv cfg (execute_query drv cfg query params) s) /\
  (forall query, run_shape drv cfg (execute_safe_query drv cfg query) s).
Proof.
  assert (Hshape : forall (A : Type) (body : connection -> M W A) (handler : exn -> M W A),
             (forall e s0, snd (handler e s0) = s0) ->
             (forall c, only_queries drv c (body c)) ->
             run_shape drv cfg
               (bind W (get_db_connection drv cfg)
                  (fun conn => try_finally W (try_except W (body conn) handler)
                                 (close W drv conn)))
               s).
  { intros A body handler Hh Hb.
    destruct (db_connect drv cfg (world s)) as [[e|c] w] eqn:Hc.
    - right. left. exists e, w. split; [exact Hc|].
      unfold bind, get_db_connection, try_except, connect, raise. rewrite Hc. reflexivity.
    - right. right. exists c.
      apply (with_connection_released W drv cfg body handler s c w Hc Hh (Hb c)). }
  assert (Hq : forall query params,
             run_shape drv cfg (execute_query drv cfg query params) s).
  { intros query params.
    apply (Hshape json (fun conn => execute_query_body drv conn query params)).
    - reflexivity.
    - intros c. apply execute_query_body_run. }
  split; [|split; [|split]].
  - intros schema_name.
    apply (Hshape json (fun conn => list_tables_body drv conn schema_name)).
    + reflexivity.
    + intros c. apply list_tables_body_run.
  - intros table_name schema_name.
    apply (Hshape json (fun conn => get_table_schema_body drv conn table_name schema_name)).
    + reflexivity.
    + intros c. apply get_table_schema_body_run.
  - exact Hq.
  - intros query.
    destruct (PyStr.startswith (PyStr.upper (PyStr.strip query)) "SELECT") eqn:Hsel.
    + destruct (Hq query None) as [H|[H|[c H]]].
      * left. unfold execute_safe_query. rewrite Hsel. exact H.
      * right. left. unfold execute_safe_query. rewrite Hsel. exact H.
      * right. right. exists c. unfold released, execute_safe_query in *.
        rewrite Hsel. exact H.
    + left. unfold execute_safe_query. rewrite Hsel. reflexivity.
Qed.

(** ** Parameters and result rows of [execute_query] *)

(** X6: the parameters reach the driver as the positional arguments of
    the one query call, in their order; an empty parameter list is
    treated as no parameters, so the two invocations cannot be told
    apart. *)
Theorem params_are_positional
    (W : Type) (drv : driver W) (cfg : db_config) (query : pystr) (s : state W) :
  execute_query drv cfg query (Some []) s = execute_query drv cfg query None s /\
  forall c w p ps,
    db_connect drv cfg (world s) = (inr c, w) ->
    trace (snd (execute_query drv cfg query (Some (p :: ps)) s))
    = trace s ++
      [ EvConnect c;
        (if PyStr.startswith (PyStr.upper (PyStr.strip query)) "SELECT"
         then EvFetch c query (p :: ps)
         else EvExecute c query (p :: ps));
        EvClose c ].
Proof.
  split; [reflexivity|].
  intros c w p ps Hc.
  rewrite (execute_query_trace W drv cfg query (Some (p :: ps)) s c w Hc). simpl.
  destruct (PyStr.startswith _ _); reflexivity.
Qed.

Lemma params_are_positional_witness :
  trace (snd (execute_query (Mock.mock (inr 1) [] (inr (Some (str "INSERT 0 1"))))
                Mock.config "INSERT INTO users (name) VALUES ($1)"
                (Some [PStr "Charlie"]) Mock.start))
  = [ EvConnect 1;
      EvExecute 1 "INSERT INTO users (name) VALUES ($1)" [PStr "Charlie"];
      EvClose 1 ].
Proof.
  apply (proj2 (params_are_positional nat
                  (Mock.mock (inr 1) [] (inr (Some (str "INSERT 0 1"))))
                  Mock.config "INSERT INTO users (name) VALUES ($1)" Mock.start)
           1 0%nat (PStr "Charlie") []).
  reflexivity.
Defined.

(** A statement that starts with a no-break space and SELECT is fetched,
    with its parameters. *)
Example nbsp_select_is_fetched :
  trace (snd (execute_query (Mock.mock (inr 1) [inr []] (inr None))
                Mock.config (160%N :: str "SELECT $1") (Some [PInt 1]) Mock.start))
  = [ EvConnect 1; EvFetch 1 (160%N :: str "SELECT $1") [PInt 1]; EvClose 1 ].
Proof. vm_compute. reflexivity. Qed.

Section DictFacts.







End DictFacts.



(** A value of a type JSON does not know is written as its text; a
    column name used twice keeps the last value. *)
Example select_decimal :
  fst (execute_query
         (Mock.mock (inr 1)
            [inr [[ "a" =: PInt 1; "b" =: POther "Decimal" "2.50" true; "a" =: PInt 3 ]]]
            (inr None))
         Mock.config "SELECT 1 AS a, 2.50 AS b, 3 AS a" None Mock.start)
  = Return (JDict [ "type" =: JStr "SELECT";
                    "row_count" =: JInt 1;
                    "results" =: JList [JDict [ "a" =: JInt 3; "b" =: JStr "2.50" ]] ]).
Proof. vm_compute. reflexivity. Qed.

(** ** The payload of [get_table_schema] *)

Lemma omap_total_with {A B : Type} (f : A -> outcome B) (P : B -> Prop) (l : list A) :
  Forall (fun a => exists b, f a = Return b /\ P b) l ->
  exists l', omap f l = Return l' /\ Forall2 (fun a b => f a = Return b) l l' /\ Forall P l'.
Proof.
  induction 1 as [|a l (b & Hb & HP) _ (l' & Hl' & HF & HPl)]; simpl.
  - exists []. repeat split; constructor.
  - exists (b :: l'). rewrite Hb, Hl'. repeat split; constructor; assumption.
Qed.

Lemma col_dict_native (primary_keys : list pyval) (col : row) :
  Forall (native_at col) column_keys ->
  exists desc, col_dict primary_keys col = Return desc /\ find_other desc = None.
Proof.
  intros H. unfold column_keys in H.
  repeat match goal with
         | H : Forall _ (_ :: _) |- _ =>
             apply Forall_cons_iff in H; destruct H as [(? & ? & ?) H]
         end.
  unfold col_dict.
  repeat match goal with
         | E : row_get col _ = Return _ |- _ => rewrite E; clear E
         end.
  simpl.
  repeat match goal with
         | N : native ?v |- _ => destruct v; try contradiction N; clear N
         end;
    match goal with
    | |- context [truthy ?v] => destruct (truthy v)
    end; eexists; (split; [reflexivity | vm_compute; reflexivity]).
Qed.

Lemma col_dict_echoed (primary_keys : list pyval) (col : row) (desc : json) :
  col_dict primary_keys col = Return desc -> column_echoed col desc.
Proof.
  unfold col_dict. intros H.
  destruct (row_get col "column_name") as [name|e]; simpl in H; [|discriminate H].
  destruct (row_get col "data_type") as [type|e] eqn:Htype; simpl in H; [|discriminate H].
  destruct (row_get col "is_nullable") as [is_nullable|e] eqn:Hnull; simpl in H;
    [|discriminate H].
  destruct (row_get col "column_default") as [default|e] eqn:Hdef; simpl in H;
    [|discriminate H].
  destruct (row_get col "character_maximum_length") as [len|e]; simpl in H;
    [|discriminate H].
  exists type, is_nullable, default.
  split; [exact Htype|]. split; [exact Hnull|]. split; [exact Hdef|].
  assert (Hyes : pyval_eqb is_nullable (PStr "YES") = true <-> is_nullable = PStr "YES")
    by apply pyval_eqb_eq.
  destruct (truthy len); simpl in H; injection H as <-;
    (split; [reflexivity|]; split; [reflexivity|];
     eexists; split; [reflexivity | exact Hyes]).
Qed.

Lemma fk_dict_native (fk : row) :
  Forall (native_at fk) fk_keys ->
  exists desc, fk_dict fk = Return desc /\ find_other desc = None.
Proof.
  intros H. unfold fk_keys in H.
  repeat match goal with
         | H : Forall _ (_ :: _) |- _ =>
             apply Forall_cons_iff in H; destruct H as [(? & ? & ?) H]
         end.
  unfold fk_dict.
  repeat match goal with
         | E : row_get fk _ = Return _ |- _ => rewrite E; clear E
         end.
  simpl.
  repeat match goal with
         | N : native ?v |- _ => destruct v; try contradiction N; clear N
         end;
    eexists; (split; [reflexivity | vm_compute; reflexivity]).
Qed.

Lemma fk_dict_described (fk : row) (desc : json) :
  fk_dict fk = Return desc -> fk_described fk desc.
Proof.
  unfold fk_dict. intros H.
  destruct (row_get fk "column_name") as [column|e] eqn:H1; simpl in H; [|discriminate H].
  destruct (row_get fk "foreign_table_name") as [rt|e] eqn:H2; simpl in H; [|discriminate H].
  destruct (row_get fk "foreign_column_name") as [rc|e] eqn:H3; simpl in H; [|discriminate H].
  injection H as <-. exists column, rt, rc. repeat split; assumption.
Qed.

(** X8: on a reachable database, when the column fetch returns at least
    one row, every fetched row carries the columns it is read at, the
    values there are ones [json.dumps] writes by itself (null, integers,
    strings) and closing the connection does not raise,
    [get_table_schema] returns the schema payload: one descriptor per
    column row, the primary-key names in the order the driver returned
    them, one foreign-key descriptor per foreign-key row in driver order;
    the driver sees the connection, the three fetches in the order
    columns, primary keys, foreign keys, and the close.  When closing
    raises, that exception is the outcome instead, after the same
    calls. *)
Theorem schema_payload_follows_catalog
    (W : Type) (drv : driver W) (cfg : db_config) (table_name schema_name : pystr)
    (s : state W) (c : connection) (w w1 w2 w3 w4 : W) (columns pks fks : list row)
    (closing : exn + unit) :
  db_connect drv cfg (world s) = (inr c, w) ->
  db_fetch drv c column_query [PStr schema_name; PStr table_name] w = (inr columns, w1) ->
  columns <> [] ->
  db_fetch drv c pk_query [PStr (schema_name ++ str "." ++ table_name)] w1 = (inr pks, w2) ->
  db_fetch drv c fk_query [PStr schema_name; PStr table_name] w2 = (inr fks, w3) ->
  db_close drv c w3 = (closing, w4) ->
  Forall (fun col => Forall (native_at col) column_keys) columns ->
  Forall (fun pk => native_at pk "column_name") pks ->
  Forall (fun fk => Forall (native_at fk) fk_keys) fks ->
  exists descs primary_keys foreign_keys,
    get_table_schema drv cfg table_name schema_name s
    = (match closing with
       | inl e => Raise e
       | inr _ =>
           Return (JDict [ "schema" =: JStr schema_name;
                           "table" =: JStr table_name;
                           "columns" =: JList descs;
                           "primary_keys" =: JList (map to_json primary_keys);
                           "foreign_keys" =: JList foreign_keys ])
       end,
       {| world := w4;
          trace := trace s ++
                   [ EvConnect c;
                     EvFetch c column_query [PStr schema_name; PStr table_name];
                     EvFetch c pk_query [PStr (schema_name ++ str "." ++ table_name)];
                     EvFetch c fk_query [PStr schema_name; PStr table_name];
                     EvClose c ] |}) /\
    length descs = length columns /\
    Forall2 (fun pk v => row_get pk "column_name" = Return v) pks primary_keys /\
    Forall2 fk_described fks foreign_keys.
Proof.
  intros Hc Hcol Hne Hpk Hfk Hcl Hcols Hpks Hfks.
  destruct columns as [|col columns]; [congruence|].
  destruct (omap_row_get_native "column_name" pks Hpks)
    as (primary_keys & Hnames & HFpk & Hpko).
  destruct (omap_total_with (col_dict primary_keys) (fun d => find_other d = None)
              (col :: columns)) as (descs & Hdescs & _ & Hdo).
  { eapply Forall_impl; [exact Hcols|]. intros a Ha. apply col_dict_native, Ha. }
  destruct (omap_total_with fk_dict (fun d => find_other d = None) fks)
    as (foreign_keys & Hfkd & HFfk & Hfo).
  { eapply Forall_impl; [exact Hfks|]. intros a Ha. apply fk_dict_native, Ha. }
  exists descs, primary_keys, foreign_keys.
  split; [|split; [|split]].
  - apply find_other_list in Hdo. apply find_other_list in Hfo.
    assert (Hdump : find_other (JDict [ "schema" =: JStr schema_name;
                                        "table" =: JStr table_name;
                                        "columns" =: JList descs;
                                        "primary_keys" =: JList (map to_json primary_keys);
                                        "foreign_keys" =: JList foreign_keys ]) = None).
    { rewrite !find_other_dict_cons, Hdo, Hpko, Hfo. reflexivity. }
    run_handler. rewrite Hc. simpl. rewrite Hcol. simpl.
    match goal with
    | |- context [db_fetch drv c pk_query ?a w1] =>
        change a with [PStr (schema_name ++ str "." ++ table_name)]
    end.
    rewrite Hpk. simpl.
    rewrite Hnames. simpl. rewrite Hfk. simpl.
    unfold column_info. rewrite Hdescs. simpl. rewrite Hfkd. simpl.
    unfold json_dumps. rewrite Hdump. simpl. rewrite Hcl. simpl.
    destruct closing; rewrite <- !app_assoc; reflexivity.
  - apply (omap_length _ _ _ Hdescs).
  - exact HFpk.
  - eapply Forall2_impl; [exact HFfk|]. intros fk d Hd. apply fk_dict_described, Hd.
Qed.

Lemma schema_payload_follows_catalog_witness :
  exists descs primary_keys foreign_keys,
    get_table_schema users_driver Mock.config "users" "public" Mock.start
    = (Return (JDict [ "schema" =: JStr "public";
                       "table" =: JStr "users";
                       "columns" =: JList descs;
                       "primary_keys" =: JList (map to_json primary_keys);
                       "foreign_keys" =: JList foreign_keys ]),
       {| world := 3;
          trace := [] ++
                   [ EvConnect 1;
                     EvFetch 1 column_query [PStr "public"; PStr "users"];
                     EvFetch 1 pk_query [PStr (str "public" ++ str "." ++ str "users")];
                     EvFetch 1 fk_query [PStr "public"; PStr "users"];
                     EvClose 1 ] |}) /\
    length descs = length users_columns /\
    Forall2 (fun pk v => row_get pk "column_name" = Return v)
      [["column_name" =: PStr "id"]] primary_keys /\
    Forall2 fk_described [] foreign_keys.
Proof.
  apply (schema_payload_follows_catalog nat users_driver Mock.config "users" "public"
           Mock.start 1 0%nat 1%nat 2%nat 3%nat 3%nat users_columns
           [["column_name" =: PStr "id"]] [] (inr tt)).
  - reflexivity.
  - reflexivity.
  - discriminate.
  - reflexivity.
  - reflexivity.
  - reflexivity.
  - repeat (apply List.Forall_cons; [|try apply List.Forall_nil]);
      try (eexists; split; [reflexivity | exact I]).
  - repeat (apply List.Forall_cons; [eexists; split; [reflexivity | exact I]|]).
    apply List.Forall_nil.
  - apply List.Forall_nil.
Defined.

(** X9: in every successful result of [get_table_schema] the payload
    repeats the schema and table names it was asked for, and each column
    descriptor repeats its catalog row: [type] is the row's [data_type],
    [default] its [column_default] (null when the catalog has none), and
    [nullable] is true exactly when [is_nullable] is the string "YES". *)
Theorem schema_payload_echoes_catalog
    (W : Type) (drv : driver W) (cfg : db_config) (table_name schema_name : pystr)
    (s : state W) (payload : json) (descs : list json) :
  fst (get_table_schema drv cfg table_name schema_name s) = Return payload ->
  field payload "columns" = Some (JList descs) ->
  field payload "schema" = Some (JStr schema_name) /\
  field payload "table" = Some (JStr table_name) /\
  exists c w columns w1,
    db_connect drv cfg (world s) = (inr c, w) /\
    db_fetch drv c column_query [PStr schema_name; PStr table_name] w = (inr columns, w1) /\
    Forall2 column_echoed columns descs.
Proof.
  intros Hrun Hcols.
  destruct (schema_success_inv W drv cfg table_name schema_name s payload descs Hrun Hcols)
    as (c & w & columns & w1 & primary_keys & Hc & Hf & Hinfo & _ & Hschema & Htable & _).
  split; [exact Hschema|]. split; [exact Htable|].
  exists c, w, columns, w1. split; [exact Hc|]. split; [exact Hf|].
  apply omap_Forall2 in Hinfo.
  eapply Forall2_impl; [exact Hinfo|].
  intros col desc Hd. apply (col_dict_echoed primary_keys col desc Hd).
Qed.

Lemma schema_payload_echoes_catalog_witness :
  Some (JStr "public") = Some (JStr "public") /\
  Some (JStr "users") = Some (JStr "users") /\
  exists c w columns w1,
    db_connect users_driver Mock.config 0%nat = (inr c, w) /\
    db_fetch users_driver c column_query [PStr "public"; PStr "users"] w = (inr columns, w1) /\
    Forall2 column_echoed columns users_descriptors.
Proof.
  apply (schema_payload_echoes_catalog nat users_driver Mock.config "users" "public"
           Mock.start
           (JDict [ "schema" =: JStr "public";
                    "table" =: JStr "users";
                    "columns" =: JList users_descriptors;
                    "primary_keys" =: JList [JStr "id"];
                    "foreign_keys" =: JList [] ])
           users_descriptors);
    reflexivity.
Defined.

(** X10: when the column fetch has returned rows and a row of the
    primary-key fetch has no [column_name] column, [get_table_schema]
    makes no foreign-key fetch and closes the connection; it returns the
    error payload whose message is the quoted column name (the text of
    the [KeyError]), or, when closing the connection raises, lets that
    exception through. *)
Theorem schema_missing_key_is_reported
    (W : Type) (drv : driver W) (cfg : db_config) (table_name schema_name : pystr)
    (s : state W) (c : connection) (w w1 w2 w3 : W) (columns pks : list row)
    (closing : exn + unit) :
  db_connect drv cfg (world s) = (inr c, w) ->
  db_fetch drv c column_query [PStr schema_name; PStr table_name] w = (inr columns, w1) ->
  columns <> [] ->
  db_fetch drv c pk_query [PStr (schema_name ++ str "." ++ table_name)] w1 = (inr pks, w2) ->
  Exists (fun pk => ~ has_key pk "column_name") pks ->
  db_close drv c w2 = (closing, w3) ->
  get_table_schema drv cfg table_name schema_name s
  = (match closing with
     | inl e => Raise e
     | inr _ => Return (JDict [ "error" =: JStr "'column_name'"; "status" =: JStr "failed" ])
     end,
     {| world := w3;
        trace := trace s ++
                 [ EvConnect c;
                   EvFetch c column_query [PStr schema_name; PStr table_name];
                   EvFetch c pk_query [PStr (schema_name ++ str "." ++ table_name)];
                   EvClose c ] |}).
Proof.
  intros Hc Hcol Hne Hpk Hmiss Hcl.
  destruct columns as [|col columns]; [congruence|].
  run_handler. rewrite Hc. simpl. rewrite Hcol. simpl.
  match goal with
  | |- context [db_fetch drv c pk_query ?a w1] =>
      change a with [PStr (schema_name ++ str "." ++ table_name)]
  end.
  rewrite Hpk. simpl.
  rewrite (omap_row_get_missing "column_name" pks Hmiss). simpl.
  rewrite Hcl. simpl.
  destruct closing; rewrite <- !app_assoc; reflexivity.
Qed.

Lemma schema_missing_key_is_reported_witness :
  fst (get_table_schema
         (Mock.mock (inr 1) [inr users_columns; inr [["attname" =: PStr "id"]]] (inr None))
         Mock.config "users" "public" Mock.start)
  = Return (JDict [ "error" =: JStr "'column_name'"; "status" =: JStr "failed" ]).
Proof.
  rewrite (schema_missing_key_is_reported nat
             (Mock.mock (inr 1) [inr users_columns; inr [["attname" =: PStr "id"]]] (inr None))
             Mock.config "users" "public" Mock.start 1 0%nat 1%nat 2%nat 2%nat
             users_columns [["attname" =: PStr "id"]] (inr tt)).
  - reflexivity.
  - reflexivity.
  - reflexivity.
  - discriminate.
  - reflexivity.
  - apply Exists_cons_hd. intros [v Hv]. vm_compute in Hv. discriminate Hv.
  - reflexivity.
Defined.

(** ** The fields of a mutation payload *)

(** X11: for a mutation whose status yields an affected count, the
    [type] of the payload is the first word of the statement as it was
    written, in upper case: trimming and uppercasing the whole statement
    before splitting changes nothing else.  When closing the connection
    raises, that exception is the outcome instead. *)
Theorem mutation_type_is_first_word
    (W : Type) (drv : driver W) (cfg : db_config) (query : pystr)
    (params : option (list pyval)) (s : state W) (c : connection) (w w' w'' : W)
    (status : option pystr) (word affected : pystr) (closing : exn + unit) :
  db_connect drv cfg (world s) = (inr c, w) ->
  PyStr.startswith (PyStr.upper (PyStr.strip query)) "SELECT" = false ->
  db_execute drv c query (if params_truthy params then unpack params else []) w
  = (inr status, w') ->
  db_close drv c w' = (closing, w'') ->
  first_item (PyStr.split query) = Return word ->
  affected_of status = Return affected ->
  fst (execute_query drv cfg query params s)
  = match closing with
    | inl e => Raise e
    | inr _ =>
        Return (JDict [ "type" =: JStr (PyStr.upper word);
                        "affected_rows" =: JStr affected;
                        "status" =: JStr "success" ])
    end.
Proof.
  intros Hc Hsel Hx Hcl Hword Haff.
  rewrite (mutation_result W drv cfg query params s c w w' w'' status closing Hc Hsel Hx Hcl),
    Haff.
  change (PyStr.upper (PyStr.strip query)) with (query_upper query).
  rewrite split_query_upper.
  destruct (PyStr.split query) as [|t ts]; [discriminate Hword|].
  injection Hword as ->. reflexivity.
Qed.

Lemma mutation_type_is_first_word_witness :
  fst (execute_query (Mock.mock (inr 1) [] (inr (Some (str "DELETE 3"))))
         Mock.config "  delete from users where active = false" None Mock.start)
  = Return (JDict [ "type" =: JStr (PyStr.upper "delete");
                    "affected_rows" =: JStr "3";
                    "status" =: JStr "success" ]).
Proof.
  apply (mutation_type_is_first_word nat (Mock.mock (inr 1) [] (inr (Some (str "DELETE 3"))))
           Mock.config "  delete from users where active = false" None Mock.start
           1 0%nat 0%nat 0%nat (Some (str "DELETE 3")) "delete" "3" (inr tt));
    reflexivity.
Defined.

(** X12: whenever [execute_query] answers a mutation with status
    "success", the payload has exactly the fields [type],
    [affected_rows], [status]; [type] is one upper-case word and
    [affected_rows] is one word (neither is empty or contains
    whitespace). *)
Theorem mutation_fields_are_words
    (W : Type) (drv : driver W) (cfg : db_config) (query : pystr)
    (params : option (list pyval)) (s : state W) (c : connection) (w w' : W)
    (status : option pystr) (payload : json) :
  db_connect drv cfg (world s) = (inr c, w) ->
  PyStr.startswith (PyStr.upper (PyStr.strip query)) "SELECT" = false ->
  db_execute drv c query (if params_truthy params then unpack params else []) w
  = (inr status, w') ->
  fst (execute_query drv cfg query params s) = Return payload ->
  field payload "status" = Some (JStr "success") ->
  exists type affected,
    payload = JDict [ "type" =: JStr type;
                      "affected_rows" =: JStr affected;
                      "status" =: JStr "success" ] /\
    is_word type /\ PyStr.upper type = type /\ is_word affected.
Proof.
  intros Hc Hsel Hx Hrun Hstatus.
  destruct (db_close drv c w') as [closing w''] eqn:Hcl.
  rewrite (mutation_result W drv cfg query params s c w w' w'' status closing Hc Hsel Hx Hcl)
    in Hrun.
  destruct closing as [e|[]]; [discriminate Hrun|].
  destruct (affected_of status) as [affected|e] eqn:Haff.
  2:{ injection Hrun as <-. vm_compute in Hstatus. discriminate Hstatus. }
  destruct (first_item _) as [type|e] eqn:Htype.
  2:{ injection Hrun as <-. vm_compute in Hstatus. discriminate Hstatus. }
  injection Hrun as <-. exists type, affected.
  split; [reflexivity|].
  change (PyStr.upper (PyStr.strip query)) with (query_upper query) in Htype.
  split; [|split].
  - apply (first_item_word _ type (split_words _) Htype).
  - rewrite split_query_upper in Htype.
    destruct (PyStr.split query) as [|t ts]; [discriminate Htype|].
    injection Htype as <-. apply upper_idem.
  - apply (affected_of_word status affected Haff).
Qed.

Lemma mutation_fields_are_words_witness :
  exists type affected,
    JDict [ "type" =: JStr "CREATE"; "affected_rows" =: JStr "TABLE";
            "status" =: JStr "success" ]
    = JDict [ "type" =: JStr type;
              "affected_rows" =: JStr affected;
              "status" =: JStr "success" ] /\
    is_word type /\ PyStr.upper type = type /\ is_word affected.
Proof.
  apply (mutation_fields_are_words nat (Mock.mock (inr 1) [] (inr (Some (str "CREATE TABLE"))))
           Mock.config "create table t (id int)" None Mock.start
           1 0%nat 0%nat (Some (str "CREATE TABLE")));
    reflexivity.
Defined.

(** ** What the guard reads *)

Section GuardFacts.

Import PyStr.

Lemma toupper_nonempty (c : N) : toupper c <> [].
Proof.
  destruct (isspace c) eqn:E.
  - rewrite (toupper_space c E). discriminate.
  - destruct (toupper_solid c E) as (d & ds & -> & _). discriminate.
Qed.

Lemma upper_length (s : pystr) : length s <= length (upper s).
Proof.
  induction s as [|c s IH]; simpl; [lia|].
  rewrite length_app.
  pose proof (toupper_nonempty c) as Hc.
  destruct (toupper c); [congruence | simpl; lia].
Qed.

Lemma startswith_shorter (a b p : pystr) :
  startswith (a ++ b) p = true -> length p <= length a -> startswith a p = true.
Proof.
  revert a. induction p as [|x p IH]; intros a H Hlen.
  - apply startswith_nil.
  - destruct a as [|y a]; [simpl in Hlen; lia|].
    change ((y :: a) ++ b) with (y :: (a ++ b)) in H.
    rewrite startswith_cons in *.
    apply andb_prop in H. destruct H as [Hy Ha].
    rewrite Hy. simpl in Hlen. apply (IH a Ha). lia.
Qed.

Lemma select_starts_solid (pre : pystr) :
  startswith (upper pre) "SELECT" = true ->
  exists c pre', pre = c :: pre' /\ isspace c = false.
Proof.
  destruct pre as [|c pre]; [discriminate|].
  intros H. exists c, pre. split; [reflexivity|].
  destruct (isspace c) eqn:E; [|reflexivity].
  rewrite (upper_cons_space c pre E) in H.
  change (str "SELECT") with (83%N :: str "ELECT") in H.
  rewrite startswith_cons in H.
  apply andb_prop in H. destruct H as [H _].
  apply N.eqb_eq in H. subst c. discriminate E.
Qed.

(** The queries that pass the SELECT test. *)
Lemma select_test_shape (q : pystr) :
  startswith (upper (strip q)) "SELECT" = true <->
  exists ws pre t,
    q = ws ++ pre ++ t /\ blank ws = true /\ length pre <= 6 /\
    startswith (upper pre) "SELECT" = true.
Proof.
  rewrite select_test_lstrip. split.
  - intros Hsel. destruct (lstrip_decompose q) as (ws & Hws & Hq).
    exists ws, (firstn 6 (lstrip q)), (skipn 6 (lstrip q)).
    rewrite firstn_skipn.
    split; [exact Hq|]. split; [exact Hws|].
    split; [rewrite length_firstn; lia|].
    destruct (Nat.le_gt_cases (length (lstrip q)) 6) as [Hle|Hgt].
    + rewrite firstn_all2 by exact Hle. exact Hsel.
    + apply (startswith_shorter _ (upper (skipn 6 (lstrip q)))).
      * rewrite <- upper_app, firstn_skipn. exact Hsel.
      * pose proof (upper_length (firstn 6 (lstrip q))) as Hup.
        rewrite length_firstn in Hup.
        change (length (str "SELECT")) with 6%nat. lia.
  - intros (ws & pre & t & -> & Hws & _ & Hpre).
    rewrite (lstrip_blank_app ws (pre ++ t) Hws).
    assert (Hl : lstrip (pre ++ t) = pre ++ t).
    { destruct (select_starts_solid pre Hpre) as (c & pre' & -> & E).
      simpl. rewrite E. reflexivity. }
    rewrite Hl, upper_app. apply startswith_app_l, Hpre.
Qed.

End GuardFacts.

(** X13: [execute_safe_query] forwards a query exactly when it consists
    of whitespace, then at most six characters whose upper-case form
    starts with SELECT, then anything: the rest of the text is not
    inspected and is forwarded unchanged.  Every other query is rejected
    with the state untouched.  Whitespace and upper case are the ones of
    [str.strip] and [str.upper], so a no-break space may precede the
    word and a character whose upper case is a letter of SELECT may
    stand for it. *)
Theorem safe_query_reads_six_letters
    (W : Type) (drv : driver W) (cfg : db_config) (query : pystr) (s : state W) :
  ((exists ws pre t,
       query = ws ++ pre ++ t /\ PyStr.blank ws = true /\ length pre <= 6 /\
       PyStr.startswith (PyStr.upper pre) "SELECT" = true) ->
   execute_safe_query drv cfg query s = execute_query drv cfg query None s) /\
  (~ (exists ws pre t,
         query = ws ++ pre ++ t /\ PyStr.blank ws = true /\ length pre <= 6 /\
         PyStr.startswith (PyStr.upper pre) "SELECT" = true) ->
   execute_safe_query drv cfg query s
   = (Return (ErrorResponse "Only SELECT queries are allowed with this tool"), s)).
Proof.
  unfold execute_safe_query. split; intros H.
  - apply select_test_shape in H. rewrite H. reflexivity.
  - destruct (PyStr.startswith (PyStr.upper (PyStr.strip query)) "SELECT") eqn:Hsel.
    + apply select_test_shape in Hsel. contradiction.
    + reflexivity.
Qed.

Lemma safe_query_reads_six_letters_witness :
  execute_safe_query (Mock.mock (inr 1) [inr []] (inr None)) Mock.config
    ([160%N; 32%N] ++ (383%N :: str "elect") ++ str " 1; DROP TABLE users") Mock.start
  = execute_query (Mock.mock (inr 1) [inr []] (inr None)) Mock.config
      ([160%N; 32%N] ++ (383%N :: str "elect") ++ str " 1; DROP TABLE users") None Mock.start.
Proof.
  apply (proj1 (safe_query_reads_six_letters nat (Mock.mock (inr 1) [inr []] (inr None))
                  Mock.config
                  ([160%N; 32%N] ++ (383%N :: str "elect") ++ str " 1; DROP TABLE users")
                  Mock.start)).
  exists [160%N; 32%N], (383%N :: str "elect"), (str " 1; DROP TABLE users").
  split; [reflexivity|]. split; [reflexivity|]. split; [vm_compute; lia | reflexivity].
Defined.

(** ** An unreachable database *)

(** X14: [get_db_connection] makes one connection attempt and hands on
    what the driver answered, the handle or the very exception (nothing
    is retried or wrapped).  When the attempt fails, each handler ends
    with that exception after this single driver call: nothing is
    fetched or executed and no close is attempted. *)
Theorem unreachable_database_single_attempt
    (W : Type) (drv : driver W) (cfg : db_config) (s : state W) :
  (forall c w,
      db_connect drv cfg (world s) = (inr c, w) ->
      get_db_connection drv cfg s
      = (Return c, {| world := w; trace := trace s ++ [EvConnect c] |})) /\
  (forall e w,
      db_connect drv cfg (world s) = (inl e, w) ->
      let failed := (Raise e, {| world := w; trace := trace s ++ [EvConnectFailed] |}) in
      get_db_connection drv cfg s
      = (Raise e, {| world := w; trace := trace s ++ [EvConnectFailed] |}) /\
      (forall schema_name, list_tables drv cfg schema_name s = failed) /\
      (forall table_name schema_name,
          get_table_schema drv cfg table_name schema_name s = failed) /\
      (forall query params, execute_query drv cfg query params s = failed) /\
      (forall query,
          PyStr.startswith (PyStr.upper (PyStr.strip query)) "SELECT" = true ->
          execute_safe_query drv cfg query s = failed)).
Proof.
  split.
  - intros c w Hc. run_handler. rewrite Hc. reflexivity.
  - intros e w Hc failed. subst failed. repeat apply conj.
    + run_handler. rewrite Hc. reflexivity.
    + intros schema_name. run_handler. rewrite Hc. reflexivity.
    + intros table_name schema_name. run_handler. rewrite Hc. reflexivity.
    + intros query params. run_handler. rewrite Hc. reflexivity.
    + intros query Hsel. unfold execute_safe_query. rewrite Hsel. simpl.
      run_handler. rewrite Hc. reflexivity.
Qed.

Lemma unreachable_database_single_attempt_witness :
  list_tables unreachable Mock.config "public" Mock.start
  = (Raise (DriverError "Connection failed"), {| world := 0; trace := [EvConnectFailed] |}) /\
  get_db_connection (Mock.mock (inr 9) [] (inr None)) Mock.config Mock.start
  = (Return 9, {| world := 0; trace := [EvConnect 9] |}).
Proof.
  split.
  - apply (proj2 (unreachable_database_single_attempt nat unreachable Mock.config Mock.start)
             (DriverError "Connection failed") 0%nat eq_refl).
  - apply (proj1 (unreachable_database_single_attempt nat (Mock.mock (inr 9) [] (inr None))
                    Mock.config Mock.start) 9 0%nat eq_refl).
Defined.
